(** * athenadriver: the connection's query path, embedded and verified

    A shallow embedding of [go/connection.go] and [go/wg.go]:
    [buildExecutionParams], [interpolateParams], [getWG], [CreateWGRemotely],
    [getHeaderlessSingleRowResultPage], [cachedQuery] and [QueryContext], with
    the test double [mockAthenaClient] as a concrete remote service.

    Conventions.
    - A Go [string] and a Go [[]byte] are byte sequences: Rocq's [string]
      (a list of 8-bit [ascii]).  A nil slice and an empty slice are both the
      empty list.
    - Go's [int] and [int64] are [Z]; lengths are [nat] and are injected into
      [Z] where the source does arithmetic on them.
    - A Go function returning [(T, error)] returns a pair [T * option error];
      [None] is the nil error.  A nilable pointer is an [option].
    - A run-time panic (nil dereference, index out of range) is the outcome
      [Panic]; the poll loop is bounded by fuel and reports [OutOfFuel].
    - Remote calls are answered by an [AthenaClient], a function of the calls
      made so far, and recorded in the state's [history]. *)

From Stdlib Require Import ZArith List Bool Ascii String Lia DecimalString.
Import ListNotations.

Local Open Scope string_scope.
Local Open Scope Z_scope.

(* ================================================================== *)
(** ** Go strings *)

Module GoString.

(** [len(s)] *)
Definition len (s : string) : Z := Z.of_nat (String.length s).

(** [s[:n]] *)
Fixpoint take (n : nat) (s : string) : string :=
  match n, s with
  | S n', String c s' => String c (take n' s')
  | _, _ => EmptyString
  end.

(** [s[n:]] *)
Fixpoint drop (n : nat) (s : string) : string :=
  match n, s with
  | S n', String _ s' => drop n' s'
  | _, _ => s
  end.

(** [s[i]]; [None] is the index-out-of-range panic. *)
Definition at_ (s : string) (i : Z) : option ascii :=
  if i <? 0 then None else String.get (Z.to_nat i) s.

(** [strings.IndexByte(s, c)]; [None] is Go's [-1]. *)
Fixpoint IndexByte (s : string) (c : ascii) : option nat :=
  match s with
  | EmptyString => None
  | String a s' =>
      if Ascii.eqb a c then Some O
      else match IndexByte s' c with
           | Some k => Some (S k)
           | None => None
           end
  end.

(** [strings.Count(s, string(c))] for a one-byte separator. *)
Fixpoint Count (s : string) (c : ascii) : nat :=
  match s with
  | EmptyString => O
  | String a s' => if Ascii.eqb a c then S (Count s' c) else Count s' c
  end.

(** [strings.HasPrefix(s, p)] *)
Definition HasPrefix (s p : string) : bool := String.prefix p s.

Fixpoint trimLeft (s : string) (c : ascii) : string :=
  match s with
  | String a s' => if Ascii.eqb a c then trimLeft s' c else s
  | EmptyString => EmptyString
  end.

Fixpoint rev (s : string) : string :=
  match s with
  | EmptyString => EmptyString
  | String a s' => rev s' ++ String a EmptyString
  end.

(** [strings.Trim(s, string(c))] for a one-byte cutset. *)
Definition Trim (s : string) (c : ascii) : string :=
  rev (trimLeft (rev (trimLeft s c)) c).

(** [strings.ToLower] on ASCII. *)
Definition lowerByte (a : ascii) : ascii :=
  let n := nat_of_ascii a in
  if andb (Nat.leb 65 n) (Nat.leb n 90) then ascii_of_nat (n + 32) else a.

Fixpoint ToLower (s : string) : string :=
  match s with
  | EmptyString => EmptyString
  | String a s' => String (lowerByte a) (ToLower s')
  end.

(** [n] copies of the byte [c]. *)
Fixpoint replicate (n : nat) (c : ascii) : string :=
  match n with
  | O => EmptyString
  | S n' => String c (replicate n' c)
  end.

End GoString.
Import GoString.

(* ================================================================== *)
(** ** strconv *)

Module strconv.

(** [strconv.FormatInt(v, 10)] and [strconv.FormatUint(v, 10)]: decimal text,
    a leading minus sign for a negative value, no padding. *)
Definition FormatInt (v : Z) : string := NilZero.string_of_int (Z.to_int v).
Definition FormatUint (v : Z) : string := NilZero.string_of_int (Z.to_int v).

End strconv.

(* ================================================================== *)
(** ** The part of Go's [time] package the driver uses *)

Module GoTime.

(** A [*time.Location], as far as one instant is concerned: the offset of
    the zone's wall clock from UTC at that instant, in seconds east. *)
Inductive Location :=
| UTC
| FixedZone (offset : Z).

Definition offsetOf (l : Location) : Z :=
  match l with
  | UTC => 0
  | FixedZone o => o
  end.

(** [time.Time]: an instant and a location. [sec] counts seconds since
    January 1, year 1, 00:00:00 UTC and [nsec] the nanoseconds within that
    second, as [Time.sec()] and [Time.nsec()] do. *)
Record Time := mkTime { sec : Z; nsec : Z; loc : Location }.

(** The range of [nsec] that every [time.Time] keeps. *)
Definition wf (t : Time) : Prop := 0 <= nsec t < 1000000000.

(** [t.IsZero()] *)
Definition IsZero (t : Time) : bool := (sec t =? 0) && (nsec t =? 0).

(** [t.In(loc)] *)
Definition In (t : Time) (l : Location) : Time := mkTime (sec t) (nsec t) l.

(** [t.Add(d)], [d] a [time.Duration] in nanoseconds. Go's [/] and [%]
    truncate toward zero. *)
Definition Add (t : Time) (d : Z) : Time :=
  let dsec := Z.quot d 1000000000 in
  let ns := nsec t + Z.rem d 1000000000 in
  if ns >=? 1000000000 then mkTime (sec t + dsec + 1) (ns - 1000000000) (loc t)
  else if ns <? 0 then mkTime (sec t + dsec - 1) (ns + 1000000000) (loc t)
  else mkTime (sec t + dsec) ns (loc t).

(** [t.abs()], rebased: seconds of the location's wall clock since
    January 1, year 1. *)
Definition abs (t : Time) : Z := sec t + offsetOf (loc t).

Definition isLeap (year : Z) : bool :=
  (year mod 4 =? 0) && (negb (year mod 100 =? 0) || (year mod 400 =? 0)).

(** [absDate]'s first half: the year and the day within the year (from 0)
    of a day count, by 400-, 100-, 4- and 1-year cycles. *)
Definition yearAndYday (days : Z) : Z * Z :=
  let n := days / 146097 in
  let y := 400 * n in
  let d := days - 146097 * n in
  let n := d / 36524 in
  let n := n - Z.shiftr n 2 in
  let y := y + 100 * n in
  let d := d - 36524 * n in
  let n := d / 1461 in
  let y := y + 4 * n in
  let d := d - 1461 * n in
  let n := d / 365 in
  let n := n - Z.shiftr n 2 in
  let y := y + n in
  let d := d - 365 * n in
  (y + 1, d).

(** [daysBefore[m]]: days in a non-leap year before month [m+1]. *)
Definition daysBefore (m : Z) : Z :=
  nth (Z.to_nat m) [0; 31; 59; 90; 120; 151; 181; 212; 243; 273; 304; 334; 365] 0.

(** [absDate]'s second half: month (January is 1) and day of the month,
    for a leap or a common year. *)
Definition monthAndDayOf (leap : bool) (yday : Z) : Z * Z :=
  if leap && (yday =? 31 + 29 - 1) then (2, 29)
  else
    let day := if leap && (yday >? 31 + 29 - 1) then yday - 1 else yday in
    let month := day / 31 in
    let e := daysBefore (month + 1) in
    if day >=? e then (month + 1 + 1, day - e + 1)
    else (month + 1, day - daysBefore month + 1).

Definition monthAndDay (year yday : Z) : Z * Z := monthAndDayOf (isLeap year) yday.

Definition Year (t : Time) : Z := fst (yearAndYday (abs t / 86400)).
Definition YearDay0 (t : Time) : Z := snd (yearAndYday (abs t / 86400)).
Definition Month (t : Time) : Z := fst (monthAndDay (Year t) (YearDay0 t)).
Definition Day (t : Time) : Z := snd (monthAndDay (Year t) (YearDay0 t)).
Definition Hour (t : Time) : Z := (abs t mod 86400) / 3600.
Definition Minute (t : Time) : Z := (abs t mod 3600) / 60.
Definition Second (t : Time) : Z := abs t mod 60.
Definition Nanosecond (t : Time) : Z := nsec t.

(** One decimal digit. *)
Definition digit (d : Z) : ascii := ascii_of_nat (48 + Z.to_nat d).

(** The last [width] decimal digits of [x], most significant first. *)
Fixpoint digitsOf (width : nat) (x : Z) : string :=
  match width with
  | O => EmptyString
  | S w => digitsOf w (x / 10) ++ String (digit (x mod 10)) EmptyString
  end.

(** [appendInt(b, x, width)] of [time/format.go]: [x] in decimal, zero-padded
    to at least [width] digits, after a minus sign when negative. *)
Definition appendInt (x : Z) (width : nat) : string :=
  let u := Z.abs x in
  (if x <? 0 then "-" else "") ++
  (if u <? 10 ^ Z.of_nat width then digitsOf width u else strconv.FormatUint u).

(** The two layouts the driver formats with. *)
Inductive Layout :=
| timestampFormatDriverMicro   (* "2006-01-02 15:04:05.000000" *)
| DateTime.                    (* time.DateTime, "2006-01-02 15:04:05" *)

(** [t.Format(layout)] for these layouts; the fraction [.000000] is the
    nanosecond field truncated to microseconds. *)
Definition Format (t : Time) (layout : Layout) : string :=
  appendInt (Year t) 4 ++ "-" ++ appendInt (Month t) 2 ++ "-" ++
  appendInt (Day t) 2 ++ " " ++ appendInt (Hour t) 2 ++ ":" ++
  appendInt (Minute t) 2 ++ ":" ++ appendInt (Second t) 2 ++
  match layout with
  | timestampFormatDriverMicro => "." ++ digitsOf 6 (Nanosecond t / 1000)
  | DateTime => ""
  end.

(** Days from January 1 of year 1 to January 1 of year [y], used to write
    concrete instants: [time.Date(y, 1, 1, 0, 0, 0, 0, time.UTC)] is the
    second [daysBeforeYear y * 86400]. *)
Definition daysBeforeYear (y : Z) : Z :=
  let p := y - 1 in 365 * p + p / 4 - p / 100 + p / 400.

End GoTime.

(* ================================================================== *)
(** ** Errors, values and outcomes *)

(** The [error] values that reach the connection. The driver's own sentinel
    errors are declared in [errors.go]; only their identity matters here. *)
Inductive error :=
| ErrInvalidQuery
| ErrQueryUnknownType
| ErrQueryBufferOF
| ErrQueryTimeout
| ErrAthenaNilClient
| ErrTestMockGeneric
| ErrTestMockFailedByAthena
| contextCanceled                                  (* context.Canceled *)
| contextDeadlineExceeded                          (* context.DeadlineExceeded *)
| errorString (msg : string)                       (* errors.New, fmt.Errorf *)
| smithyResponseError (Err : error)                (* *smithyhttp.ResponseError *)
| awsResponseError (Err : error) (RequestID : string)  (* *awshttp.ResponseError *)
| wrapError (msg : string) (Err : error).          (* any other error with Unwrap *)

(** [errors.As(err, &re)] for [re *awshttp.ResponseError], followed by
    [re.ServiceRequestID()]: the first response error of the [Unwrap] chain. *)
Fixpoint asResponseError (e : error) : option string :=
  match e with
  | awsResponseError _ id => Some id
  | smithyResponseError e' => asResponseError e'
  | wrapError _ e' => asResponseError e'
  | _ => None
  end.

(** What running a Go function ends in. *)
Inductive Outcome (A : Type) :=
| Return (a : A)
| Panic (why : string)
| OutOfFuel.
Arguments Return {A} a.
Arguments Panic {A} why.
Arguments OutOfFuel {A}.

(** A [driver.Value] by dynamic type; [VOther] is any type the type switches
    do not list. [VFloat64] carries the IEEE 754 bits of the number. *)
Inductive Value :=
| VNil
| VInt64 (v : Z)
| VUint64 (v : Z)
| VFloat64 (bits : Z)
| VBool (v : bool)
| VTime (v : GoTime.Time)
| VBytes (v : string)
| VString (v : string)
| VOther (typeName : string).

(** [driver.NamedValue] *)
Record NamedValue := mkNamedValue { nvName : string; nvOrdinal : Z; nvValue : Value }.

(** Modelled from the spec: the two lookup tables [digits01] and [digits10]
    of [utils.go], which this development does not embed. The rendering
    ['YYYY-MM-DD HH:MM:SS'] takes each pair of digits from them, so they hold
    the units digit and the tens digit of each number below 100. *)
Definition digits01 : string :=
  "0123456789012345678901234567890123456789012345678901234567890123456789012345678901234567890123456789".
Definition digits10 : string :=
  "0000000000111111111122222222223333333333444444444455555555556666666666777777777788888888889999999999".

(** What [connection.go] takes from the rest of the package and from
    [strconv]: constants, the escaping helpers and the float formatter. *)
Class Externals := {
  (** [MAXQueryStringLength] of [constants.go] *)
  MAXQueryStringLength : Z;
  (** [strconv.FormatFloat(v, 'g', -1, 64)], which is also what
      [strconv.AppendFloat(buf, v, 'g', -1, 64)] appends *)
  FormatFloat : Z -> string;
  (** [escapeBytesBackslash(buf, v)] and [escapeStringBackslash(buf, v)] of
      [utils.go]: [buf] with the escaped [v] appended *)
  escapeBytesBackslash : string -> string -> string;
  escapeStringBackslash : string -> string -> string;
}.

(* ================================================================== *)
(** ** [buildExecutionParams] and [interpolateParams] *)

Section Interpolation.
Context {X : Externals}.

(** The [time.Time] case of [buildExecutionParams] (lines 81-98). *)
Definition execParamTime (v : GoTime.Time) : string :=
  if negb (GoTime.IsZero v) then
    let v := GoTime.In v GoTime.UTC in
    let v := GoTime.Add v (1 * 500) in
    let dateFormat :=
      if GoTime.Nanosecond v / 1000 =? 0 then GoTime.DateTime
      else GoTime.timestampFormatDriverMicro in
    "'" ++ GoTime.Format v dateFormat ++ "'"
  else "'0000-00-00'".

(** The body of [buildExecutionParams]'s loop for one argument: the text to
    append, or the error of the [default] case. *)
Definition execParam (arg : Value) : string + error :=
  match arg with
  | VNil => inl "NULL"
  | VInt64 v => inl (strconv.FormatInt v)
  | VUint64 v => inl (strconv.FormatUint v)
  | VFloat64 v => inl (FormatFloat v)
  | VBool v => inl (if v then "1" else "0")
  | VTime v => inl (execParamTime v)
  | VBytes v => inl v
  | VString v => inl v
  | VOther _ => inr ErrQueryUnknownType
  end.

Fixpoint buildExecutionParamsLoop (args : list Value) (executionParams : list string)
  : list string * option error :=
  match args with
  | [] => (executionParams, None)
  | arg :: args' =>
      match execParam arg with
      | inl val => buildExecutionParamsLoop args' (executionParams ++ [val])
      | inr e => ([], Some e)
      end
  end.

(** [func (c *Connection) buildExecutionParams(args []driver.Value) ([]string, error)] *)
Definition buildExecutionParams (args : list Value) : list string * option error :=
  if (List.length args =? 0)%nat then ([], None)
  else buildExecutionParamsLoop args [].

(** [[]byte{digits10[n], digits01[n]}]; [None] when an index is out of
    range, where Go panics. *)
Definition twoDigits (n : Z) : option string :=
  match at_ digits10 n, at_ digits01 n with
  | Some a, Some b => Some (String a (String b EmptyString))
  | _, _ => None
  end.

(** The [time.Time] case of [interpolateParams] (lines 160-204). Go's [/]
    and [%] are [Z.quot] and [Z.rem]. *)
Definition appendTime (queryBuffer : string) (v : GoTime.Time) : Outcome string :=
  if GoTime.IsZero v then Return (queryBuffer ++ "'0000-00-00'")
  else
    let v := GoTime.In v GoTime.UTC in
    let v := GoTime.Add v (1 * 500) in
    let year := GoTime.Year v in
    let year100 := Z.quot year 100 in
    let year1 := Z.rem year 100 in
    let month := GoTime.Month v in
    let day := GoTime.Day v in
    let hour := GoTime.Hour v in
    let minute := GoTime.Minute v in
    let second := GoTime.Second v in
    let micro := Z.quot (GoTime.Nanosecond v) 1000 in
    match twoDigits year100, twoDigits year1, twoDigits month, twoDigits day,
          twoDigits hour, twoDigits minute, twoDigits second with
    | Some y100, Some y1, Some mo, Some d, Some h, Some mi, Some s =>
        let queryBuffer :=
          queryBuffer ++ "'" ++ y100 ++ y1 ++ "-" ++ mo ++ "-" ++ d ++ " " ++
          h ++ ":" ++ mi ++ ":" ++ s in
        if negb (micro =? 0) then
          let micro10000 := Z.quot micro 10000 in
          let micro100 := Z.rem (Z.quot micro 100) 100 in
          let micro1 := Z.rem micro 100 in
          match twoDigits micro10000, twoDigits micro100, twoDigits micro1 with
          | Some m1, Some m2, Some m3 =>
              Return ((queryBuffer ++ "." ++ m1 ++ m2 ++ m3) ++ "'")
          | _, _, _ => Panic "index out of range"
          end
        else Return (queryBuffer ++ "'")
    | _, _, _, _, _, _, _ => Panic "index out of range"
    end.

(** The type switch of [interpolateParams] (lines 147-215) for an argument
    that is not the nil interface: the buffer after the append, or the error
    of the [default] case. *)
Definition appendArg (queryBuffer : string) (arg : Value) : Outcome (string + error) :=
  match arg with
  | VInt64 v => Return (inl (queryBuffer ++ strconv.FormatInt v))
  | VUint64 v => Return (inl (queryBuffer ++ strconv.FormatUint v))
  | VFloat64 v => Return (inl (queryBuffer ++ FormatFloat v))
  | VBool v => Return (inl (queryBuffer ++ (if v then "1" else "0")))
  | VTime v =>
      match appendTime queryBuffer v with
      | Return b => Return (inl b)
      | Panic why => Panic why
      | OutOfFuel => OutOfFuel
      end
  | VBytes v =>
      let queryBuffer := queryBuffer ++ "_binary'" in
      let queryBuffer := escapeBytesBackslash queryBuffer v in
      Return (inl (queryBuffer ++ "'"))
  | VString v =>
      let queryBuffer := queryBuffer ++ "'" in
      let queryBuffer := escapeStringBackslash queryBuffer v in
      Return (inl (queryBuffer ++ "'"))
  | VNil | VOther _ => Return (inr ErrQueryUnknownType)
  end.

(** The [for] loop of [interpolateParams] (lines 130-220). [rest] is
    [query[i:]] and [args] is [args[argPos:]]; one turn of the loop consumes
    the text up to and including the next [?] and one argument. *)
Fixpoint interpolateLoop (args : list Value) (rest : string) (queryBuffer : string)
  : Outcome (string * option error) :=
  if (String.length rest =? 0)%nat then Return (queryBuffer, None)
  else
    match IndexByte rest "?" with
    | None => Return (queryBuffer ++ rest, None)
    | Some q =>
        let queryBuffer := queryBuffer ++ take q rest in
        let rest := drop (S q) rest in
        match args with
        | [] => Panic "index out of range"
        | VNil :: args' => interpolateLoop args' rest (queryBuffer ++ "NULL")
        | arg :: args' =>
            match appendArg queryBuffer arg with
            | Return (inl queryBuffer) =>
                if len queryBuffer + 4 >? 10 * MAXQueryStringLength
                then Return ("", Some ErrQueryBufferOF)
                else interpolateLoop args' rest queryBuffer
            | Return (inr e) => Return ("", Some e)
            | Panic why => Panic why
            | OutOfFuel => OutOfFuel
            end
        end
    end.

(** [func (c *Connection) interpolateParams(query string, args []driver.Value) (string, error)].
    Its assignment to [c.numInput] is made by the caller's model, [setNumInput]. *)
Definition interpolateParams (query : string) (args : list Value)
  : Outcome (string * option error) :=
  if negb (Count query "?" =? List.length args)%nat then Return ("", Some ErrInvalidQuery)
  else interpolateLoop args query "".

End Interpolation.

(* ================================================================== *)
(** ** The remote service and the state of a run *)

(** [athenatypes.QueryExecutionState], [athenatypes.StatementType] and
    [athenatypes.WorkGroupState] are string types; the [Other] constructors
    stand for a string that is none of the SDK's constants. *)
Inductive QueryExecutionState :=
| QueryExecutionStateQueued
| QueryExecutionStateRunning
| QueryExecutionStateSucceeded
| QueryExecutionStateFailed
| QueryExecutionStateCancelled
| QueryExecutionStateOther (s : string).

Inductive StatementType :=
| StatementTypeDdl
| StatementTypeDml
| StatementTypeUtility
| StatementTypeOther (s : string).

Inductive WorkGroupState :=
| WorkGroupStateEnabled
| WorkGroupStateDisabled
| WorkGroupStateOther (s : string).

Record WorkGroup := mkWorkGroup { wgState : WorkGroupState }.

Record GetWorkGroupOutput := mkGetWorkGroupOutput { outWorkGroup : option WorkGroup }.

Record QueryExecutionStatus := mkStatus {
  State : QueryExecutionState;
  StateChangeReason : option string }.

Record QueryExecution := mkQueryExecution {
  Status : option QueryExecutionStatus;
  qeStatementType : StatementType }.

Record GetQueryExecutionOutput := mkGetQueryExecutionOutput {
  outQueryExecution : option QueryExecution }.

Record StartQueryExecutionInput := mkStartInput {
  QueryString : string;
  ExecutionParameters : list string;
  Database : string;
  OutputLocation : string;
  inWorkGroup : string }.

Record StartQueryExecutionOutput := mkStartOutput { QueryExecutionId : option string }.

(** One remote call, as it is recorded in the run's history. *)
Inductive Call :=
| CallGetWorkGroup (name : string)
| CallCreateWorkGroup (name : string) (tags : list (string * string))
| CallStartQueryExecution (input : StartQueryExecutionInput)
| CallGetQueryExecution (id : string)
| CallStopQueryExecution (id : string)
| CallGetQueryResults (id : string) (token : option string).

(** The [AthenaClient] interface. Each operation answers from its request and
    from the calls made before it, so a client may answer the same request
    differently as the run goes on. [StopQueryExecution]'s output value is
    dropped by both of its callers, so only its error is kept. *)
Record AthenaClient := mkAthenaClient {
  GetWorkGroup : list Call -> string -> option GetWorkGroupOutput * option error;
  CreateWorkGroup : list Call -> string -> list (string * string) -> option error;
  StartQueryExecution :
    list Call -> StartQueryExecutionInput -> option StartQueryExecutionOutput * option error;
  GetQueryExecution : list Call -> string -> option GetQueryExecutionOutput * option error;
  StopQueryExecution : list Call -> string -> option error }.

(** A [context.Context] as the poll loop sees it: [Done h] says that the
    [select] reached after the calls [h] takes its [ctx.Done()] case, the
    channel being ready before the poll timer fires; [ctxErr] is [ctx.Err()]
    from then on. *)
Record Context := mkContext { Done : list Call -> bool; ctxErr : error }.

(** What is mutable during a call of [QueryContext]: the remote calls made so
    far, the package's workgroup memoizer [getWGGroup] (name, workgroup,
    expiry), and the connection's [numInput]. *)
Record RunState := mkRunState {
  history : list Call;
  getWGGroup : list (string * (option WorkGroup * Z));
  numInput : Z }.

Definition M (A : Type) : Type := RunState -> Outcome A * RunState.

Definition ret {A} (a : A) : M A := fun st => (Return a, st).

Definition bind {A B} (m : M A) (k : A -> M B) : M B :=
  fun st =>
    match m st with
    | (Return a, st') => k a st'
    | (Panic why, st') => (Panic why, st')
    | (OutOfFuel, st') => (OutOfFuel, st')
    end.

Definition panic {A} (why : string) : M A := fun st => (Panic why, st).

Definition lift {A} (o : Outcome A) : M A := fun st => (o, st).

Notation "x <- m ;; k" := (bind m (fun x => k))
  (at level 61, m at next level, right associativity).
Notation "' pat <- m ;; k" := (bind m (fun x => match x with pat => k end))
  (at level 61, pat pattern, m at next level, right associativity).

(** A remote call: answered from the history before it, then recorded. *)
Definition remote {A} (ev : Call) (answer : list Call -> A) : M A :=
  fun st =>
    (Return (answer (history st)),
     mkRunState (history st ++ [ev]) (getWGGroup st) (numInput st)).

Definition getHistory : M (list Call) := fun st => (Return (history st), st).

Definition setNumInput (n : Z) : M unit :=
  fun st => (Return tt, mkRunState (history st) (getWGGroup st) n).

(** A pointer dereference. *)
Definition deref {A} (p : option A) : M A :=
  match p with
  | Some a => ret a
  | None => panic "nil pointer dereference"
  end.

(** The driver's [Workgroup] ([wg.go]); its [Config] is passed on unread. *)
Record Workgroup := mkWorkgroup { Name : string; Tags : list (string * string) }.

(** One page of results and the cursor [*Rows] over a result set, as far as
    [connection.go] touches them. *)
Record ResultPage := mkResultPage {
  columnNames : list string;
  columnTypes : list string;
  data : list (list (option string)) }.

Record Rows := mkRows { rowsQueryID : string; ResultOutput : option ResultPage }.

(** Modelled from the spec: the per-statement-type timeout overrides of the
    session configuration; [ServiceLimitOverride] is declared in a file
    this development does not embed. *)
Record ServiceLimitOverride := mkServiceLimitOverride {
  ddlQueryTimeout : Z;
  dmlQueryTimeout : Z }.

(** Modelled from the spec: the session configuration [*Config] read through
    its getters (read-only flag, workgroup and creation policy, poll
    interval, timeout overrides, cost-accounting toggle, database, output
    location); [config.go] is a file this development does not embed. *)
Record Config := mkConfig {
  IsReadOnly : bool;
  IsMoneyWise : bool;
  IsWGRemoteCreationAllowed : bool;
  GetWorkgroup : Workgroup;
  GetDB : string;
  GetOutputBucket : string;
  GetResultPollIntervalSeconds : Z;
  GetServiceLimitOverride : option ServiceLimitOverride }.

(** [Connection]: a nil [athenaClient] or [connector] is [None] (as after
    [Close]); [numInput] lives in the [RunState]. *)
Record Connection := mkConnection {
  athenaClient : option AthenaClient;
  connector : option Config }.

(** Modelled from the spec: the names of the four pseudo commands
    ([PCGetQID], [PCGetQIDStatus], [PCStopQID], [PCGetDriverVersion] of
    [constants.go]) as the query-string control surface lists them. *)
Definition PCGetQID : string := "get_query_id".
Definition PCGetQIDStatus : string := "get_query_id_status".
Definition PCStopQID : string := "stop_query_id".
Definition PCGetDriverVersion : string := "get_driver_version".

(** What [connection.go] and [wg.go] take from the rest of the package and
    from the clock. *)
Class Package := {
  (** [DefaultWGName] and [DriverVersion] of [constants.go] *)
  DefaultWGName : string;
  DriverVersion : string;
  (** helpers of [utils.go] *)
  namedValueToValue : list NamedValue -> list Value;
  isReadOnlyStatement : string -> bool;
  isQueryValid : string -> bool;
  IsQID : string -> bool;
  (** [isQueryTimeOut(start, statementType, override)], which reads the
      clock: the second argument is [time.Now()] at the call *)
  isQueryTimeOut : Z -> Z -> StatementType -> option ServiceLimitOverride -> bool;
  (** [NewRows(ctx, athenaClient, queryID, config, obs)] of [rows.go], which
      may fetch result pages *)
  NewRows : option AthenaClient -> string -> Config -> M (option Rows * option error);
  (** [time.Now()] after the calls made so far, in nanoseconds *)
  timeNow : list Call -> Z;
}.

(** Modelled from the spec: [NewNonOpsRows] of [rows.go] builds a cursor for
    [queryID] with no remote interaction and no error. *)
Definition NewNonOpsRows (queryID : string) : M (option Rows * option error) :=
  ret (Some (mkRows queryID None), None).

(** Modelled from the spec: [newHeaderlessResultPage] builds a page with the
    given columns whose rows are all data (no header row). *)
Definition newHeaderlessResultPage
  (names types : list string) (rows : list (list (option string))) : ResultPage :=
  mkResultPage names types rows.

(** The double quote, and [%q] for a name that needs no escaping. *)
Definition dquote : string := String (ascii_of_nat 34) EmptyString.
Definition fmtQ (s : string) : string := dquote ++ s ++ dquote.

(* ================================================================== *)
(** ** [wg.go] *)

Section WG.
Context {P : Package}.

Fixpoint cacheLookup (key : string) (m : list (string * (option WorkGroup * Z)))
  : option (option WorkGroup * Z) :=
  match m with
  | [] => None
  | (k, v) :: m' => if String.eqb k key then Some v else cacheLookup key m'
  end.

(** [getWGGroup.Do(ctx, key, fetch)] of the memoize package, for one caller
    at a time: an entry that has not expired is returned without calling
    [fetch]; otherwise [fetch] runs, and its value is stored with its expiry
    unless it failed. *)
Definition memoizeDo (key : string) (fetch : string -> M (option WorkGroup * Z * option error))
  : M (option WorkGroup * Z * option error) :=
  fun st =>
    match cacheLookup key (getWGGroup st) with
    | Some (v, expiresAt) =>
        if timeNow (history st) <? expiresAt then (Return (v, expiresAt, None), st)
        else
          match fetch key st with
          | (Return (v', e', None), st') =>
              (Return (v', e', None),
               mkRunState (history st') ((key, (v', e')) :: getWGGroup st') (numInput st'))
          | r => r
          end
    | None =>
        match fetch key st with
        | (Return (v', e', None), st') =>
            (Return (v', e', None),
             mkRunState (history st') ((key, (v', e')) :: getWGGroup st') (numInput st'))
        | r => r
        end
    end.

(** [func getWG(ctx, client AthenaClient, name string)], returning the
    workgroup pointer and an error. *)
Definition getWG (client : option AthenaClient) (name : string)
  : M (option WorkGroup * option error) :=
  match client with
  | None => ret (None, Some ErrAthenaNilClient)
  | Some cl =>
      let fetch (key : string) : M (option WorkGroup * Z * option error) :=
        '(out, err) <- remote (CallGetWorkGroup key) (fun h => GetWorkGroup cl h key) ;;
        match err with
        | Some e => ret (None, 0, Some e)
        | None =>
            out <- deref out ;;
            h <- getHistory ;;
            let wg := outWorkGroup out in
            let expiresAt := timeNow h + 10 * 60000000000 in
            ret (wg, expiresAt, None)
        end in
      '(wg, _, err) <- memoizeDo name fetch ;;
      match err with
      | Some e => ret (None, Some e)
      | None => ret (wg, None)
      end
  end.

(** [func (w *Workgroup) CreateWGRemotely(ctx, athenaClient AthenaClient) error] *)
Definition CreateWGRemotely (w : Workgroup) (client : option AthenaClient) : M (option error) :=
  cl <- deref client ;;
  let tags := Tags w in
  if (List.length tags =? 0)%nat
  then remote (CallCreateWorkGroup (Name w) []) (fun h => CreateWorkGroup cl h (Name w) [])
  else remote (CallCreateWorkGroup (Name w) tags) (fun h => CreateWorkGroup cl h (Name w) tags).

End WG.

(* ================================================================== *)
(** ** [connection.go]: [QueryContext] *)

(** What [QueryContext] returns: [(driver.Rows, error)]. *)
Definition Result : Type := option Rows * option error.

(** How lines 304-318 of [QueryContext] leave the query: on to the rest of
    the function with a pseudo command (or none) and the stripped query, the
    driver-version short cut, or the unknown-command error. *)
Inductive Stripped :=
| Proceed (pseudoCommand : string) (query : string)
| Version
| Unknown (query : string).

Definition stripPseudoCommand (query : string) : Stripped :=
  if HasPrefix query "pc:" then
    let query := Trim (drop 3 query) " " in
    if HasPrefix query (PCGetQID ++ " ")
    then Proceed PCGetQID (Trim (drop (String.length PCGetQID) query) " ")
    else if HasPrefix query (PCGetQIDStatus ++ " ")
    then Proceed PCGetQIDStatus (Trim (drop (String.length PCGetQIDStatus) query) " ")
    else if HasPrefix query (PCStopQID ++ " ")
    then Proceed PCStopQID (Trim (drop (String.length PCStopQID) query) " ")
    else if HasPrefix query PCGetDriverVersion
    then Version
    else Unknown query
  else Proceed "" query.

(** [string(state)] for a [QueryExecutionState]. *)
Definition stateString (s : QueryExecutionState) : string :=
  match s with
  | QueryExecutionStateQueued => "QUEUED"
  | QueryExecutionStateRunning => "RUNNING"
  | QueryExecutionStateSucceeded => "SUCCEEDED"
  | QueryExecutionStateFailed => "FAILED"
  | QueryExecutionStateCancelled => "CANCELLED"
  | QueryExecutionStateOther s => s
  end.

(** What the first half of [QueryContext] hands to the second: the values of
    its local variables at line 407. *)
Record Submission := mkSubmission {
  sConfig : Config;
  pseudoCommand : string;
  sQuery : string;
  queryWithPlaceholders : string;
  sArgs : list Value;
  wgName : string;
  startOfStartQueryExecution : Z }.

Section Conn.
Context {X : Externals} {P : Package}.

(** [getHeaderlessSingleRowResultPage(ctx, qid)] *)
Definition getHeaderlessSingleRowResultPage (qid : string) : M Result :=
  '(r, err) <- NewNonOpsRows qid ;;
  r <- deref r ;;
  let colName := "_col0" in
  let columnNames := [colName] in
  let columnTypes := ["string"] in
  let data := [[Some qid]] in
  let r := mkRows (rowsQueryID r)
             (Some (newHeaderlessResultPage columnNames columnTypes data)) in
  ret (Some r, err).

(** [cachedQuery(ctx, QID)]; [printCost] only prints. *)
Definition cachedQuery (c : Connection) (cfg : Config) (QID : string) : M Result :=
  NewRows (athenaClient c) QID cfg.

(** Lines 340-368: the workgroup block. It yields the error of an early
    return, if any, and [wg.Name] as the block leaves it. *)
Definition resolveWorkgroup (c : Connection) (cfg : Config) : M (option error * string) :=
  let wg := GetWorkgroup cfg in
  if String.eqb (Name wg) "" then ret (None, DefaultWGName)
  else if negb (String.eqb (Name wg) DefaultWGName) then
    '(athenaWG, err) <- getWG (athenaClient c) (Name wg) ;;
    match err with
    | Some _ =>
        if IsWGRemoteCreationAllowed cfg then
          err <- CreateWGRemotely wg (athenaClient c) ;;
          match err with
          | Some e => ret (Some e, Name wg)
          | None => ret (None, Name wg)
          end
        else
          ret (Some (errorString
                 ("workgroup " ++ fmtQ (Name wg) ++
                  " doesn't exist and workgroup remote creation is disabled")),
               Name wg)
    | None =>
        athenaWG <- deref athenaWG ;;
        match wgState athenaWG with
        | WorkGroupStateEnabled => ret (None, Name wg)
        | _ => ret (Some (errorString ("workgroup " ++ fmtQ (Name wg) ++ " is disabled")),
                    Name wg)
        end
    end
  else ret (None, Name wg).

(** Lines 375-405: the query is itself an execution id. *)
Definition queryByQID (c : Connection) (cfg : Config) (pseudoCommand query : string)
  : M Result :=
  if String.eqb pseudoCommand PCGetQIDStatus then
    cl <- deref (athenaClient c) ;;
    '(statusResp, err) <-
      remote (CallGetQueryExecution query) (fun h => GetQueryExecution cl h query) ;;
    match err with
    | Some e => ret (None, Some e)
    | None =>
        statusResp <- deref statusResp ;;
        qe <- deref (outQueryExecution statusResp) ;;
        status <- deref (Status qe) ;;
        getHeaderlessSingleRowResultPage (stateString (State status))
    end
  else if String.eqb pseudoCommand PCStopQID then
    cl <- deref (athenaClient c) ;;
    err <- remote (CallStopQueryExecution query) (fun h => StopQueryExecution cl h query) ;;
    match err with
    | Some e => ret (None, Some e)
    | None => getHeaderlessSingleRowResultPage "OK"
    end
  else cachedQuery c cfg query.

(** Lines 303-405 of [QueryContext]: everything before the submission. The
    result is the function's return value where it returns here, and the
    local variables otherwise. Logging, metrics and [printCost] have no
    effect on the run and are left out. The message of the unknown-command
    error is built by [fmt.Errorf] with the query inside the format string;
    it is given here for a query without [%] verbs. *)
Definition beforeSubmission
  (c : Connection) (ctx : Context) (query : string) (namedArgs : list NamedValue)
  : M (Result + Submission) :=
  cfg <- deref (connector c) ;;
  match stripPseudoCommand query with
  | Version => r <- getHeaderlessSingleRowResultPage DriverVersion ;; ret (inl r)
  | Unknown query =>
      ret (inl (None, Some (errorString ("pseudo command " ++ query ++ "doesn't exist"))))
  | Proceed pseudoCommand query =>
      if IsReadOnly cfg && negb (isReadOnlyStatement query) then
        ret (inl (None, Some (errorString
                    "writing to Athena database is disallowed in read-only mode")))
      else
        let args := namedValueToValue namedArgs in
        let queryWithPlaceholders := query in
        '(query, err) <-
          (if (0 <? List.length namedArgs)%nat
           then _ <- setNumInput (Z.of_nat (List.length args)) ;;
                lift (interpolateParams query args)
           else ret (query, None)) ;;
        match err with
        | Some e => ret (inl (None, Some e))
        | None =>
            if negb (isQueryValid query) then ret (inl (None, Some ErrInvalidQuery))
            else
              '(err, wgName) <- resolveWorkgroup c cfg ;;
              match err with
              | Some e => ret (inl (None, Some e))
              | None =>
                  h <- getHistory ;;
                  let startOfStartQueryExecution := timeNow h in
                  if IsQID query then
                    r <- queryByQID c cfg pseudoCommand query ;; ret (inl r)
                  else
                    ret (inr (mkSubmission cfg pseudoCommand query queryWithPlaceholders
                                args wgName startOfStartQueryExecution))
              end
        end
  end.

(** Lines 441-523 and 525: the poll loop [WAITING_FOR_RESULT], one turn per
    unit of fuel, and the [NewRows] that follows its [break]. *)
Fixpoint waitingForResult
  (fuel : nat) (c : Connection) (cfg : Config) (ctx : Context)
  (startOfStartQueryExecution : Z) (queryID : string) : M Result :=
  match fuel with
  | O => lift OutOfFuel
  | S fuel' =>
      cl <- deref (athenaClient c) ;;
      '(statusResp, err) <-
        remote (CallGetQueryExecution queryID) (fun h => GetQueryExecution cl h queryID) ;;
      match err with
      | Some e => ret (None, Some e)
      | None =>
          statusResp <- deref statusResp ;;
          qe <- deref (outQueryExecution statusResp) ;;
          status <- deref (Status qe) ;;
          match State status with
          | QueryExecutionStateCancelled => ret (None, Some contextCanceled)
          | QueryExecutionStateFailed =>
              reason <- deref (StateChangeReason status) ;;
              ret (None, Some (errorString reason))
          | QueryExecutionStateSucceeded => NewRows (athenaClient c) queryID cfg
          | _ =>
              h <- getHistory ;;
              if Done ctx h then
                err <- remote (CallStopQueryExecution queryID)
                         (fun h => StopQueryExecution cl h queryID) ;;
                match err with
                | Some e => ret (None, Some e)
                | None =>
                    _ <- (if IsMoneyWise cfg
                          then _ <- remote (CallGetQueryExecution queryID)
                                      (fun h => GetQueryExecution cl h queryID) ;;
                               ret tt
                          else ret tt) ;;
                    ret (None, Some (ctxErr ctx))
                end
              else if isQueryTimeOut startOfStartQueryExecution (timeNow h)
                        (qeStatementType qe) (GetServiceLimitOverride cfg)
              then ret (None, Some ErrQueryTimeout)
              else waitingForResult fuel' c cfg ctx startOfStartQueryExecution queryID
          end
      end
  end.

(** The request of line 412. *)
Definition startInput (s : Submission) (executionParams : list string)
  : StartQueryExecutionInput :=
  mkStartInput (queryWithPlaceholders s) executionParams
    (GetDB (sConfig s)) (GetOutputBucket (sConfig s)) (wgName s).

(** Lines 407-525 of [QueryContext]: submission, the [pc:get_query_id] short
    cut, and the poll loop. *)
Definition submitAndWait (fuel : nat) (c : Connection) (ctx : Context) (s : Submission)
  : M Result :=
  let '(executionParams, err) := buildExecutionParams (sArgs s) in
  match err with
  | Some e => ret (None, Some e)
  | None =>
      cl <- deref (athenaClient c) ;;
      '(resp, err) <-
        remote (CallStartQueryExecution (startInput s executionParams))
          (fun h => StartQueryExecution cl h (startInput s executionParams)) ;;
      match err with
      | Some e =>
          if String.eqb (pseudoCommand s) PCGetQID then
            match asResponseError e with
            | Some requestID => getHeaderlessSingleRowResultPage requestID
            | None => ret (None, Some e)
            end
          else ret (None, Some e)
      | None =>
          resp <- deref resp ;;
          queryID <- deref (QueryExecutionId resp) ;;
          if String.eqb (pseudoCommand s) PCGetQID
          then getHeaderlessSingleRowResultPage queryID
          else waitingForResult fuel c (sConfig s) ctx (startOfStartQueryExecution s) queryID
      end
  end.

(** [func (c *Connection) QueryContext(ctx, query, namedArgs) (driver.Rows, error)];
    [fuel] bounds the turns of the poll loop. *)
Definition QueryContext
  (fuel : nat) (c : Connection) (ctx : Context) (query : string)
  (namedArgs : list NamedValue) : M Result :=
  r <- beforeSubmission c ctx query namedArgs ;;
  match r with
  | inl res => ret res
  | inr s => submitAndWait fuel c ctx s
  end.

End Conn.

(* ================================================================== *)
(** ** The test double [mockAthenaClient] *)

Module Mock.

Record mockAthenaClient := mkMock {
  CreateWGStatus : bool;
  GetWGStatus : bool;
  WGDisabled : bool }.

Definition started (qid : string) : option StartQueryExecutionOutput * option error :=
  (Some (mkStartOutput (Some qid)), None).

Definition mockStartQueryExecution (s : StartQueryExecutionInput)
  : option StartQueryExecutionOutput * option error :=
  let q := QueryString s in
  if String.eqb (ToLower q) "select 1" then started "PING_OK_QID"
  else if String.eqb q "SELECTExecContext_OK" then started "SELECTExecContext_OK_QID"
  else if String.eqb q "SELECTQueryContext_OK"
       || String.eqb q "SELECTQueryContext_'OK'"
       || String.eqb q "SELECTQueryContext_?" then started "SELECTQueryContext_OK_QID"
  else if String.eqb q "SELECTQueryContext_CANCEL_OK"
  then started "SELECTQueryContext_CANCEL_OK_QID"
  else if String.eqb q "SELECTQueryContext_AWS_CANCEL"
  then started "SELECTQueryContext_AWS_CANCEL_QID"
  else if String.eqb q "SELECTQueryContext_AWS_FAIL"
  then started "SELECTQueryContext_AWS_FAIL_QID"
  else if String.eqb q "SELECTQueryContext_CANCEL_FAIL"
  then started "SELECTQueryContext_CANCEL_FAIL_QID"
  else if String.eqb q "SELECTQueryContext_TIMEOUT"
  then started "SELECTQueryContext_TIMEOUT_QID"
  else if String.eqb q "StartQueryExecution_nil_error" then (None, Some ErrTestMockGeneric)
  else if String.eqb q
       "When_StartQueryExecution_Succeed_but_GetQueryExecutionWithContext_return_nil_and_error"
  then started
       "When_StartQueryExecution_Succeed_but_GetQueryExecutionWithContext_return_nil_and_error_QID"
  else if String.eqb q
       "StartQueryExecution_OK_GetQueryExecutionWithContext_QueryExecutionStateCancelled"
  then started "QueryExecutionStateCancelled_QID"
  else if String.eqb q
       "StartQueryExecution_OK_GetQueryExecutionWithContext_QueryExecutionStateFailed"
  then started "QueryExecutionStateFailed_QID"
  else if String.eqb q "FAILED_AFTER_GETQID"
  then (Some (mkStartOutput (Some "FAILED_AFTER_GETQID_123")),
        Some (errorString "FAILED_AFTER_GETQID_FAILED"))
  else if String.eqb q "FAILED_AFTER_GETQID2"
  then (Some (mkStartOutput (Some "FAILED_AFTER_GETQID_123")),
        Some (awsResponseError
                (smithyResponseError (errorString "FAILED_AFTER_GETQID_FAILED")) "unk"))
  else (None, None).

Definition status (st : QueryExecutionState) (reason : option string) (ty : StatementType)
  : option GetQueryExecutionOutput * option error :=
  (Some (mkGetQueryExecutionOutput
           (Some (mkQueryExecution (Some (mkStatus st reason)) ty))), None).

Definition mockGetQueryExecution (id : string)
  : option GetQueryExecutionOutput * option error :=
  if String.eqb id
       "When_StartQueryExecution_Succeed_but_GetQueryExecutionWithContext_return_nil_and_error_QID"
  then (None, Some ErrTestMockGeneric)
  else if String.eqb id "QueryExecutionStateCancelled_QID" then (None, Some contextCanceled)
  else if String.eqb id "QueryExecutionStateFailed_QID"
  then (None, Some ErrTestMockFailedByAthena)
  else if String.eqb id "PING_OK_QID"
  then status QueryExecutionStateSucceeded None (StatementTypeOther "")
  else if String.eqb id "SELECTExecContext_OK_QID"
  then status QueryExecutionStateSucceeded None (StatementTypeOther "")
  else if String.eqb id "SELECTQueryContext_OK_QID"
  then status QueryExecutionStateSucceeded None StatementTypeDdl
  else if String.eqb id "SELECTQueryContext_CANCEL_OK_QID"
  then status QueryExecutionStateQueued None StatementTypeDdl
  else if String.eqb id "SELECTQueryContext_AWS_CANCEL_QID"
  then status QueryExecutionStateCancelled None (StatementTypeOther "")
  else if String.eqb id "SELECTQueryContext_AWS_FAIL_QID"
  then status QueryExecutionStateFailed (Some "something_broken") (StatementTypeOther "")
  else if String.eqb id "SELECTQueryContext_CANCEL_FAIL_QID"
  then status QueryExecutionStateQueued None (StatementTypeOther "")
  else if String.eqb id "SELECTQueryContext_TIMEOUT_QID"
  then status QueryExecutionStateQueued None (StatementTypeOther "TIMEOUT_NOW")
  else if String.eqb id "c89088ab-595d-4ee6-a9ce-73b55aeb8900"
  then status QueryExecutionStateQueued None StatementTypeDdl
  else (None, Some ErrTestMockGeneric).

Definition mockStopQueryExecution (id : string) : option error :=
  if String.eqb id "SELECTQueryContext_CANCEL_OK_QID" then None
  else if String.eqb id "SELECTQueryContext_CANCEL_FAIL_QID" then Some ErrTestMockGeneric
  else if String.eqb id "c89088ab-595d-4ee6-a9ce-73b55aeb8954" then None
  else if String.eqb id "c89088ab-595d-4ee6-a9ce-73b55aeb8955" then Some ErrTestMockGeneric
  else Some ErrTestMockGeneric.

Definition mockGetWorkGroup (m : mockAthenaClient)
  : option GetWorkGroupOutput * option error :=
  if GetWGStatus m then
    let enabled := if WGDisabled m then WorkGroupStateDisabled else WorkGroupStateEnabled in
    (Some (mkGetWorkGroupOutput (Some (mkWorkGroup enabled))), None)
  else (None, Some ErrTestMockGeneric).

Definition mockCreateWorkGroup (m : mockAthenaClient) : option error :=
  if negb (CreateWGStatus m) then Some ErrTestMockGeneric else None.

(** The mock as an [AthenaClient]: its answers do not depend on the history. *)
Definition client (m : mockAthenaClient) : AthenaClient :=
  mkAthenaClient
    (fun _ _ => mockGetWorkGroup m)
    (fun _ _ _ => mockCreateWorkGroup m)
    (fun _ s => mockStartQueryExecution s)
    (fun _ id => mockGetQueryExecution id)
    (fun _ id => mockStopQueryExecution id).

(** [newMockAthenaClient()] *)
Definition newMockAthenaClient : mockAthenaClient := mkMock false false false.

End Mock.

(* ================================================================== *)
(** ** A concrete package, for closed examples *)

Module Sample.

(** Modelled from the spec: standard SQL backslash escaping, which escapes
    the backslash, the quotes, NUL and the control characters LF, CR and
    SUB ([escapeStringBackslash] and [escapeBytesBackslash] of [utils.go]). *)
Definition escapeByte (c : ascii) : string :=
  let n := nat_of_ascii c in
  if (n =? 0)%nat then "\0"
  else if (n =? 10)%nat then "\n"
  else if (n =? 13)%nat then "\r"
  else if (n =? 26)%nat then "\Z"
  else if (n =? 39)%nat then "\'"
  else if (n =? 34)%nat then "\" ++ dquote
  else if (n =? 92)%nat then "\\"
  else String c EmptyString.

Fixpoint escapeBackslash (v : string) : string :=
  match v with
  | EmptyString => EmptyString
  | String c v' => escapeByte c ++ escapeBackslash v'
  end.

(** Modelled from the spec: a maximum query length, here the service's limit
    of 262144 bytes, and a float formatter that stands in for [strconv]'s. *)
#[export] Instance externals : Externals := {|
  MAXQueryStringLength := 262144;
  FormatFloat := fun _ => "0";
  escapeBytesBackslash := fun buf v => buf ++ escapeBackslash v;
  escapeStringBackslash := fun buf v => buf ++ escapeBackslash v |}.

(** Modelled from the spec: a statement is read-only when its text, lower
    case and without leading spaces, starts with a reading keyword. *)
Definition readOnlyByPrefix (query : string) : bool :=
  let q := ToLower (Trim query " ") in
  existsb (HasPrefix q) ["select"; "show"; "describe"; "desc"; "explain"].

Definition isHex (c : ascii) : bool :=
  let n := nat_of_ascii c in
  ((48 <=? n) && (n <=? 57) || (97 <=? n) && (n <=? 102))%nat.

Fixpoint shaped (pattern s : string) : bool :=
  match pattern, s with
  | EmptyString, EmptyString => true
  | String p pattern', String c s' =>
      (if Ascii.eqb p "-" then Ascii.eqb c "-" else isHex c) && shaped pattern' s'
  | _, _ => false
  end.

(** Modelled from the spec: the fixed identifier format of an execution id,
    hexadecimal groups of 8, 4, 4, 4 and 12 digits. *)
Definition uuidShaped (s : string) : bool := shaped "xxxxxxxx-xxxx-xxxx-xxxx-xxxxxxxxxxxx" s.

(** Modelled from the spec: a timeout policy keyed by statement type with an
    optional override, in seconds; the statement type [TIMEOUT_NOW] of the
    mock times out at once. *)
Definition timeoutPolicy
  (start now : Z) (ty : StatementType) (o : option ServiceLimitOverride) : bool :=
  let ddl := match o with Some o => ddlQueryTimeout o | None => 600 * 60 end in
  let dml := match o with Some o => dmlQueryTimeout o | None => 30 * 60 end in
  match ty with
  | StatementTypeDdl => now - start >? ddl * 1000000000
  | StatementTypeDml => now - start >? dml * 1000000000
  | StatementTypeUtility => now - start >? dml * 1000000000
  | StatementTypeOther s =>
      if String.eqb s "TIMEOUT_NOW" then true else now - start >? dml * 1000000000
  end.

(** A package whose clock advances one second per remote call and whose
    [NewRows] fetches the first page. *)
#[export] Instance package : Package := {|
  DefaultWGName := "primary";
  DriverVersion := "1.1.15";
  namedValueToValue := map nvValue;
  isReadOnlyStatement := readOnlyByPrefix;
  isQueryValid := fun q => negb (String.eqb q "");
  IsQID := uuidShaped;
  isQueryTimeOut := timeoutPolicy;
  NewRows := fun _ qid _ =>
    remote (CallGetQueryResults qid None) (fun _ => (Some (mkRows qid None), None));
  timeNow := fun h => Z.of_nat (List.length h) * 1000000000 |}.

Definition config (readOnly : bool) : Config :=
  mkConfig readOnly false false (mkWorkgroup "" []) "sampledb" "s3://bucket/" 5 None.

(** A connection over the mock, as the tests open it. *)
Definition connection (readOnly : bool) : Connection :=
  mkConnection (Some (Mock.client Mock.newMockAthenaClient)) (Some (config readOnly)).

Definition fresh : RunState := mkRunState [] [] 0.

(** A context that is never cancelled, and one cancelled from the start. *)
Definition background : Context := mkContext (fun _ => false) contextCanceled.
Definition cancelled : Context := mkContext (fun _ => true) contextCanceled.


Definition arg (v : Value) : NamedValue := mkNamedValue "" 1 v.

(** A service that starts every query as [qid-1] and reports it Failed
    without a reason. *)
Definition failsWithoutReason : AthenaClient :=
  mkAthenaClient
    (fun _ _ => (None, Some ErrTestMockGeneric))
    (fun _ _ _ => Some ErrTestMockGeneric)
    (fun _ _ => (Some (mkStartOutput (Some "qid-1")), None))
    (fun _ _ => Mock.status QueryExecutionStateFailed None StatementTypeDml)
    (fun _ _ => Some ErrTestMockGeneric).

(** 2024-02-29 13:01:02.9999996 UTC, held in a zone one hour east, and
    the first instant of the year 10000. *)
Definition leapDay : GoTime.Time :=
  GoTime.mkTime (GoTime.daysBeforeYear 2024 * 86400 + 59 * 86400 + 13 * 3600 + 62)
    999999600 (GoTime.FixedZone 3600).
Definition year10000 : GoTime.Time :=
  GoTime.mkTime (GoTime.daysBeforeYear 10000 * 86400) 0 GoTime.UTC.

(** A text of 2621441 bytes, one more than ten times the maximum query
    length of [externals]. *)
Definition longText : string := replicate (Z.to_nat 2621441) "a".

End Sample.

(* ================================================================== *)
(** ** The notions the properties are stated with *)

Module Spec.
Import GoTime.

(** The instant of [t] in microseconds since the epoch, rounded to the
    nearest microsecond, halves up. *)
Definition roundedMicros (t : Time) : Z :=
  (sec t * 1000000000 + nsec t + 500) / 1000.

(** The UTC calendar year of the rounded instant. *)
Definition roundedYear (t : Time) : Z :=
  fst (yearAndYday (roundedMicros t / 1000000 / 86400)).

(** The timestamp rule in the spec's words: the rounded instant in UTC as
    ['YYYY-MM-DD HH:MM:SS'], with [.ffffff] when the microsecond part is not
    zero. Every field is written with [digitsOf], digit by digit. *)
Definition timestampLiteral (t : Time) : string :=
  let us := roundedMicros t in
  let s := us / 1000000 in
  let micro := us mod 1000000 in
  let year := fst (yearAndYday (s / 86400)) in
  let yday := snd (yearAndYday (s / 86400)) in
  let month := fst (monthAndDay year yday) in
  let day := snd (monthAndDay year yday) in
  "'" ++ digitsOf 4 year ++ "-" ++ digitsOf 2 month ++ "-" ++ digitsOf 2 day ++ " " ++
  digitsOf 2 (s mod 86400 / 3600) ++ ":" ++ digitsOf 2 (s mod 3600 / 60) ++ ":" ++
  digitsOf 2 (s mod 60) ++
  (if micro =? 0 then "" else "." ++ digitsOf 6 micro) ++ "'".

(** The years a four-digit field can show. *)
Definition fourDigitYear (t : Time) : Prop := 0 <= roundedYear t <= 9999.

(** The literal of a timestamp: the sentinel for the zero value, the
    rendering of the rounded instant otherwise. *)
Definition timeLiteral (t : Time) : string :=
  if IsZero t then "'0000-00-00'" else timestampLiteral t.

(** The timestamps the rule is stated for: the zero value, and those whose
    rounded instant falls in a year of four digits. *)
Definition renderable (t : Time) : Prop :=
  wf t /\ (IsZero t = false -> fourDigitYear t).

Section WithExternals.
Context {X : Externals}.


(** [interpolateParams] writes [literal] in place of the one placeholder of
    any query it is given with [arg], as long as the length check passes. *)
Definition substitutes (arg : Value) (literal : string) : Prop :=
  forall pre post : string,
    Count pre "?" = O -> Count post "?" = O ->
    len (pre ++ literal) + 4 <= 10 * MAXQueryStringLength ->
    interpolateParams (pre ++ "?" ++ post) [arg] = Return (pre ++ literal ++ post, None).

(** One turn of the loop, as it leaves a buffer that ends at a placeholder
    bound to [a]. *)
Definition afterArgument (a : Value) (args : list Value) (post buf : string)
  : Outcome (string * option error) :=
  match a with
  | VNil => interpolateLoop args post (buf ++ "NULL")
  | _ =>
      match appendArg buf a with
      | Return (inl b) =>
          if len b + 4 >? 10 * MAXQueryStringLength
          then Return ("", Some ErrQueryBufferOF)
          else interpolateLoop args post b
      | Return (inr e) => Return ("", Some e)
      | Panic why => Panic why
      | OutOfFuel => OutOfFuel
      end
  end.

(** How an execution parameter relates to its argument: a byte or text
    value is passed as it is; for every other value the parameter is the
    literal that [interpolateParams] substitutes (for a timestamp, when it
    is [renderable]). *)
Definition fragmentRule (arg : Value) (fragment : string) : Prop :=
  match arg with
  | VBytes v | VString v => fragment = v
  | VTime t => renderable t -> fragment = timeLiteral t /\ substitutes arg fragment
  | _ => substitutes arg fragment
  end.

End WithExternals.

(** [p] holds of the [n] integers from [d] on: a check by enumeration. *)
Fixpoint checkRange (n : nat) (d : Z) (p : Z -> bool) : bool :=
  match n with
  | O => true
  | S n' => p d && checkRange n' (d + 1) p
  end.

(** [twoDigits n] is the two decimal digits of [n]. *)
Definition twoDigitsAgree (n : Z) : bool :=
  match twoDigits n with
  | Some s => String.eqb s (digitsOf 2 n)
  | None => false
  end.

(** A month from 1 to 12 and a day from 1 to 31. *)
Definition validMonthDay (md : Z * Z) : bool :=
  (1 <=? fst md) && (fst md <=? 12) && (1 <=? snd md) && (snd md <=? 31).

(** The types the two type switches list. *)
Definition supported (arg : Value) : bool :=
  match arg with
  | VOther _ => false
  | _ => true
  end.

(** A state on which the poll loop keeps waiting: none of the three it
    returns or breaks on. Queued and Running are such states. *)
Definition nonTerminal (s : QueryExecutionState) : bool :=
  match s with
  | QueryExecutionStateCancelled
  | QueryExecutionStateFailed
  | QueryExecutionStateSucceeded => false
  | _ => true
  end.

Definition isStop (c : Call) : bool :=
  match c with
  | CallStopQueryExecution _ => true
  | _ => false
  end.

Definition isPoll (c : Call) : bool :=
  match c with
  | CallGetQueryExecution _ => true
  | _ => false
  end.

(** The history after [j] polls of [qid] that follow the calls [h0]. *)
Definition pollHistory (h0 : list Call) (qid : string) (j : nat) : list Call :=
  h0 ++ repeat (CallGetQueryExecution qid) j.

(** The status that poll number [j] (from 0) observes, when the call
    succeeds and carries one. *)
Definition observed (cl : AthenaClient) (h0 : list Call) (qid : string) (j : nat)
  : option (QueryExecutionStatus * StatementType) :=
  match GetQueryExecution cl (pollHistory h0 qid j) qid with
  | (Some (mkGetQueryExecutionOutput (Some qe)), None) =>
      match Status qe with
      | Some st => Some (st, qeStatementType qe)
      | None => None
      end
  | _ => None
  end.

Section WithPackage.
Context {P : Package}.

(** The timeout policy's verdict in turn [j] of the poll loop. *)
Definition timedOut (cfg : Config) (start : Z) (h0 : list Call) (qid : string)
  (j : nat) (ty : StatementType) : bool :=
  isQueryTimeOut start (timeNow (pollHistory h0 qid (S j))) ty (GetServiceLimitOverride cfg).

(** Turn [j] of the poll loop goes round: the poll observes a non-terminal
    state, the caller's cancellation has not fired and the timeout policy
    does not say the time is up. *)
Definition goesRound (cl : AthenaClient) (ctx : Context) (cfg : Config) (start : Z)
  (h0 : list Call) (qid : string) (j : nat) : bool :=
  match observed cl h0 qid j with
  | Some (st, ty) =>
      nonTerminal (State st) && negb (Done ctx (pollHistory h0 qid (S j)))
      && negb (timedOut cfg start h0 qid j ty)
  | None => false
  end.

End WithPackage.

Definition isWorkgroupCall (c : Call) : bool :=
  match c with
  | CallGetWorkGroup _ | CallCreateWorkGroup _ _ => true
  | _ => false
  end.

(** The state after one more remote call. *)
Definition recorded (st : RunState) (ev : Call) : RunState :=
  mkRunState (history st ++ [ev])%list (getWGGroup st) (numInput st).

(** The state of the run after [j] polls. *)
Definition polled (st : RunState) (h0 : list Call) (qid : string) (j : nat) : RunState :=
  mkRunState (pollHistory h0 qid j) (getWGGroup st) (numInput st).

(** [st'] continues [st] with workgroup calls only. *)
Definition workgroupCallsOnly (st st' : RunState) : Prop :=
  exists calls : list Call,
    history st' = (history st ++ calls)%list /\ forallb isWorkgroupCall calls = true.

Section WithBoth.
Context {X : Externals} {P : Package}.

(** The request that [QueryContext] submits for [s]. *)
Definition submitted (s : Submission) : StartQueryExecutionInput :=
  startInput s (fst (buildExecutionParams (sArgs s))).

(** A call of [QueryContext] from the state [st0] gets as far as the
    submission: its first half ends in the state [st1] with the local
    variables [s], the execution parameters are built, and the connection
    has the client [cl]. *)
Definition submits (c : Connection) (ctx : Context) (query : string)
  (namedArgs : list NamedValue) (st0 : RunState)
  (s : Submission) (st1 : RunState) (cl : AthenaClient) : Prop :=
  beforeSubmission c ctx query namedArgs st0 = (Return (inr s), st1)
  /\ athenaClient c = Some cl
  /\ snd (buildExecutionParams (sArgs s)) = None.

(** The answer of the service to that submission. *)
Definition startAnswer (s : Submission) (st1 : RunState) (cl : AthenaClient)
  : option StartQueryExecutionOutput * option error :=
  StartQueryExecution cl (history st1) (submitted s).

(** The history when the poll loop is entered. *)
Definition pollStart (s : Submission) (st1 : RunState) : list Call :=
  history st1 ++ [CallStartQueryExecution (submitted s)].

(** The call gets as far as the poll loop: it [submits], it is not wrapped
    by [pc:get_query_id], and the service answers with the id [qid] and no
    error. *)
Definition startsPolling (c : Connection) (ctx : Context) (query : string)
  (namedArgs : list NamedValue) (st0 : RunState)
  (s : Submission) (st1 : RunState) (cl : AthenaClient) (qid : string) : Prop :=
  submits c ctx query namedArgs st0 s st1 cl
  /\ String.eqb (pseudoCommand s) PCGetQID = false
  /\ startAnswer s st1 cl = (Some (mkStartOutput (Some qid)), None).

(** The first [k] turns of the poll loop go round. *)
Definition keepsPolling (cl : AthenaClient) (ctx : Context) (s : Submission)
  (st1 : RunState) (qid : string) (k : nat) : Prop :=
  forall j : nat, (j < k)%nat ->
    goesRound cl ctx (sConfig s) (startOfStartQueryExecution s) (pollStart s st1) qid j = true.

(** The call returns [r] having made no [GetQueryExecution] call. *)
Definition returnsWithoutPolling (fuel : nat) (c : Connection) (ctx : Context)
  (query : string) (namedArgs : list NamedValue) (st0 : RunState) (r : Result) : Prop :=
  exists (st' : RunState) (calls : list Call),
    QueryContext fuel c ctx query namedArgs st0 = (Return r, st')
    /\ history st' = (history st0 ++ calls)%list
    /\ filter isPoll calls = [].

(** The call ends in the outcome [o] having made the [StopQueryExecution]
    calls [stops], in that order. *)
Definition endsWithStops (fuel : nat) (c : Connection) (ctx : Context)
  (query : string) (namedArgs : list NamedValue) (st0 : RunState)
  (o : Outcome Result) (stops : list Call) : Prop :=
  exists (st' : RunState) (calls : list Call),
    QueryContext fuel c ctx query namedArgs st0 = (o, st')
    /\ history st' = (history st0 ++ calls)%list
    /\ filter isStop calls = stops.

End WithBoth.

(** [id] can be read off the result of a call: it occurs in the cursor's
    query id, in a cell of its page, or in the text of the error. *)
Definition occursIn (id s : string) : bool :=
  match String.index 0 id s with
  | Some _ => true
  | None => false
  end.

Fixpoint errorText (e : error) : string :=
  match e with
  | errorString msg => msg
  | smithyResponseError e' => errorText e'
  | awsResponseError e' rid => errorText e' ++ rid
  | wrapError msg e' => msg ++ errorText e'
  | _ => ""
  end.

Definition discoverable (id : string) (r : Result) : bool :=
  match fst r with
  | Some rows =>
      occursIn id (rowsQueryID rows)
      || match ResultOutput rows with
         | Some page =>
             existsb (existsb (fun cell =>
               match cell with Some v => occursIn id v | None => false end)) (data page)
         | None => false
         end
  | None => false
  end
  || match snd r with
     | Some e => occursIn id (errorText e)
     | None => false
     end.

(** The single-row, single-column result that carries [value]. *)
Definition singleRow (value : string) : Rows :=
  mkRows value (Some (mkResultPage ["_col0"] ["string"] [[Some value]])).

End Spec.

(* ================================================================== *)
(** ** [connection.go]: [ExecContext], [Prepare] and [Close] *)

(** [Statement], by the fields [Prepare] sets. *)
Record Statement := mkStatement {
  stConnection : Connection;
  stQuery : string;
  stClosed : bool;
  stNumInput : Z }.

(** [AthenaResult] *)
Record AthenaResult := mkAthenaResult { lastInsertedID : Z; rowAffected : Z }.

Section ConnMore.
Context {X : Externals} {P : Package}.

(** The field [UpdateCount] of a result page, which [ResultPage] does not
    carry: a nilable [*int64]. *)
Variable UpdateCount : ResultPage -> option Z.

(** [func (c *Connection) ExecContext(ctx, query, namedArgs) (driver.Result, error)].
    The rows that [QueryContext] returns with a nil error are a [*Rows],
    whose nil pointer is [None]. *)
Definition ExecContext
  (fuel : nat) (c : Connection) (ctx : Context) (query : string)
  (namedArgs : list NamedValue) : M (option AthenaResult * option error) :=
  _ <- deref (connector c) ;;
  let args := namedValueToValue namedArgs in
  '(query, err) <-
    (if (0 <? List.length namedArgs)%nat
     then _ <- setNumInput (Z.of_nat (List.length args)) ;;
          lift (interpolateParams query args)
     else ret (query, None)) ;;
  match err with
  | Some e => ret (None, Some e)
  | None =>
      if negb (isQueryValid query) then ret (None, Some ErrInvalidQuery)
      else
        '(rows, err) <- QueryContext fuel c ctx query [] ;;
        match err with
        | Some e => ret (None, Some e)
        | None =>
            let rowAffected :=
              match rows with
              | Some r =>
                  match ResultOutput r with
                  | Some page =>
                      match UpdateCount page with
                      | Some n => n
                      | None => 0
                      end
                  | None => 0
                  end
              | None => 0
              end in
            let lastInsertedID := -1 in
            ret (Some (mkAthenaResult lastInsertedID rowAffected), None)
        end
  end.

(** [func (c *Connection) Prepare(query string) (driver.Stmt, error)] *)
Definition Prepare (c : Connection) (query : string) : option Statement * option error :=
  if negb (isQueryValid query) then (None, Some ErrInvalidQuery)
  else (Some (mkStatement c query false (Z.of_nat (Count query "?"))), None).

(** [func (c *Connection) Close() error]: the connection as it is left, and
    the nil error. *)
Definition Close (c : Connection) : M (Connection * option error) :=
  _ <- setNumInput (-1) ;;
  ret (mkConnection None None, None).

End ConnMore.

(* ================================================================== *)
(** ** Further notions for the properties of the code *)

Module More.
Import Spec.

(** [query] with its placeholders replaced, in order, by the texts
    [literals]; a placeholder beyond the last text stays. *)
Fixpoint substitute (query : string) (literals : list string) : string :=
  match query with
  | EmptyString => EmptyString
  | String c query' =>
      if Ascii.eqb c "?" then
        match literals with
        | l :: literals' => l ++ substitute query' literals'
        | [] => String c (substitute query' [])
        end
      else String c (substitute query' literals)
  end.

Section WithExternals.
Context {X : Externals}.

(** The SQL literal of a value of a listed type, the escaping helpers
    applied to an empty buffer. *)
Definition literalOf (arg : Value) : string :=
  match arg with
  | VNil => "NULL"
  | VInt64 v => strconv.FormatInt v
  | VUint64 v => strconv.FormatUint v
  | VFloat64 v => FormatFloat v
  | VBool v => if v then "1" else "0"
  | VTime v => timeLiteral v
  | VBytes v => "_binary'" ++ escapeBytesBackslash "" v ++ "'"
  | VString v => "'" ++ escapeStringBackslash "" v ++ "'"
  | VOther _ => ""
  end.

(** The escaping helpers append to the buffer they are given. *)
Definition escapesAppend : Prop :=
  (forall buf v : string, escapeBytesBackslash buf v = buf ++ escapeBytesBackslash "" v)
  /\ (forall buf v : string, escapeStringBackslash buf v = buf ++ escapeStringBackslash "" v).

(** Every timestamp among the arguments is one the rendering is stated for. *)
Definition timesRenderable (args : list Value) : Prop :=
  forall t : GoTime.Time, List.In (VTime t) args -> renderable t.

End WithExternals.

Section WithBoth.
Context {X : Externals} {P : Package}.

(** The query passes the checks that [QueryContext] makes before its first
    remote call: the connection is open, the pseudo command, if any, is a
    known one that is not answered locally, the read-only gate lets the
    stripped query [q] through, the arguments, if any, interpolate into a
    text [q'], and [q'] is a valid query. *)
Definition passesValidation (c : Connection) (query : string) (namedArgs : list NamedValue)
  : Prop :=
  exists (cfg : Config) (pc q q' : string),
    connector c = Some cfg
    /\ stripPseudoCommand query = Proceed pc q
    /\ (IsReadOnly cfg = true -> isReadOnlyStatement q = true)
    /\ (if (0 <? List.length namedArgs)%nat
        then interpolateParams q (namedValueToValue namedArgs) = Return (q', None)
        else q' = q)
    /\ isQueryValid q' = true.

(** The request for the stripped query [q] under the configuration [cfg]:
    the text with its placeholders, the execution parameters of the
    arguments, the database and output location of the configuration, and
    the configured workgroup or, where its name is empty, the default one. *)
Definition requestOf (cfg : Config) (q : string) (namedArgs : list NamedValue)
  : StartQueryExecutionInput :=
  mkStartInput q (fst (buildExecutionParams (namedValueToValue namedArgs)))
    (GetDB cfg) (GetOutputBucket cfg)
    (if String.eqb (Name (GetWorkgroup cfg)) "" then DefaultWGName
     else Name (GetWorkgroup cfg)).

(** A call of [QueryContext] without arguments from the state [st0] gets as
    far as the test of line 375 in the state [st1], and the stripped query
    [q] is an execution id: the connection is open, the read-only gate lets
    [q] through, [q] is valid, and the workgroup block does not return. *)
Definition asksById (c : Connection) (query : string) (st0 : RunState)
  (cfg : Config) (pc q : string) (st1 : RunState) : Prop :=
  connector c = Some cfg
  /\ stripPseudoCommand query = Proceed pc q
  /\ IsReadOnly cfg && negb (isReadOnlyStatement q) = false
  /\ isQueryValid q = true
  /\ (exists name : string, resolveWorkgroup c cfg st0 = (Return (None, name), st1))
  /\ IsQID q = true.

End WithBoth.

Definition isStart (c : Call) : bool :=
  match c with
  | CallStartQueryExecution _ => true
  | _ => false
  end.

Definition isCreate (c : Call) : bool :=
  match c with
  | CallCreateWorkGroup _ _ => true
  | _ => false
  end.

(** [st'] continues [st] with calls that all satisfy [p]. *)
Definition continuesWith (p : Call -> bool) (st st' : RunState) : Prop :=
  exists calls : list Call,
    history st' = (history st ++ calls)%list /\ forallb p calls = true.

(** Whatever the computation [m] ends in, it has only made calls that
    satisfy [p]. *)
Definition quiet {A : Type} (p : Call -> bool) (m : M A) : Prop :=
  forall (st : RunState) (o : Outcome A) (st' : RunState),
    m st = (o, st') -> continuesWith p st st'.

(** The calls a run made: the part of its final history after the initial one. *)
Definition callsOf (st st' : RunState) (calls : list Call) : Prop :=
  history st' = (history st ++ calls)%list.


(** 9999-12-31 23:59:59.9999995 UTC, half a microsecond before the year
    10000. *)
Definition lastHalfMicrosecond : GoTime.Time :=
  GoTime.mkTime (GoTime.daysBeforeYear 10000 * 86400 - 1) 999999500 GoTime.UTC.

(** The sample package with a timeout policy that never says the time is up. *)
Definition patient : Package := {|
  DefaultWGName := "primary";
  DriverVersion := "1.1.15";
  namedValueToValue := map nvValue;
  isReadOnlyStatement := Sample.readOnlyByPrefix;
  isQueryValid := fun q => negb (String.eqb q "");
  IsQID := Sample.uuidShaped;
  isQueryTimeOut := fun _ _ _ _ => false;
  NewRows := fun _ qid _ =>
    remote (CallGetQueryResults qid None) (fun _ => (Some (mkRows qid None), None));
  timeNow := fun h => Z.of_nat (List.length h) * 1000000000 |}.

End More.

(* ================================================================== *)
(** * Proofs *)

(** ** Facts about Go strings *)

Section StringFacts.

Lemma append_nil_r (s : string) : s ++ "" = s.
Proof. induction s as [|a s IH]; simpl; [reflexivity | now rewrite IH]. Qed.

Lemma append_assoc (a b c : string) : (a ++ b) ++ c = a ++ (b ++ c).
Proof. induction a as [|x a IH]; simpl; [reflexivity | now rewrite IH]. Qed.

Lemma length_append (a b : string) :
  String.length (a ++ b) = (String.length a + String.length b)%nat.
Proof. induction a as [|x a IH]; simpl; [reflexivity | now rewrite IH]. Qed.

Lemma len_append (a b : string) : len (a ++ b) = len a + len b.
Proof. unfold len. rewrite length_append. lia. Qed.

Lemma len_nonneg (s : string) : 0 <= len s.
Proof. unfold len. lia. Qed.

Lemma length_replicate (n : nat) (c : ascii) : String.length (replicate n c) = n.
Proof. induction n as [|n IH]; simpl; [reflexivity | now rewrite IH]. Qed.

Lemma Count_append (a b : string) (c : ascii) :
  Count (a ++ b) c = (Count a c + Count b c)%nat.
Proof.
  induction a as [|x a IH]; simpl; [reflexivity|].
  destruct (Ascii.eqb x c); simpl; now rewrite IH.
Qed.

Lemma Count_replicate (n : nat) (a c : ascii) :
  Ascii.eqb a c = false -> Count (replicate n a) c = O.
Proof. intros H. induction n as [|n IH]; simpl; [reflexivity | now rewrite H]. Qed.

Lemma IndexByte_none (s : string) (c : ascii) :
  Count s c = O -> IndexByte s c = None.
Proof.
  induction s as [|x s IH]; simpl; [reflexivity|].
  destruct (Ascii.eqb x c); [discriminate|].
  intros H. now rewrite (IH H).
Qed.

Lemma IndexByte_first (pre post : string) (c : ascii) :
  Count pre c = O -> IndexByte (pre ++ String c post) c = Some (String.length pre).
Proof.
  induction pre as [|x pre IH]; simpl.
  - now rewrite Ascii.eqb_refl.
  - destruct (Ascii.eqb x c); [discriminate|].
    intros H. now rewrite (IH H).
Qed.

Lemma take_append (pre post : string) : take (String.length pre) (pre ++ post) = pre.
Proof.
  induction pre as [|x pre IH]; simpl.
  - now destruct post.
  - now rewrite IH.
Qed.

Lemma drop_append (pre : string) (c : ascii) (post : string) :
  drop (S (String.length pre)) (pre ++ String c post) = post.
Proof.
  induction pre as [|x pre IH]; simpl.
  - now destruct post.
  - exact IH.
Qed.

(** A string with a [c] in it splits at the first one. *)
Lemma Count_split (s : string) (c : ascii) (n : nat) :
  Count s c = S n ->
  exists pre post, s = pre ++ String c post /\ Count pre c = O /\ Count post c = n.
Proof.
  induction s as [|x s IH]; simpl; [discriminate|].
  destruct (Ascii.eqb x c) eqn:E.
  - intros H. apply Ascii.eqb_eq in E. subst x.
    exists "", s. simpl. repeat split. now injection H.
  - intros H. destruct (IH H) as (pre & post & -> & Hp & Hq).
    exists (String x pre), post. simpl. rewrite E. now repeat split.
Qed.

Lemma length_zero_iff (s : string) : (String.length s =? 0)%nat = true <-> s = "".
Proof. destruct s; simpl; split; intros H; try reflexivity; discriminate. Qed.

End StringFacts.

(** ** Facts about the interpolation loop *)

Section LoopFacts.
Import Spec.
Context {X : Externals}.

Lemma interpolateLoop_unfold (args : list Value) (rest buf : string) :
  interpolateLoop args rest buf =
  if (String.length rest =? 0)%nat then Return (buf, None)
  else
    match IndexByte rest "?" with
    | None => Return (buf ++ rest, None)
    | Some q =>
        match args with
        | [] => Panic "index out of range"
        | a :: args' => afterArgument a args' (drop (S q) rest) (buf ++ take q rest)
        end
    end.
Proof. destruct args as [|[] args]; reflexivity. Qed.

Lemma interpolateLoop_text (args : list Value) (rest buf : string) :
  Count rest "?" = O -> interpolateLoop args rest buf = Return (buf ++ rest, None).
Proof.
  intros H. rewrite interpolateLoop_unfold, (IndexByte_none _ _ H).
  destruct rest; simpl; [now rewrite append_nil_r | reflexivity].
Qed.

Lemma interpolateLoop_placeholder (a : Value) (args : list Value) (pre post buf : string) :
  Count pre "?" = O ->
  interpolateLoop (a :: args) (pre ++ String "?" post) buf
  = afterArgument a args post (buf ++ pre).
Proof.
  intros H. rewrite interpolateLoop_unfold, (IndexByte_first _ _ _ H).
  rewrite length_append. simpl String.length.
  replace (String.length pre + S (String.length post) =? 0)%nat with false
    by (symmetry; apply Nat.eqb_neq; lia).
  now rewrite take_append, drop_append.
Qed.

Lemma interpolateLoop_done (buf : string) :
  interpolateLoop [] "" buf = Return (buf, None).
Proof. reflexivity. Qed.

(** A run over a query that continues after a placeholder is the run up to
    that placeholder, continued. *)
Lemma interpolateLoop_split (args1 : list Value) :
  forall (q1 : string) (a : Value) (args2 : list Value) (q2 buf : string),
    Count q1 "?" = List.length args1 ->
    interpolateLoop (args1 ++ a :: args2) (q1 ++ "?" ++ q2) buf =
    match interpolateLoop (args1 ++ [a]) (q1 ++ "?") buf with
    | Return (pre, None) => interpolateLoop args2 q2 pre
    | r => r
    end.
Proof.
  induction args1 as [|a1 args1 IH]; intros q1 a args2 q2 buf Hc; simpl List.length in Hc.
  - simpl app. change ("?" ++ q2) with (String "?" q2). change (q1 ++ "?") with (q1 ++ String "?" "").
    rewrite !interpolateLoop_placeholder by exact Hc.
    destruct a; simpl; try reflexivity;
      try (match goal with |- context [if ?b then _ else _] => destruct b end; reflexivity).
    destruct (appendTime (buf ++ q1) v); try reflexivity.
    match goal with |- context [if ?b then _ else _] => destruct b end; reflexivity.
  - destruct (Count_split _ _ _ Hc) as (p & q1' & -> & Hp & Hq).
    rewrite !append_assoc. simpl app. cbn [append].
    rewrite !interpolateLoop_placeholder by exact Hp.
    change (String "?" q2) with ("?" ++ q2). change (String "?" "") with "?".
    specialize (IH q1' a args2 q2).
    destruct a1; simpl; try (apply IH; exact Hq); try reflexivity;
      try (match goal with |- context [if ?b then _ else _] => destruct b end;
           [reflexivity | apply IH; exact Hq]).
    destruct (appendTime (buf ++ p) v); try reflexivity.
    match goal with |- context [if ?b then _ else _] => destruct b end;
      [reflexivity | apply IH; exact Hq].
Qed.

(** The buffer that a run ending at a placeholder bound to a non-nil
    argument returns has passed the length check. *)
Lemma interpolateLoop_checked (args1 : list Value) :
  forall (q1 : string) (a : Value) (buf pre : string),
    Count q1 "?" = List.length args1 ->
    a <> VNil ->
    interpolateLoop (args1 ++ [a]) (q1 ++ "?") buf = Return (pre, None) ->
    len pre + 4 <= 10 * MAXQueryStringLength.
Proof.
  induction args1 as [|a1 args1 IH]; intros q1 a buf pre Hc Ha; simpl List.length in Hc.
  - simpl app. change (q1 ++ "?") with (q1 ++ String "?" "").
    rewrite interpolateLoop_placeholder by exact Hc.
    unfold afterArgument. destruct a; try congruence;
      (destruct (appendArg (buf ++ q1) _) as [[b|e]| |]; try discriminate;
       destruct (len b + 4 >? 10 * MAXQueryStringLength) eqn:G; try discriminate;
       rewrite interpolateLoop_done; intros [= <-]; lia).
  - destruct (Count_split _ _ _ Hc) as (p & q1' & -> & Hp & Hq).
    rewrite !append_assoc. simpl app. cbn [append].
    rewrite interpolateLoop_placeholder by exact Hp.
    change (String "?" "") with "?".
    unfold afterArgument. destruct a1;
      try (apply IH; assumption);
      (destruct (appendArg (buf ++ p) _) as [[b|e]| |]; try discriminate;
       destruct (len b + 4 >? 10 * MAXQueryStringLength); try discriminate;
       apply IH; assumption).
Qed.

Lemma buildExecutionParamsLoop_error (args : list Value) :
  forall (acc r : list string) (e : error),
    buildExecutionParamsLoop args acc = (r, Some e) -> r = [] /\ e = ErrQueryUnknownType.
Proof.
  induction args as [|a args IH]; intros acc r e; simpl; [discriminate|].
  destruct a; simpl; try apply IH.
  intros [= <- <-]. now split.
Qed.

End LoopFacts.

(* ================================================================== *)
(** ** The length check of the interpolation (C1) *)

Section LengthCheck.
Import Spec.
Context {X : Externals}.

Lemma interpolateParams_loop (query : string) (args : list Value) :
  Count query "?" = List.length args ->
  interpolateParams query args = interpolateLoop args query "".
Proof.
  intros H. unfold interpolateParams. now rewrite H, Nat.eqb_refl.
Qed.

Lemma interpolateParams_counted (query : string) (args : list Value) (s : string) :
  interpolateParams query args = Return (s, None) ->
  Count query "?" = List.length args.
Proof.
  unfold interpolateParams.
  destruct (Count query "?" =? List.length args)%nat eqn:E; simpl; [|discriminate].
  intros _. now apply Nat.eqb_eq.
Qed.

(** Text without placeholders is returned as it is, whatever its length. *)
Lemma interpolateParams_text (n : nat) :
  interpolateParams (replicate n "a") [] = Return (replicate n "a", None).
Proof.
  rewrite interpolateParams_loop by (now rewrite Count_replicate).
  now rewrite interpolateLoop_text by (now rewrite Count_replicate).
Qed.

Lemma buildExecutionParams_text (v : string) :
  buildExecutionParams [VString v] = ([v], None).
Proof. reflexivity. Qed.

Lemma buildExecutionParams_error (args : list Value) (r : list string) (e : error) :
  buildExecutionParams args = (r, Some e) -> r = [] /\ e = ErrQueryUnknownType.
Proof.
  unfold buildExecutionParams. destruct (List.length args =? 0)%nat; [discriminate|].
  apply buildExecutionParamsLoop_error.
Qed.

(** A run over a query that continues after a placeholder is the run over
    the text before that placeholder, then the turn for its argument. *)
Lemma interpolateLoop_prefix (args1 : list Value) :
  forall (q1 : string) (a : Value) (args2 : list Value) (q2 buf : string),
    Count q1 "?" = List.length args1 ->
    interpolateLoop (args1 ++ a :: args2) (q1 ++ "?" ++ q2) buf =
    match interpolateLoop args1 q1 buf with
    | Return (pre, None) => afterArgument a args2 q2 pre
    | r => r
    end.
Proof.
  induction args1 as [|a1 args1 IH]; intros q1 a args2 q2 buf Hc; simpl List.length in Hc.
  - simpl app. change ("?" ++ q2) with (String "?" q2).
    rewrite interpolateLoop_placeholder by exact Hc.
    now rewrite interpolateLoop_text by exact Hc.
  - destruct (Count_split _ _ _ Hc) as (p & q1' & -> & Hp & Hq).
    rewrite !append_assoc. simpl app. cbn [append].
    rewrite !interpolateLoop_placeholder by exact Hp.
    change (String "?" q2) with ("?" ++ q2).
    specialize (IH q1' a args2 q2).
    unfold afterArgument at 1 2.
    destruct a1; try (apply IH; exact Hq);
      (destruct (appendArg (buf ++ p) _) as [[b|e]| |]; try reflexivity;
       destruct (len b + 4 >? 10 * MAXQueryStringLength); [reflexivity | apply IH; exact Hq]).
Qed.

Lemma interpolateParams_prefix (q1 q2 : string) (args1 args2 : list Value) (a : Value)
  (pre : string) :
  Count q1 "?" = List.length args1 ->
  Count q2 "?" = List.length args2 ->
  interpolateParams q1 args1 = Return (pre, None) ->
  interpolateParams (q1 ++ "?" ++ q2) (args1 ++ a :: args2) = afterArgument a args2 q2 pre.
Proof.
  intros H1 H2 Hpre.
  rewrite interpolateParams_loop in Hpre by exact H1.
  rewrite interpolateParams_loop.
  - rewrite interpolateLoop_prefix by exact H1. now rewrite Hpre.
  - rewrite !Count_append, length_app, H1, H2. cbn. lia.
Qed.

End LengthCheck.

(** C1, as amended. [interpolateParams] checks the length of its output only
    right after it has written a non-nil argument, where it fails with
    [ErrQueryBufferOF] if the output so far plus 4 exceeds
    [10 * MAXQueryStringLength]. So (1) when it succeeds on a query that
    continues after a placeholder bound to a non-nil argument, the run up to
    that placeholder succeeds too, its output [pre] satisfies
    [len pre + 4 <= 10 * MAXQueryStringLength], and the result is what the
    loop makes of [pre] and the rest; (2) at every placeholder, the first or
    a later one, whose argument is written as [b] onto the output [pre] of
    the query so far, the call fails with [ErrQueryBufferOF] exactly when
    [len b + 4] exceeds the bound, and goes on with [b] otherwise; (3) at a
    placeholder bound to nil the call goes on with [pre ++ "NULL"] whatever
    its length; (4) the text after the last placeholder is appended whatever
    the lengths; (5) [buildExecutionParams] has no such check: the only
    error it returns is [ErrQueryUnknownType]. *)
Theorem C1_length_check_after_each_argument (X : Externals) :
  (forall (q1 q2 : string) (args1 args2 : list Value) (a : Value) (s : string),
      Count q1 "?" = List.length args1 ->
      a <> VNil ->
      interpolateParams (q1 ++ "?" ++ q2) (args1 ++ a :: args2) = Return (s, None) ->
      exists pre : string,
        interpolateParams (q1 ++ "?") (args1 ++ [a]) = Return (pre, None)
        /\ len pre + 4 <= 10 * MAXQueryStringLength
        /\ interpolateLoop args2 q2 pre = Return (s, None))
  /\ (forall (q1 q2 : string) (args1 args2 : list Value) (a : Value) (pre b : string),
         Count q1 "?" = List.length args1 ->
         Count q2 "?" = List.length args2 ->
         interpolateParams q1 args1 = Return (pre, None) ->
         appendArg pre a = Return (inl b) ->
         interpolateParams (q1 ++ "?" ++ q2) (args1 ++ a :: args2)
         = if len b + 4 >? 10 * MAXQueryStringLength
           then Return ("", Some ErrQueryBufferOF)
           else interpolateLoop args2 q2 b)
  /\ (forall (q1 q2 : string) (args1 args2 : list Value) (pre : string),
         Count q1 "?" = List.length args1 ->
         Count q2 "?" = List.length args2 ->
         interpolateParams q1 args1 = Return (pre, None) ->
         interpolateParams (q1 ++ "?" ++ q2) (args1 ++ VNil :: args2)
         = interpolateLoop args2 q2 (pre ++ "NULL"))
  /\ (forall (tail buf : string),
         Count tail "?" = O ->
         interpolateLoop [] tail buf = Return (buf ++ tail, None))
  /\ (forall (args : list Value) (r : list string) (e : error),
         buildExecutionParams args = (r, Some e) -> e = ErrQueryUnknownType).
Proof.
  split; [|split; [|split; [|split]]].
  - intros q1 q2 args1 args2 a s Hc Ha H.
    pose proof (interpolateParams_counted _ _ _ H) as Hn.
    rewrite interpolateParams_loop in H by exact Hn.
    rewrite interpolateLoop_split in H by exact Hc.
    assert (Hn' : Count (q1 ++ "?") "?" = List.length (args1 ++ [a])).
    { rewrite Count_append, length_app, Hc. reflexivity. }
    rewrite (interpolateParams_loop _ _ Hn').
    destruct (interpolateLoop (args1 ++ [a]) (q1 ++ "?") "") as [[pre [e|]]| |] eqn:E;
      try discriminate.
    exists pre. split; [reflexivity|]. split; [|exact H].
    exact (interpolateLoop_checked args1 q1 a "" pre Hc Ha E).
  - intros q1 q2 args1 args2 a pre b H1 H2 Hpre Hb.
    rewrite (interpolateParams_prefix q1 q2 args1 args2 a pre H1 H2 Hpre).
    unfold Spec.afterArgument. rewrite Hb.
    destruct a; try reflexivity. discriminate Hb.
  - intros q1 q2 args1 args2 pre H1 H2 Hpre.
    now rewrite (interpolateParams_prefix q1 q2 args1 args2 VNil pre H1 H2 Hpre).
  - intros tail buf Ht. now apply interpolateLoop_text.
  - intros args r e H. now destruct (buildExecutionParams_error _ _ _ H).
Qed.

(** C1, a concrete instance of part (1): [select ? from t] with the argument 5. *)
Lemma C1_witness :
  exists pre : string,
    interpolateParams (X := Sample.externals) ("select " ++ "?") ([] ++ [VInt64 5])
    = Return (pre, None)
    /\ len pre + 4 <= 10 * MAXQueryStringLength (Externals := Sample.externals)
    /\ interpolateLoop (X := Sample.externals) [] " from t" pre
       = Return ("select 5 from t", None).
Proof.
  apply (proj1 (C1_length_check_after_each_argument Sample.externals)
           "select " " from t" [] [] (VInt64 5) "select 5 from t").
  - reflexivity.
  - discriminate.
  - reflexivity.
Defined.

(** C1 as stated fails: with the maximum query length 262144, a text of
    2621441 bytes without placeholders is returned unchanged by
    [interpolateParams], and as its own execution parameter by
    [buildExecutionParams], though it is longer than ten times the maximum. *)
Lemma C1_counterexample :
  interpolateParams (X := Sample.externals) Sample.longText []
  = Return (Sample.longText, None)
  /\ buildExecutionParams (X := Sample.externals) [VString Sample.longText]
     = ([Sample.longText], None)
  /\ 10 * MAXQueryStringLength (Externals := Sample.externals) < len Sample.longText.
Proof.
  split; [|split].
  - apply interpolateParams_text.
  - apply buildExecutionParams_text.
  - unfold Sample.longText, len. rewrite length_replicate.
    change (MAXQueryStringLength (Externals := Sample.externals)) with 262144.
    rewrite Z2Nat.id; lia.
Qed.

(* ================================================================== *)
(** ** Facts about dates, digits and rounding *)

Section TimeFacts.
Import GoTime Spec.

Lemma checkRange_spec (n : nat) :
  forall (d : Z) (p : Z -> bool),
    checkRange n d p = true -> forall x : Z, d <= x < d + Z.of_nat n -> p x = true.
Proof.
  induction n as [|n IH]; intros d p H x Hx; [lia|].
  simpl in H. apply andb_true_iff in H. destruct H as [H0 H1].
  destruct (Z.eq_dec x d) as [->|Hne]; [exact H0|].
  apply (IH (d + 1) p H1). lia.
Qed.

(** The day of the year is within the year, and is the 366th day only in a
    leap year. *)
Lemma yearAndYday_bounds (days : Z) :
  0 <= snd (yearAndYday days) <= 365
  /\ (snd (yearAndYday days) = 365 -> isLeap (fst (yearAndYday days)) = true).
Proof.
  unfold yearAndYday, isLeap. cbv zeta. cbn [fst snd].
  rewrite !Z.shiftr_div_pow2 by lia. change (2 ^ 2) with 4.
  split.
  - Z.div_mod_to_equations; lia.
  - intros H. rewrite andb_true_iff, orb_true_iff, negb_true_iff, !Z.eqb_eq, Z.eqb_neq.
    Z.div_mod_to_equations; lia.
Qed.

Lemma monthAndDayOf_valid (leap : bool) (yday : Z) :
  0 <= yday <= 364 + (if leap then 1 else 0) ->
  validMonthDay (monthAndDayOf leap yday) = true.
Proof.
  intros H. destruct leap.
  - apply (checkRange_spec 366 0 (fun y => validMonthDay (monthAndDayOf true y)));
      [vm_compute; reflexivity | lia].
  - apply (checkRange_spec 365 0 (fun y => validMonthDay (monthAndDayOf false y)));
      [vm_compute; reflexivity | lia].
Qed.

Lemma monthAndDay_valid (days : Z) :
  let y := fst (yearAndYday days) in
  let yd := snd (yearAndYday days) in
  1 <= fst (monthAndDay y yd) <= 12 /\ 1 <= snd (monthAndDay y yd) <= 31.
Proof.
  cbv zeta. destruct (yearAndYday_bounds days) as [Hb Hl].
  assert (V : validMonthDay
                (monthAndDay (fst (yearAndYday days)) (snd (yearAndYday days))) = true).
  { unfold monthAndDay. apply monthAndDayOf_valid.
    destruct (isLeap (fst (yearAndYday days))) eqn:E; [lia|].
    assert (snd (yearAndYday days) <> 365) by (intros H; specialize (Hl H); congruence).
    lia. }
  unfold validMonthDay in V. rewrite !andb_true_iff, !Z.leb_le in V. lia.
Qed.

Lemma twoDigits_digitsOf (n : Z) :
  0 <= n < 100 -> twoDigits n = Some (digitsOf 2 n).
Proof.
  intros H.
  assert (A : twoDigitsAgree n = true).
  { apply (checkRange_spec 100 0 twoDigitsAgree); [vm_compute; reflexivity | lia]. }
  unfold twoDigitsAgree in A. destruct (twoDigits n) as [s|]; [|discriminate].
  apply String.eqb_eq in A. now subst.
Qed.

Lemma digitsOf_4_split (y : Z) :
  digitsOf 4 y = digitsOf 2 (y / 100) ++ digitsOf 2 (y mod 100).
Proof.
  cbn [digitsOf]. cbn [append].
  replace (y / 10 / 10 / 10 mod 10) with (y / 100 / 10 mod 10)
    by (Z.div_mod_to_equations; lia).
  replace (y / 10 / 10 mod 10) with (y / 100 mod 10) by (Z.div_mod_to_equations; lia).
  replace (y / 10 mod 10) with (y mod 100 / 10 mod 10) by (Z.div_mod_to_equations; lia).
  replace (y mod 10) with (y mod 100 mod 10) by (Z.div_mod_to_equations; lia).
  reflexivity.
Qed.

Lemma digitsOf_6_split (m : Z) :
  digitsOf 6 m
  = digitsOf 2 (m / 10000) ++ digitsOf 2 (m / 100 mod 100) ++ digitsOf 2 (m mod 100).
Proof.
  cbn [digitsOf]. cbn [append].
  replace (m / 10 / 10 / 10 / 10 / 10 mod 10) with (m / 10000 / 10 mod 10)
    by (Z.div_mod_to_equations; lia).
  replace (m / 10 / 10 / 10 / 10 mod 10) with (m / 10000 mod 10)
    by (Z.div_mod_to_equations; lia).
  replace (m / 10 / 10 / 10 mod 10) with (m / 100 mod 100 / 10 mod 10)
    by (Z.div_mod_to_equations; lia).
  replace (m / 10 / 10 mod 10) with (m / 100 mod 100 mod 10)
    by (Z.div_mod_to_equations; lia).
  replace (m / 10 mod 10) with (m mod 100 / 10 mod 10) by (Z.div_mod_to_equations; lia).
  replace (m mod 10) with (m mod 100 mod 10) by (Z.div_mod_to_equations; lia).
  reflexivity.
Qed.

Lemma appendInt_digitsOf (x : Z) (width : nat) :
  0 <= x < 10 ^ Z.of_nat width -> appendInt x width = digitsOf width x.
Proof.
  intros H. unfold appendInt.
  replace (x <? 0) with false by (symmetry; apply Z.ltb_ge; lia).
  rewrite Z.abs_eq by lia.
  replace (x <? 10 ^ Z.of_nat width) with true by (symmetry; apply Z.ltb_lt; lia).
  reflexivity.
Qed.

(** Adding 500 nanoseconds and truncating to microseconds rounds the
    instant to the nearest microsecond. *)
Lemma Add_rounds (t : Time) :
  wf t ->
  let v := Add (In t UTC) (1 * 500) in
  abs v = roundedMicros t / 1000000
  /\ Nanosecond v / 1000 = roundedMicros t mod 1000000
  /\ 0 <= Nanosecond v < 1000000000.
Proof.
  unfold wf, roundedMicros, Add, In, abs, Nanosecond. cbn [sec nsec loc].
  change (Z.quot (1 * 500) 1000000000) with 0.
  change (Z.rem (1 * 500) 1000000000) with 500.
  intros H.
  destruct (nsec t + 500 >=? 1000000000) eqn:E1.
  - apply Z.geb_le in E1. cbn [sec nsec loc offsetOf].
    repeat split; try lia; Z.div_mod_to_equations; lia.
  - rewrite Z.geb_leb in E1. apply Z.leb_gt in E1.
    replace (nsec t + 500 <? 0) with false by (symmetry; apply Z.ltb_ge; lia).
    cbn [sec nsec loc offsetOf].
    repeat split; try lia; Z.div_mod_to_equations; lia.
Qed.

End TimeFacts.

(* ================================================================== *)
(** ** The timestamp literal (C6) *)

Section Timestamp.
Import GoTime Spec.
Context {X : Externals}.

Lemma quot_nonneg (a b : Z) : 0 <= a -> 0 < b -> Z.quot a b = a / b.
Proof. intros. apply Z.quot_div_nonneg; lia. Qed.

Lemma rem_nonneg (a b : Z) : 0 <= a -> 0 < b -> Z.rem a b = a mod b.
Proof. intros. apply Z.rem_mod_nonneg; lia. Qed.

(** The table-driven rendering of [interpolateParams] writes the literal. *)
Lemma appendTime_literal (buf : string) (t : Time) :
  wf t -> IsZero t = false -> fourDigitYear t ->
  appendTime buf t = Return (buf ++ timestampLiteral t).
Proof.
  intros Hwf Hz Hy. unfold appendTime. rewrite Hz.
  destruct (Add_rounds t Hwf) as (Ha & Hm & Hn). cbv zeta in Ha, Hm, Hn.
  set (v := Add (In t UTC) (1 * 500)) in *.
  unfold fourDigitYear, roundedYear in Hy.
  unfold timestampLiteral. cbv zeta.
  set (us := roundedMicros t) in *.
  unfold Month, Day. unfold Year, YearDay0, Hour, Minute, Second. rewrite Ha.
  set (s := us / 1000000) in *.
  pose proof (monthAndDay_valid (s / 86400)) as Hmd. cbv zeta in Hmd.
  set (year := fst (yearAndYday (s / 86400))) in *.
  set (yday := snd (yearAndYday (s / 86400))) in *.
  set (month := fst (monthAndDay year yday)) in *.
  set (day := snd (monthAndDay year yday)) in *.
  rewrite (quot_nonneg year 100), (rem_nonneg year 100) by lia.
  rewrite (quot_nonneg (Nanosecond v) 1000) by lia. rewrite Hm.
  set (micro := us mod 1000000) in *.
  assert (Hmicro : 0 <= micro < 1000000) by (subst micro; apply Z.mod_pos_bound; lia).
  rewrite !twoDigits_digitsOf by (try lia; Z.div_mod_to_equations; lia).
  destruct (micro =? 0) eqn:E; cbn [negb].
  - rewrite digitsOf_4_split. rewrite !append_assoc. reflexivity.
  - rewrite (quot_nonneg micro 10000), (quot_nonneg micro 100), (rem_nonneg micro 100),
      (rem_nonneg (micro / 100) 100) by (try lia; Z.div_mod_to_equations; lia).
    rewrite !twoDigits_digitsOf by (Z.div_mod_to_equations; lia).
    rewrite digitsOf_4_split, digitsOf_6_split. now rewrite !append_assoc.
Qed.

(** So does the [Format]-driven rendering of [buildExecutionParams]. *)
Lemma execParamTime_literal (t : Time) :
  wf t -> IsZero t = false -> fourDigitYear t ->
  execParamTime t = timestampLiteral t.
Proof.
  intros Hwf Hz Hy. unfold execParamTime. rewrite Hz. cbn [negb].
  destruct (Add_rounds t Hwf) as (Ha & Hm & Hn). cbv zeta in Ha, Hm, Hn.
  set (v := Add (In t UTC) (1 * 500)) in *.
  unfold fourDigitYear, roundedYear in Hy.
  unfold timestampLiteral, Format. cbv zeta.
  set (us := roundedMicros t) in *.
  unfold Month, Day. unfold Year, YearDay0, Hour, Minute, Second. rewrite Ha, Hm.
  set (s := us / 1000000) in *.
  pose proof (monthAndDay_valid (s / 86400)) as Hmd. cbv zeta in Hmd.
  set (year := fst (yearAndYday (s / 86400))) in *.
  set (yday := snd (yearAndYday (s / 86400))) in *.
  set (month := fst (monthAndDay year yday)) in *.
  set (day := snd (monthAndDay year yday)) in *.
  rewrite !appendInt_digitsOf
    by (first [change (10 ^ Z.of_nat 4) with 10000 | change (10 ^ Z.of_nat 2) with 100];
        try lia; Z.div_mod_to_equations; lia).
  destruct (us mod 1000000 =? 0); rewrite !append_assoc; cbn [append]; reflexivity.
Qed.

Lemma substitutes_appended (a : Value) (literal : string) :
  a <> VNil ->
  (forall buf, appendArg buf a = Return (inl (buf ++ literal))) ->
  substitutes a literal.
Proof.
  intros Ha H pre post Hp Hq Hlen.
  assert (Hn : Count (pre ++ "?" ++ post) "?" = List.length [a]).
  { rewrite !Count_append, Hp, Hq. reflexivity. }
  rewrite (interpolateParams_loop _ _ Hn).
  change ("?" ++ post) with (String "?" post).
  rewrite interpolateLoop_placeholder by exact Hp.
  destruct a; try congruence;
    (unfold afterArgument; cbn [append]; rewrite H;
     replace (len (pre ++ literal) + 4 >? 10 * MAXQueryStringLength) with false
       by (symmetry; rewrite Z.gtb_ltb; apply Z.ltb_ge; lia);
     rewrite interpolateLoop_text by exact Hq; now rewrite append_assoc).
Qed.

Lemma substitutes_nil : substitutes VNil "NULL".
Proof.
  intros pre post Hp Hq _.
  assert (Hn : Count (pre ++ "?" ++ post) "?" = List.length [VNil]).
  { rewrite !Count_append, Hp, Hq. reflexivity. }
  rewrite (interpolateParams_loop _ _ Hn).
  change ("?" ++ post) with (String "?" post).
  rewrite interpolateLoop_placeholder by exact Hp.
  unfold afterArgument. cbn [append].
  rewrite interpolateLoop_text by exact Hq. now rewrite append_assoc.
Qed.

Lemma appendArg_time (buf : string) (t : Time) :
  renderable t -> appendArg buf (VTime t) = Return (inl (buf ++ timeLiteral t)).
Proof.
  intros [Hwf Hy]. unfold timeLiteral. cbn [appendArg].
  destruct (IsZero t) eqn:Hz.
  - unfold appendTime. now rewrite Hz.
  - now rewrite appendTime_literal by auto.
Qed.

Lemma execParamTime_timeLiteral (t : Time) :
  renderable t -> execParamTime t = timeLiteral t.
Proof.
  intros [Hwf Hy]. unfold timeLiteral. destruct (IsZero t) eqn:Hz.
  - unfold execParamTime. now rewrite Hz.
  - now apply execParamTime_literal; auto.
Qed.

End Timestamp.

(** The rendering that C6 states, where the code performs it. For a
    timestamp that is the zero value, or whose instant
    rounded to the nearest microsecond falls in a UTC year from 0 to 9999,
    both operations render the same literal [timeLiteral t]: the sentinel
    ['0000-00-00'] for the zero value, otherwise the rounded instant in UTC
    as ['YYYY-MM-DD HH:MM:SS'] in single quotes, with [.ffffff] exactly when
    the microsecond part is not zero. [interpolateParams] puts it in place
    of the placeholder; [buildExecutionParams] returns it as the parameter. *)
Theorem C6_timestamp_literal (X : Externals) (t : GoTime.Time) (pre post : string) :
  Spec.renderable t ->
  Count pre "?" = O ->
  Count post "?" = O ->
  len (pre ++ Spec.timeLiteral t) + 4 <= 10 * MAXQueryStringLength ->
  interpolateParams (pre ++ "?" ++ post) [VTime t]
  = Return (pre ++ Spec.timeLiteral t ++ post, None)
  /\ buildExecutionParams [VTime t] = ([Spec.timeLiteral t], None).
Proof.
  intros Hr Hp Hq Hlen. split.
  - apply substitutes_appended; try assumption; [discriminate|].
    intros buf. now apply appendArg_time.
  - unfold buildExecutionParams. cbn. now rewrite execParamTime_timeLiteral.
Qed.

(** A concrete instance: 13:01:02.9999996 on a leap day rounds up to the
    next second and is rendered without a fraction. *)
Lemma C6_witness :
  interpolateParams (X := Sample.externals) "select ?" [VTime Sample.leapDay]
  = Return ("select '2024-02-29 13:01:03'", None)
  /\ buildExecutionParams (X := Sample.externals) [VTime Sample.leapDay]
     = (["'2024-02-29 13:01:03'"], None).
Proof.
  apply (C6_timestamp_literal Sample.externals Sample.leapDay "select " "").
  - split.
    + unfold GoTime.wf. vm_compute. split; [discriminate | reflexivity].
    + intros _. unfold Spec.fourDigitYear. vm_compute. split; discriminate.
  - reflexivity.
  - reflexivity.
  - vm_compute. discriminate.
Defined.

(** C6, at the inputs where the code fails. For the first instant of the
    year 10000, and already for 9999-12-31 23:59:59.9999995 UTC, which the
    rounding carries into the year 10000, [interpolateParams] indexes its
    digit tables with 100 and faults with an index out of range, while
    [buildExecutionParams] renders the same instant with a year of five
    digits. *)
Theorem C6_five_digit_year :
  GoTime.IsZero Sample.year10000 = false
  /\ interpolateParams (X := Sample.externals) "?" [VTime Sample.year10000]
     = Panic "index out of range"
  /\ buildExecutionParams (X := Sample.externals) [VTime Sample.year10000]
     = (["'10000-01-01 00:00:00'"], None)
  /\ GoTime.Year More.lastHalfMicrosecond = 9999
  /\ interpolateParams (X := Sample.externals) "?" [VTime More.lastHalfMicrosecond]
     = Panic "index out of range"
  /\ buildExecutionParams (X := Sample.externals) [VTime More.lastHalfMicrosecond]
     = (["'10000-01-01 00:00:00'"], None).
Proof. repeat split; vm_compute; reflexivity. Qed.

(* ================================================================== *)
(** ** Execution parameters (C3) *)

Section ExecutionParams.
Import Spec.
Context {X : Externals}.

Lemma execParam_supported (a : Value) :
  supported a = true -> exists f, execParam a = inl f /\ fragmentRule a f.
Proof.
  destruct a; intros H; try discriminate; cbn [execParam fragmentRule];
    eexists; (split; [reflexivity|]);
    try reflexivity;
    try (apply substitutes_appended; [discriminate | intros buf; reflexivity]).
  - apply substitutes_nil.
  - intros Hr. split; [now apply execParamTime_timeLiteral|].
    apply substitutes_appended; [discriminate|].
    intros buf. rewrite execParamTime_timeLiteral by exact Hr. now apply appendArg_time.
Qed.

Lemma buildExecutionParamsLoop_supported (args : list Value) :
  forallb supported args = true ->
  forall acc : list string,
  exists frags,
    buildExecutionParamsLoop args acc = ((acc ++ frags)%list, None)
    /\ Forall2 fragmentRule args frags.
Proof.
  induction args as [|a args IH]; intros H acc.
  - exists []. rewrite app_nil_r. split; [reflexivity | constructor].
  - cbn [forallb] in H. apply andb_true_iff in H. destruct H as [Ha Hs].
    destruct (execParam_supported a Ha) as (f & Ef & Rf).
    destruct (IH Hs (acc ++ [f])%list) as (frags & E & R).
    exists (f :: frags). cbn [buildExecutionParamsLoop]. rewrite Ef, E.
    rewrite <- app_assoc. split; [reflexivity | now constructor].
Qed.



End ExecutionParams.




(* ================================================================== *)
(** ** Facts about a run of [QueryContext] *)

Section RunFacts.
Import Spec.
Context {X : Externals} {P : Package}.

Lemma QueryContext_submits fuel c ctx query namedArgs st0 s st1 :
  beforeSubmission c ctx query namedArgs st0 = (Return (inr s), st1) ->
  QueryContext fuel c ctx query namedArgs st0 = submitAndWait fuel c ctx s st1.
Proof. intros H. unfold QueryContext, bind. now rewrite H. Qed.

Lemma QueryContext_returns fuel c ctx query namedArgs st0 r st1 :
  beforeSubmission c ctx query namedArgs st0 = (Return (inl r), st1) ->
  QueryContext fuel c ctx query namedArgs st0 = (Return r, st1).
Proof. intros H. unfold QueryContext, bind. now rewrite H. Qed.

Lemma submitAndWait_answer fuel c ctx s st1 cl :
  athenaClient c = Some cl ->
  snd (buildExecutionParams (sArgs s)) = None ->
  submitAndWait fuel c ctx s st1 =
  let st2 := recorded st1 (CallStartQueryExecution (submitted s)) in
  match startAnswer s st1 cl with
  | (_, Some e) =>
      if String.eqb (pseudoCommand s) PCGetQID then
        match asResponseError e with
        | Some requestID => (Return (Some (singleRow requestID), None), st2)
        | None => (Return (None, Some e), st2)
        end
      else (Return (None, Some e), st2)
  | (Some (mkStartOutput (Some qid)), None) =>
      if String.eqb (pseudoCommand s) PCGetQID
      then (Return (Some (singleRow qid), None), st2)
      else waitingForResult fuel c (sConfig s) ctx (startOfStartQueryExecution s) qid st2
  | (_, None) => (Panic "nil pointer dereference", st2)
  end.
Proof.
  intros Hc Hb. unfold submitAndWait, startAnswer, submitted.
  destruct (buildExecutionParams (sArgs s)) as [params err]. cbn [fst snd] in *. subst err.
  rewrite Hc. unfold bind, deref, ret, remote, recorded. cbn [fst snd].
  destruct (StartQueryExecution cl (history st1) (startInput s params))
    as [[[[qid|]]|] [e|]];
    destruct (String.eqb (pseudoCommand s) PCGetQID);
    try destruct (asResponseError e); reflexivity.
Qed.

Lemma pollHistory_S h0 qid j :
  pollHistory h0 qid (S j) = (pollHistory h0 qid j ++ [CallGetQueryExecution qid])%list.
Proof.
  unfold pollHistory. rewrite <- app_assoc. f_equal.
  cbn [repeat]. apply repeat_cons.
Qed.

Lemma pollHistory_0 h0 qid : pollHistory h0 qid 0 = h0.
Proof. unfold pollHistory. cbn. apply app_nil_r. Qed.

Lemma waitingForResult_turn fuel c cfg ctx start qid cl st h0 j :
  athenaClient c = Some cl ->
  waitingForResult (S fuel) c cfg ctx start qid (polled st h0 qid j) =
  match GetQueryExecution cl (pollHistory h0 qid j) qid with
  | (_, Some e) => (Return (None, Some e), polled st h0 qid (S j))
  | (Some (mkGetQueryExecutionOutput (Some qe)), None) =>
      match Status qe with
      | Some status =>
          match State status with
          | QueryExecutionStateCancelled =>
              (Return (None, Some contextCanceled), polled st h0 qid (S j))
          | QueryExecutionStateFailed =>
              match StateChangeReason status with
              | Some reason =>
                  (Return (None, Some (errorString reason)), polled st h0 qid (S j))
              | None => (Panic "nil pointer dereference", polled st h0 qid (S j))
              end
          | QueryExecutionStateSucceeded =>
              NewRows (athenaClient c) qid cfg (polled st h0 qid (S j))
          | _ =>
              if Done ctx (pollHistory h0 qid (S j)) then
                match StopQueryExecution cl (pollHistory h0 qid (S j)) qid with
                | Some e =>
                    (Return (None, Some e),
                     recorded (polled st h0 qid (S j)) (CallStopQueryExecution qid))
                | None =>
                    (Return (None, Some (ctxErr ctx)),
                     if IsMoneyWise cfg
                     then recorded (recorded (polled st h0 qid (S j))
                                      (CallStopQueryExecution qid))
                            (CallGetQueryExecution qid)
                     else recorded (polled st h0 qid (S j)) (CallStopQueryExecution qid))
                end
              else if timedOut cfg start h0 qid j (qeStatementType qe)
              then (Return (None, Some ErrQueryTimeout), polled st h0 qid (S j))
              else waitingForResult fuel c cfg ctx start qid (polled st h0 qid (S j))
          end
      | None => (Panic "nil pointer dereference", polled st h0 qid (S j))
      end
  | (_, None) => (Panic "nil pointer dereference", polled st h0 qid (S j))
  end.
Proof.
  intros Hc. cbn [waitingForResult]. rewrite Hc.
  unfold polled, timedOut. rewrite !pollHistory_S.
  generalize (pollHistory h0 qid j) as h. intros h.
  unfold bind, deref, ret, remote, getHistory, panic, recorded.
  cbn [history getWGGroup numInput].
  destruct (GetQueryExecution cl h qid) as [[[[[st' ty]|]]|] [e|]];
    try reflexivity.
  cbn [Status qeStatementType outQueryExecution].
  destruct st' as [[[| | | | |other] [reason|]]|]; cbn;
    try reflexivity;
    (destruct (Done ctx (h ++ [CallGetQueryExecution qid])%list); cbn;
     [destruct (StopQueryExecution cl (h ++ [CallGetQueryExecution qid])%list qid); cbn;
      try reflexivity; destruct (IsMoneyWise cfg); reflexivity
     | destruct (isQueryTimeOut _ _ _ _); reflexivity]).
Qed.

(** While the turns go round, the loop only polls. *)
Lemma waitingForResult_rounds fuel c cfg ctx start qid cl st h0 (k : nat) :
  athenaClient c = Some cl ->
  forall j : nat,
    (forall i : nat, (j <= i < j + k)%nat -> goesRound cl ctx cfg start h0 qid i = true) ->
    waitingForResult (k + fuel) c cfg ctx start qid (polled st h0 qid j)
    = waitingForResult fuel c cfg ctx start qid (polled st h0 qid (j + k)).
Proof.
  intros Hc. induction k as [|k IH]; intros j H.
  - now rewrite Nat.add_0_r.
  - cbn [Nat.add]. rewrite (waitingForResult_turn _ _ _ _ _ _ _ _ _ _ Hc).
    assert (G : goesRound cl ctx cfg start h0 qid j = true) by (apply H; lia).
    unfold goesRound, observed in G.
    destruct (GetQueryExecution cl (pollHistory h0 qid j) qid) as [[[[[st' ty]|]]|] [e|]];
      try discriminate.
    cbn [Status qeStatementType] in *. destruct st' as [status|]; [|discriminate].
    apply andb_true_iff in G. destruct G as [G Ht].
    apply andb_true_iff in G. destruct G as [Gn Gd].
    apply negb_true_iff in Ht, Gd. rewrite Gd, Ht.
    replace (j + S k)%nat with (S j + k)%nat by lia.
    destruct (State status); try discriminate; apply IH; intros i Hi; apply H; lia.
Qed.

Ltac solve_calls :=
  first
    [ exists []; split; [cbn; now rewrite ?app_nil_r | reflexivity]
    | eexists [_]; split; [cbn; reflexivity | reflexivity]
    | eexists [_; _]; split; [cbn; now rewrite <- ?app_assoc | reflexivity] ].

Ltac split_run :=
  repeat
    (cbn in *;
     match goal with
     | |- context [match ?x with _ => _ end] =>
         lazymatch x with
         | context [match _ with _ => _ end] => fail
         | _ => destruct x eqn:?
         end
     end).

Lemma resolveWorkgroup_calls c cfg st o st' :
  resolveWorkgroup c cfg st = (o, st') -> workgroupCallsOnly st st'.
Proof.
  unfold resolveWorkgroup, getWG, CreateWGRemotely, memoizeDo, bind, deref, ret, remote,
    getHistory, panic, workgroupCallsOnly.
  split_run; intros [= <- <-]; solve_calls.
Qed.

(** What the first half of [QueryContext] has done when it hands over. *)
Lemma beforeSubmission_hands_over c ctx query namedArgs st0 s st1 :
  beforeSubmission c ctx query namedArgs st0 = (Return (inr s), st1) ->
  connector c = Some (sConfig s)
  /\ stripPseudoCommand query = Proceed (pseudoCommand s) (queryWithPlaceholders s)
  /\ sArgs s = namedValueToValue namedArgs
  /\ workgroupCallsOnly st0 st1.
Proof.
  unfold beforeSubmission, bind, deref, ret, lift, getHistory, setNumInput, panic.
  destruct (connector c) as [cfg|]; [|discriminate].
  destruct (stripPseudoCommand query) as [pc q| |q].
  - destruct (IsReadOnly cfg && negb (isReadOnlyStatement q)); [discriminate|].
    destruct (0 <? List.length namedArgs)%nat; cbn.
    + destruct (interpolateParams q (namedValueToValue namedArgs)) as [[q' [e|]]| |];
        try discriminate.
      destruct (negb (isQueryValid q')); [discriminate|].
      destruct (resolveWorkgroup c cfg _) as [[[[e|] wg]| |] st'] eqn:R; try discriminate.
      apply resolveWorkgroup_calls in R. cbn.
      destruct (IsQID q').
      * destruct (queryByQID c cfg pc q' st') as [[r| |] st'']; discriminate.
      * intros [= <- <-]. cbn. repeat split. exact R.
    + destruct (negb (isQueryValid q)); [discriminate|].
      destruct (resolveWorkgroup c cfg _) as [[[[e|] wg]| |] st'] eqn:R; try discriminate.
      apply resolveWorkgroup_calls in R. cbn.
      destruct (IsQID q).
      * destruct (queryByQID c cfg pc q st') as [[r| |] st'']; discriminate.
      * intros [= <- <-]. cbn. repeat split. exact R.
  - unfold getHeaderlessSingleRowResultPage, NewNonOpsRows, bind, ret, deref. cbn. discriminate.
  - discriminate.
Qed.
End RunFacts.

Section SubmissionFacts.
Import Spec.
Context {X : Externals} {P : Package}.

Lemma QueryContext_answer fuel c ctx query namedArgs st0 s st1 cl :
  submits c ctx query namedArgs st0 s st1 cl ->
  QueryContext fuel c ctx query namedArgs st0 =
  match startAnswer s st1 cl with
  | (_, Some e) =>
      if String.eqb (pseudoCommand s) PCGetQID then
        match asResponseError e with
        | Some requestID =>
            (Return (Some (singleRow requestID), None),
             recorded st1 (CallStartQueryExecution (submitted s)))
        | None =>
            (Return (None, Some e), recorded st1 (CallStartQueryExecution (submitted s)))
        end
      else (Return (None, Some e), recorded st1 (CallStartQueryExecution (submitted s)))
  | (Some (mkStartOutput (Some qid)), None) =>
      if String.eqb (pseudoCommand s) PCGetQID
      then (Return (Some (singleRow qid), None),
            recorded st1 (CallStartQueryExecution (submitted s)))
      else waitingForResult fuel c (sConfig s) ctx (startOfStartQueryExecution s) qid
             (recorded st1 (CallStartQueryExecution (submitted s)))
  | (_, None) =>
      (Panic "nil pointer dereference", recorded st1 (CallStartQueryExecution (submitted s)))
  end.
Proof.
  intros (Hb & Hc & Hp).
  rewrite (QueryContext_submits _ _ _ _ _ _ _ _ Hb).
  now rewrite (submitAndWait_answer _ _ _ _ _ _ Hc Hp).
Qed.

(** The calls of a run that submits and then makes the calls [more]. *)
Lemma submits_calls c ctx query namedArgs st0 s st1 cl (h : list Call) (more : list Call) :
  submits c ctx query namedArgs st0 s st1 cl ->
  h = (pollStart s st1 ++ more)%list ->
  exists calls : list Call,
    h = (history st0 ++ calls)%list
    /\ filter isStop calls = filter isStop more
    /\ filter isPoll calls = filter isPoll more.
Proof.
  intros (Hb & _ & _) ->.
  destruct (beforeSubmission_hands_over _ _ _ _ _ _ _ Hb) as (_ & _ & _ & wg & Hw & Hf).
  exists (wg ++ CallStartQueryExecution (submitted s) :: more)%list.
  unfold pollStart. rewrite Hw, <- !app_assoc. cbn [app].
  split; [reflexivity|].
  rewrite !filter_app. cbn [filter isStop isPoll].
  assert (filter isStop wg = [] /\ filter isPoll wg = []) as [-> ->]; [|now split].
  clear Hw. induction wg as [|w wg IH]; [now split|].
  cbn [forallb] in Hf. apply andb_true_iff in Hf. destruct Hf as [Hw Hf].
  destruct (IH Hf) as [I1 I2]. destruct w; try discriminate; cbn; now rewrite ?I1, ?I2.
Qed.

Lemma QueryContext_failed_submission fuel c ctx query namedArgs st0 st1 s cl resp e :
  submits c ctx query namedArgs st0 s st1 cl ->
  startAnswer s st1 cl = (resp, Some e) ->
  QueryContext fuel c ctx query namedArgs st0
  = (Return
       (if String.eqb (pseudoCommand s) PCGetQID then
          match asResponseError e with
          | Some requestID => (Some (singleRow requestID), None)
          | None => (None, Some e)
          end
        else (None, Some e)),
     recorded st1 (CallStartQueryExecution (submitted s))).
Proof.
  intros Hs Ha. rewrite (QueryContext_answer _ _ _ _ _ _ _ _ _ Hs), Ha.
  destruct resp as [[[qid|]]|];
    destruct (String.eqb (pseudoCommand s) PCGetQID); try reflexivity;
    destruct (asResponseError e); reflexivity.
Qed.

Lemma observed_inv cl h0 qid j status ty :
  observed cl h0 qid j = Some (status, ty) ->
  exists qe,
    GetQueryExecution cl (pollHistory h0 qid j) qid
    = (Some (mkGetQueryExecutionOutput (Some qe)), None)
    /\ Status qe = Some status /\ qeStatementType qe = ty.
Proof.
  unfold observed.
  destruct (GetQueryExecution cl (pollHistory h0 qid j) qid) as [[[[qe|]]|] [e|]];
    try discriminate.
  destruct (Status qe) as [st|] eqn:E; [|discriminate].
  intros [= <- <-]. now exists qe.
Qed.

(** A run that starts polling and whose first [k] turns go round is, with
    more than [k] units of fuel, in turn [k] of the loop. *)
Lemma QueryContext_in_turn fuel c ctx query namedArgs st0 s st1 cl qid k :
  startsPolling c ctx query namedArgs st0 s st1 cl qid ->
  keepsPolling cl ctx s st1 qid k ->
  (k < fuel)%nat ->
  QueryContext fuel c ctx query namedArgs st0
  = waitingForResult (S (fuel - S k)) c (sConfig s) ctx (startOfStartQueryExecution s) qid
      (polled st1 (pollStart s st1) qid k).
Proof.
  intros (Hs & Hpc & Ha) Hk Hf.
  rewrite (QueryContext_answer _ _ _ _ _ _ _ _ _ Hs), Ha, Hpc.
  destruct Hs as (_ & Hc & _).
  replace fuel with (k + S (fuel - S k))%nat at 1 by lia.
  replace (recorded st1 (CallStartQueryExecution (submitted s)))
    with (polled st1 (pollStart s st1) qid 0)
    by (unfold polled, recorded; now rewrite pollHistory_0).
  rewrite (waitingForResult_rounds _ _ _ _ _ _ _ _ _ k Hc 0%nat).
  - reflexivity.
  - intros i Hi. apply Hk. lia.
Qed.

Lemma filter_isStop_polls qid n :
  filter isStop (repeat (CallGetQueryExecution qid) n) = [].
Proof. induction n as [|n IH]; [reflexivity | exact IH]. Qed.

(** The [StopQueryExecution] calls of a run that has polled [n] times and
    then made the calls [tail]. *)
Lemma polls_calls c ctx query namedArgs st0 s st1 cl qid n (h tail : list Call) :
  submits c ctx query namedArgs st0 s st1 cl ->
  h = (pollHistory (pollStart s st1) qid n ++ tail)%list ->
  exists calls : list Call,
    h = (history st0 ++ calls)%list /\ filter isStop calls = filter isStop tail.
Proof.
  intros Hs ->.
  destruct (submits_calls c ctx query namedArgs st0 s st1 cl
              (pollStart s st1 ++ (repeat (CallGetQueryExecution qid) n ++ tail))%list
              (repeat (CallGetQueryExecution qid) n ++ tail)%list Hs eq_refl)
    as (calls & Hh & Hst & _).
  exists calls. unfold pollHistory. rewrite <- app_assoc. split; [exact Hh|].
  now rewrite Hst, filter_app, filter_isStop_polls.
Qed.

End SubmissionFacts.

(* ================================================================== *)
(** ** The checks before the submission (C7, C8) *)

(** C7. In a read-only session, a query that the pseudo-command step
    leaves as [q], and that [isReadOnlyStatement] does not classify as
    read-only, makes [QueryContext] return the write-violation error at
    once: the state of the run is unchanged, so no remote call was made. *)
Theorem C7_read_only_violation
  (X : Externals) (P : Package) (fuel : nat) (c : Connection) (cfg : Config)
  (ctx : Context) (query pc q : string) (namedArgs : list NamedValue) (st : RunState) :
  connector c = Some cfg ->
  IsReadOnly cfg = true ->
  stripPseudoCommand query = Proceed pc q ->
  isReadOnlyStatement q = false ->
  QueryContext fuel c ctx query namedArgs st
  = (Return (None, Some (errorString
               "writing to Athena database is disallowed in read-only mode")), st).
Proof.
  intros Hc Hro Hs Hq.
  apply QueryContext_returns.
  unfold beforeSubmission, bind, deref, ret. rewrite Hc, Hs, Hro, Hq. reflexivity.
Qed.

(** C7, the scenario of [examples/readonly.go]: a CTAS statement on a
    read-only connection. *)
Lemma C7_witness :
  QueryContext (X := Sample.externals) (P := Sample.package) 5
    (Sample.connection true) Sample.background
    "CREATE TABLE sampledb.elb_logs_new AS SELECT * FROM sampledb.elb_logs limit 10;"
    [] Sample.fresh
  = (Return (None, Some (errorString
               "writing to Athena database is disallowed in read-only mode")),
     Sample.fresh).
Proof.
  apply (C7_read_only_violation Sample.externals Sample.package 5
           (Sample.connection true) (Sample.config true) Sample.background _ ""
           "CREATE TABLE sampledb.elb_logs_new AS SELECT * FROM sampledb.elb_logs limit 10;");
    reflexivity.
Defined.




(* ================================================================== *)
(** ** The submission (C2, C9) and the poll loop (C4, C5, C10) *)

(** C2, as amended. When the submission is answered with an error, the
    answer's identifier plays no part: whatever response comes with the
    error [e], [QueryContext] returns no rows and the error [e] itself,
    having made the one submission call. The one exception is a submission
    wrapped by [pc:get_query_id] whose error is, or wraps, an HTTP response
    error: then it returns a single-row result that carries the service
    request id of the error, and no error. *)
Theorem C2_submission_error
  (X : Externals) (P : Package) (fuel : nat) (c : Connection) (ctx : Context)
  (query : string) (namedArgs : list NamedValue) (st0 st1 : RunState)
  (s : Submission) (cl : AthenaClient)
  (resp : option StartQueryExecutionOutput) (e : error) :
  Spec.submits c ctx query namedArgs st0 s st1 cl ->
  Spec.startAnswer s st1 cl = (resp, Some e) ->
  QueryContext fuel c ctx query namedArgs st0
  = (Return
       (if String.eqb (pseudoCommand s) PCGetQID then
          match asResponseError e with
          | Some requestID => (Some (Spec.singleRow requestID), None)
          | None => (None, Some e)
          end
        else (None, Some e)),
     Spec.recorded st1 (CallStartQueryExecution (Spec.submitted s))).
Proof.
  intros Hs Ha. exact (QueryContext_failed_submission fuel c ctx query namedArgs st0 st1 s cl resp e Hs Ha).
Qed.

(** C2, the mock's [FAILED_AFTER_GETQID]: an identifier and an error. *)
Lemma C2_witness :
  QueryContext (X := Sample.externals) (P := Sample.package) 5
    (Sample.connection false) Sample.background "FAILED_AFTER_GETQID" [] Sample.fresh
  = (Return (None, Some (errorString "FAILED_AFTER_GETQID_FAILED")),
     mkRunState
       [CallStartQueryExecution
          (mkStartInput "FAILED_AFTER_GETQID" [] "sampledb" "s3://bucket/" "primary")]
       [] 0).
Proof.
  apply (C2_submission_error Sample.externals Sample.package 5
           (Sample.connection false) Sample.background "FAILED_AFTER_GETQID" []
           Sample.fresh Sample.fresh
           (mkSubmission (Sample.config false) "" "FAILED_AFTER_GETQID"
              "FAILED_AFTER_GETQID" [] "primary" 0)
           (Mock.client Mock.newMockAthenaClient)
           (Some (mkStartOutput (Some "FAILED_AFTER_GETQID_123")))
           (errorString "FAILED_AFTER_GETQID_FAILED")).
  - repeat split; reflexivity.
  - reflexivity.
Defined.

(** C2 as stated fails on the mock's two failing submissions. For
    [FAILED_AFTER_GETQID] the service answers with the identifier
    [FAILED_AFTER_GETQID_123] and an error; [QueryContext] returns the error
    and no rows, and the identifier occurs nowhere in what it returns. For
    [pc:get_query_id FAILED_AFTER_GETQID2] the call does not fail at all: it
    returns the request id [unk] as a row, and again not the identifier. *)
Lemma C2_counterexample :
  Mock.mockStartQueryExecution
    (mkStartInput "FAILED_AFTER_GETQID" [] "sampledb" "s3://bucket/" "primary")
  = (Some (mkStartOutput (Some "FAILED_AFTER_GETQID_123")),
     Some (errorString "FAILED_AFTER_GETQID_FAILED"))
  /\ fst (QueryContext (X := Sample.externals) (P := Sample.package) 5
            (Sample.connection false) Sample.background "FAILED_AFTER_GETQID" []
            Sample.fresh)
     = Return (None, Some (errorString "FAILED_AFTER_GETQID_FAILED"))
  /\ Spec.discoverable "FAILED_AFTER_GETQID_123"
       (None, Some (errorString "FAILED_AFTER_GETQID_FAILED")) = false
  /\ fst (QueryContext (X := Sample.externals) (P := Sample.package) 5
            (Sample.connection false) Sample.background
            "pc:get_query_id FAILED_AFTER_GETQID2" [] Sample.fresh)
     = Return (Some (Spec.singleRow "unk"), None)
  /\ Spec.discoverable "FAILED_AFTER_GETQID_123" (Some (Spec.singleRow "unk"), None) = false.
Proof. repeat split; vm_compute; reflexivity. Qed.

(** C9, as amended. For a query wrapped by [pc:get_query_id] that gets as
    far as the submission, [QueryContext] returns without a single
    [GetQueryExecution] call: (1) if the service answers the submission with
    an id and no error, the single-row, single-column result that carries
    the id; (2) if it answers with an error that is, or wraps, an HTTP
    response error, the single-row result that carries the service request
    id of that error, and no error; (3) if it answers with any other error,
    no rows and that error. *)
Theorem C9_get_query_id
  (X : Externals) (P : Package) (fuel : nat) (c : Connection) (ctx : Context)
  (query q : string) (namedArgs : list NamedValue) (st0 st1 : RunState)
  (s : Submission) (cl : AthenaClient) :
  stripPseudoCommand query = Proceed PCGetQID q ->
  Spec.submits c ctx query namedArgs st0 s st1 cl ->
  (forall qid : string,
      Spec.startAnswer s st1 cl = (Some (mkStartOutput (Some qid)), None) ->
      Spec.returnsWithoutPolling fuel c ctx query namedArgs st0
        (Some (Spec.singleRow qid), None))
  /\ (forall (resp : option StartQueryExecutionOutput) (e : error) (requestID : string),
         Spec.startAnswer s st1 cl = (resp, Some e) ->
         asResponseError e = Some requestID ->
         Spec.returnsWithoutPolling fuel c ctx query namedArgs st0
           (Some (Spec.singleRow requestID), None))
  /\ (forall (resp : option StartQueryExecutionOutput) (e : error),
         Spec.startAnswer s st1 cl = (resp, Some e) ->
         asResponseError e = None ->
         Spec.returnsWithoutPolling fuel c ctx query namedArgs st0 (None, Some e)).
Proof.
  intros Hq Hs.
  assert (Hpc : String.eqb (pseudoCommand s) PCGetQID = true).
  { destruct Hs as (Hb & _).
    destruct (beforeSubmission_hands_over _ _ _ _ _ _ _ Hb) as (_ & Hp & _).
    rewrite Hq in Hp. injection Hp as <- _. reflexivity. }
  destruct (submits_calls c ctx query namedArgs st0 s st1 cl
              (Spec.pollStart s st1 ++ [])%list [] Hs eq_refl) as (calls & Hh & _ & Hp).
  rewrite app_nil_r in Hh. cbn [filter] in Hp.
  repeat split.
  - intros qid Ha. exists (Spec.recorded st1 (CallStartQueryExecution (Spec.submitted s))), calls.
    rewrite (QueryContext_answer _ _ _ _ _ _ _ _ _ Hs), Ha, Hpc. now repeat split.
  - intros resp e rid Ha He.
    exists (Spec.recorded st1 (CallStartQueryExecution (Spec.submitted s))), calls.
    rewrite (QueryContext_failed_submission fuel c ctx query namedArgs st0 st1 s cl resp e Hs Ha).
    rewrite Hpc, He. now repeat split.
  - intros resp e Ha He.
    exists (Spec.recorded st1 (CallStartQueryExecution (Spec.submitted s))), calls.
    rewrite (QueryContext_failed_submission fuel c ctx query namedArgs st0 st1 s cl resp e Hs Ha).
    rewrite Hpc, He. now repeat split.
Qed.

(** C9, the scenario of the spec on the mock: [pc:get_query_id] around a
    query that the mock starts with the id [SELECTQueryContext_OK_QID]. *)
Lemma C9_witness :
  Spec.returnsWithoutPolling (X := Sample.externals) (P := Sample.package) 5
    (Sample.connection false) Sample.background
    "pc:get_query_id SELECTQueryContext_OK" [] Sample.fresh
    (Some (Spec.singleRow "SELECTQueryContext_OK_QID"), None).
Proof.
  apply (proj1 (C9_get_query_id Sample.externals Sample.package 5
                  (Sample.connection false) Sample.background
                  "pc:get_query_id SELECTQueryContext_OK" "SELECTQueryContext_OK" []
                  Sample.fresh Sample.fresh
                  (mkSubmission (Sample.config false) PCGetQID "SELECTQueryContext_OK"
                     "SELECTQueryContext_OK" [] "primary" 0)
                  (Mock.client Mock.newMockAthenaClient)
                  eq_refl (conj eq_refl (conj eq_refl eq_refl)))).
  reflexivity.
Defined.

(** C9 as stated fails in its failure path: when the mock fails the
    submission of [pc:get_query_id StartQueryExecution_nil_error] with an
    error that is no HTTP response error, [QueryContext] returns no rows and
    that error, not a single-row result. *)
Lemma C9_counterexample :
  Mock.mockStartQueryExecution
    (mkStartInput "StartQueryExecution_nil_error" [] "sampledb" "s3://bucket/" "primary")
  = (None, Some ErrTestMockGeneric)
  /\ fst (QueryContext (X := Sample.externals) (P := Sample.package) 5
            (Sample.connection false) Sample.background
            "pc:get_query_id StartQueryExecution_nil_error" [] Sample.fresh)
     = Return (None, Some ErrTestMockGeneric).
Proof. split; vm_compute; reflexivity. Qed.




(** C5, as amended. Let a call of [QueryContext] start polling, let its
    first [k] turns go round, and let the poll of turn [k] observe a
    non-terminal state. If the caller's cancellation has not fired in that
    turn, and the timeout policy says that the time since submission is up
    for the statement type, then, with fuel for more than [k] turns, the
    call returns [ErrQueryTimeout] and has made no [StopQueryExecution]
    call. (When the cancellation has fired, the policy is not consulted.) *)
Theorem C5_query_timeout
  (X : Externals) (P : Package) (fuel : nat) (c : Connection) (ctx : Context)
  (query : string) (namedArgs : list NamedValue) (st0 st1 : RunState)
  (s : Submission) (cl : AthenaClient) (qid : string) (k : nat)
  (status : QueryExecutionStatus) (ty : StatementType) :
  Spec.startsPolling c ctx query namedArgs st0 s st1 cl qid ->
  Spec.keepsPolling cl ctx s st1 qid k ->
  Spec.observed cl (Spec.pollStart s st1) qid k = Some (status, ty) ->
  Spec.nonTerminal (State status) = true ->
  Done ctx (Spec.pollHistory (Spec.pollStart s st1) qid (S k)) = false ->
  Spec.timedOut (sConfig s) (startOfStartQueryExecution s) (Spec.pollStart s st1) qid k ty
  = true ->
  (k < fuel)%nat ->
  Spec.endsWithStops fuel c ctx query namedArgs st0
    (Return (None, Some ErrQueryTimeout)) [].
Proof.
  intros Hsp Hk Ho Hn Hd Ht Hf. unfold Spec.endsWithStops.
  rewrite (QueryContext_in_turn fuel c ctx query namedArgs st0 s st1 cl qid k Hsp Hk Hf).
  destruct Hsp as (Hs & _ & _). pose proof Hs as (_ & Hc & _).
  rewrite (waitingForResult_turn _ _ _ _ _ _ _ _ _ _ Hc).
  destruct (observed_inv _ _ _ _ _ _ Ho) as (qe & -> & -> & <-).
  rewrite Hd, Ht.
  destruct (polls_calls c ctx query namedArgs st0 s st1 cl qid (S k)
              (Spec.pollHistory (Spec.pollStart s st1) qid (S k) ++ [])%list
              [] Hs eq_refl) as (calls & Hh & Hst).
  rewrite app_nil_r in Hh.
  eexists _, calls.
  split; [destruct (State status); try discriminate; reflexivity|].
  now split.
Qed.

(** C5, on the mock: the statement type [TIMEOUT_NOW] of
    [SELECTQueryContext_TIMEOUT] times out in the first turn. *)
Lemma C5_witness :
  Spec.endsWithStops (X := Sample.externals) (P := Sample.package) 5
    (Sample.connection false) Sample.background
    "SELECTQueryContext_TIMEOUT" [] Sample.fresh
    (Return (None, Some ErrQueryTimeout)) [].
Proof.
  apply (C5_query_timeout Sample.externals Sample.package 5
           (Sample.connection false) Sample.background
           "SELECTQueryContext_TIMEOUT" [] Sample.fresh Sample.fresh
           (mkSubmission (Sample.config false) "" "SELECTQueryContext_TIMEOUT"
              "SELECTQueryContext_TIMEOUT" [] "primary" 0)
           (Mock.client Mock.newMockAthenaClient)
           "SELECTQueryContext_TIMEOUT_QID" 0
           (mkStatus QueryExecutionStateQueued None) (StatementTypeOther "TIMEOUT_NOW")).
  - repeat split; reflexivity.
  - intros j Hj. lia.
  - reflexivity.
  - reflexivity.
  - reflexivity.
  - reflexivity.
  - lia.
Defined.

(** C5 as stated fails when the cancellation has fired in the turn in which
    the time is up. On the mock, the first poll of
    [SELECTQueryContext_TIMEOUT] observes Queued with the statement type
    [TIMEOUT_NOW], for which the policy says the time is up; with a
    cancelled context [QueryContext] takes the cancellation branch all the
    same: it makes a [StopQueryExecution] call and returns that call's
    error, not [ErrQueryTimeout]. *)
Lemma C5_counterexample :
  Spec.observed (Mock.client Mock.newMockAthenaClient)
    [CallStartQueryExecution
       (mkStartInput "SELECTQueryContext_TIMEOUT" [] "sampledb" "s3://bucket/" "primary")]
    "SELECTQueryContext_TIMEOUT_QID" 0
  = Some (mkStatus QueryExecutionStateQueued None, StatementTypeOther "TIMEOUT_NOW")
  /\ Spec.timedOut (P := Sample.package) (Sample.config false) 0
       [CallStartQueryExecution
          (mkStartInput "SELECTQueryContext_TIMEOUT" [] "sampledb" "s3://bucket/" "primary")]
       "SELECTQueryContext_TIMEOUT_QID" 0 (StatementTypeOther "TIMEOUT_NOW")
     = true
  /\ QueryContext (X := Sample.externals) (P := Sample.package) 5
       (Sample.connection false) Sample.cancelled
       "SELECTQueryContext_TIMEOUT" [] Sample.fresh
     = (Return (None, Some ErrTestMockGeneric),
        mkRunState
          [CallStartQueryExecution
             (mkStartInput "SELECTQueryContext_TIMEOUT" [] "sampledb" "s3://bucket/"
                "primary");
           CallGetQueryExecution "SELECTQueryContext_TIMEOUT_QID";
           CallStopQueryExecution "SELECTQueryContext_TIMEOUT_QID"]
          [] 0).
Proof. repeat split; vm_compute; reflexivity. Qed.

(** C10. Let a call of [QueryContext] start polling, let its first [k]
    turns go round, and let the poll of turn [k] observe the state Failed.
    Then, with fuel for more than [k] turns, the call returns the failure
    reason as its error when the status carries one, and faults with a nil
    pointer dereference when it carries none; in neither case does it make a
    [StopQueryExecution] call. *)
Theorem C10_failed_state_reason
  (X : Externals) (P : Package) (fuel : nat) (c : Connection) (ctx : Context)
  (query : string) (namedArgs : list NamedValue) (st0 st1 : RunState)
  (s : Submission) (cl : AthenaClient) (qid : string) (k : nat)
  (status : QueryExecutionStatus) (ty : StatementType) :
  Spec.startsPolling c ctx query namedArgs st0 s st1 cl qid ->
  Spec.keepsPolling cl ctx s st1 qid k ->
  Spec.observed cl (Spec.pollStart s st1) qid k = Some (status, ty) ->
  State status = QueryExecutionStateFailed ->
  (k < fuel)%nat ->
  Spec.endsWithStops fuel c ctx query namedArgs st0
    match StateChangeReason status with
    | Some reason => Return (None, Some (errorString reason))
    | None => Panic "nil pointer dereference"
    end
    [].
Proof.
  intros Hsp Hk Ho Hfailed Hf. unfold Spec.endsWithStops.
  rewrite (QueryContext_in_turn fuel c ctx query namedArgs st0 s st1 cl qid k Hsp Hk Hf).
  destruct Hsp as (Hs & _ & _). pose proof Hs as (_ & Hc & _).
  rewrite (waitingForResult_turn _ _ _ _ _ _ _ _ _ _ Hc).
  destruct (observed_inv _ _ _ _ _ _ Ho) as (qe & -> & -> & _).
  rewrite Hfailed.
  destruct (polls_calls c ctx query namedArgs st0 s st1 cl qid (S k)
              (Spec.pollHistory (Spec.pollStart s st1) qid (S k) ++ [])%list
              [] Hs eq_refl) as (calls & Hh & Hst).
  rewrite app_nil_r in Hh.
  eexists _, calls.
  split; [destruct (StateChangeReason status); reflexivity|].
  now split.
Qed.

(** C10, on the mock: [SELECTQueryContext_AWS_FAIL] fails with the reason
    [something_broken]. *)
Lemma C10_witness :
  Spec.endsWithStops (X := Sample.externals) (P := Sample.package) 5
    (Sample.connection false) Sample.background
    "SELECTQueryContext_AWS_FAIL" [] Sample.fresh
    (Return (None, Some (errorString "something_broken"))) [].
Proof.
  apply (C10_failed_state_reason Sample.externals Sample.package 5
           (Sample.connection false) Sample.background
           "SELECTQueryContext_AWS_FAIL" [] Sample.fresh Sample.fresh
           (mkSubmission (Sample.config false) "" "SELECTQueryContext_AWS_FAIL"
              "SELECTQueryContext_AWS_FAIL" [] "primary" 0)
           (Mock.client Mock.newMockAthenaClient)
           "SELECTQueryContext_AWS_FAIL_QID" 0
           (mkStatus QueryExecutionStateFailed (Some "something_broken"))
           (StatementTypeOther "")).
  - repeat split; reflexivity.
  - intros j Hj. lia.
  - reflexivity.
  - reflexivity.
  - lia.
Defined.

(* ================================================================== *)
(** ** Runs on the mock *)

(** A parameterized query: the text goes out with its placeholder, the
    argument as an execution parameter, and the connection's [numInput] is
    the number of arguments. *)
Example run_with_argument :
  QueryContext (X := Sample.externals) (P := Sample.package) 5
    (Sample.connection false) Sample.background
    "SELECTQueryContext_?" [Sample.arg (VString "OK")] Sample.fresh
  = (Return (Some (mkRows "SELECTQueryContext_OK_QID" None), None),
     mkRunState
       [CallStartQueryExecution
          (mkStartInput "SELECTQueryContext_?" ["OK"] "sampledb" "s3://bucket/" "primary");
        CallGetQueryExecution "SELECTQueryContext_OK_QID";
        CallGetQueryResults "SELECTQueryContext_OK_QID" None]
       [] 1).
Proof. vm_compute. reflexivity. Qed.

(** A cancellation whose stop call fails returns the error of the stop call. *)
Example run_cancel_fail :
  fst (QueryContext (X := Sample.externals) (P := Sample.package) 5
         (Sample.connection false) Sample.cancelled
         "SELECTQueryContext_CANCEL_FAIL" [] Sample.fresh)
  = Return (None, Some ErrTestMockGeneric).
Proof. vm_compute. reflexivity. Qed.

(** A query that stays queued, with no cancellation and no timeout, uses up
    any fuel: the loop itself does not end. *)
Example run_out_of_fuel :
  fst (QueryContext (X := Sample.externals) (P := Sample.package) 5
         (Sample.connection false) Sample.background
         "SELECTQueryContext_CANCEL_OK" [] Sample.fresh)
  = OutOfFuel.
Proof. vm_compute. reflexivity. Qed.

(** A Failed status without a reason: the dereference faults. *)
Example run_failed_without_reason :
  fst (QueryContext (X := Sample.externals) (P := Sample.package) 5
         (mkConnection (Some Sample.failsWithoutReason) (Some (Sample.config false)))
         Sample.background "select 1" [] Sample.fresh)
  = Panic "nil pointer dereference".
Proof. vm_compute. reflexivity. Qed.

(** The pseudo command [pc:get_driver_version] answers without the service. *)
Example run_driver_version :
  QueryContext (X := Sample.externals) (P := Sample.package) 5
    (Sample.connection true) Sample.background "pc:get_driver_version" [] Sample.fresh
  = (Return (Some (Spec.singleRow "1.1.15"), None), Sample.fresh).
Proof. vm_compute. reflexivity. Qed.

(* ================================================================== *)
(** * Further properties of the code *)

(* ================================================================== *)
(** ** More about the interpolation *)

Section InterpolationMore.
Import Spec More.
Context {X : Externals}.

Lemma value_nil_dec (a : Value) : {a = VNil} + {a <> VNil}.
Proof. destruct a; (now left) || (right; discriminate). Defined.

Lemma appendArg_error (buf : string) (a : Value) (e : error) :
  appendArg buf a = Return (inr e) -> e = ErrQueryUnknownType.
Proof.
  destruct a; cbn [appendArg]; try discriminate; try (now intros [= <-]).
  destruct (appendTime buf v); discriminate.
Qed.

Lemma interpolateLoop_errors (args : list Value) :
  forall (rest buf s : string) (e : error),
    interpolateLoop args rest buf = Return (s, Some e) ->
    s = "" /\ (e = ErrQueryUnknownType \/ e = ErrQueryBufferOF).
Proof.
  induction args as [|a args IH]; intros rest buf s e; rewrite interpolateLoop_unfold.
  - destruct (String.length rest =? 0)%nat; [discriminate|].
    destruct (IndexByte rest "?"); discriminate.
  - destruct (String.length rest =? 0)%nat; [discriminate|].
    destruct (IndexByte rest "?") as [q|]; [|discriminate].
    unfold afterArgument.
    destruct a; try apply IH;
      destruct (appendArg _ _) as [[b|e']| |] eqn:E; try discriminate;
      try (intros [= <- <-]; apply appendArg_error in E; auto; fail);
      (destruct (len b + 4 >? 10 * MAXQueryStringLength);
       [ intros [= <- <-]; auto | apply IH ]).
Qed.

Lemma appendArg_returns (buf : string) (a : Value) :
  (forall t, a = VTime t -> renderable t) ->
  exists r, appendArg buf a = Return r.
Proof.
  intros H. destruct a; cbn [appendArg]; try (eexists; reflexivity).
  pose proof (appendArg_time buf v (H v eq_refl)) as E. cbn [appendArg] in E.
  destruct (appendTime buf v); try discriminate. eexists; reflexivity.
Qed.

Lemma interpolateLoop_returns (args : list Value) :
  forall rest buf : string,
    Count rest "?" = List.length args ->
    timesRenderable args ->
    exists r, interpolateLoop args rest buf = Return r.
Proof.
  induction args as [|a args IH]; intros rest buf Hc Ht.
  - rewrite interpolateLoop_text by exact Hc. eexists; reflexivity.
  - cbn [List.length] in Hc.
    destruct (Count_split _ _ _ Hc) as (pre & post & -> & Hp & Hq).
    rewrite interpolateLoop_placeholder by exact Hp.
    assert (Ht' : timesRenderable args) by (intros t Hin; apply Ht; now right).
    unfold afterArgument.
    destruct (appendArg_returns (buf ++ pre) a) as [[b|e] E].
    { intros t ->. apply Ht. now left. }
    + destruct a; try (apply IH; assumption);
        (rewrite E; destruct (len b + 4 >? 10 * MAXQueryStringLength);
         [eexists; reflexivity | apply IH; assumption]).
    + destruct a; try (apply IH; assumption); rewrite E; eexists; reflexivity.
Qed.

Lemma substitute_text (s : string) (literals : list string) :
  Count s "?" = O -> substitute s literals = s.
Proof.
  induction s as [|c s IH]; cbn [substitute Count]; [reflexivity|].
  destruct (Ascii.eqb c "?"); [discriminate|]. intros H. now rewrite IH.
Qed.

Lemma substitute_placeholder (pre post l : string) (literals : list string) :
  Count pre "?" = O ->
  substitute (pre ++ String "?" post) (l :: literals)
  = pre ++ l ++ substitute post literals.
Proof.
  induction pre as [|c pre IH]; cbn [substitute Count append].
  - now rewrite Ascii.eqb_refl.
  - destruct (Ascii.eqb c "?"); [discriminate|]. intros H. now rewrite IH.
Qed.

Lemma appendArg_literal (buf : string) (a : Value) :
  escapesAppend ->
  supported a = true -> a <> VNil ->
  (forall t, a = VTime t -> renderable t) ->
  appendArg buf a = Return (inl (buf ++ literalOf a)).
Proof.
  intros [Hb Hs] Hsup Hn Ht.
  destruct a; try discriminate; try congruence; cbn [literalOf]; try reflexivity.
  - now apply appendArg_time, Ht.
  - cbn [appendArg]. rewrite Hb, !append_assoc. reflexivity.
  - cbn [appendArg]. rewrite Hs, !append_assoc. reflexivity.
Qed.

Lemma interpolateLoop_substitutes (args : list Value) :
  forall rest buf : string,
    escapesAppend ->
    Count rest "?" = List.length args ->
    forallb supported args = true ->
    timesRenderable args ->
    len (buf ++ substitute rest (map literalOf args)) + 4 <= 10 * MAXQueryStringLength ->
    interpolateLoop args rest buf
    = Return (buf ++ substitute rest (map literalOf args), None).
Proof.
  induction args as [|a args IH]; intros rest buf He Hc Hs Ht Hlen.
  - rewrite interpolateLoop_text by exact Hc. now rewrite substitute_text.
  - cbn [List.length] in Hc. cbn [map] in *.
    destruct (Count_split _ _ _ Hc) as (pre & post & -> & Hp & Hq).
    rewrite interpolateLoop_placeholder by exact Hp.
    rewrite substitute_placeholder in * by exact Hp.
    cbn [forallb] in Hs. apply andb_true_iff in Hs. destruct Hs as [Ha Hs].
    assert (Ht' : timesRenderable args) by (intros t Hin; apply Ht; now right).
    assert (Hstep : interpolateLoop args post ((buf ++ pre) ++ literalOf a)
                    = Return (buf ++ pre ++ literalOf a ++
                              substitute post (map literalOf args), None)).
    { rewrite IH; try assumption.
      - now rewrite !append_assoc.
      - rewrite !append_assoc. exact Hlen. }
    destruct (value_nil_dec a) as [->|Hn]; [exact Hstep|].
    assert (E : appendArg (buf ++ pre) a = Return (inl ((buf ++ pre) ++ literalOf a))).
    { apply appendArg_literal; try assumption. intros t ->. apply Ht. now left. }
    assert (G : (len ((buf ++ pre) ++ literalOf a) + 4 >? 10 * MAXQueryStringLength) = false).
    { rewrite Z.gtb_ltb. apply Z.ltb_ge.
      rewrite !len_append in *.
      pose proof (len_nonneg (substitute post (map literalOf args))). lia. }
    unfold afterArgument. rewrite E, G.
    destruct a; try congruence; exact Hstep.
Qed.

Lemma interpolateLoop_supported (args : list Value) :
  forall rest buf s : string,
    Count rest "?" = List.length args ->
    interpolateLoop args rest buf = Return (s, None) ->
    forallb supported args = true.
Proof.
  induction args as [|a args IH]; intros rest buf s Hc; [reflexivity|].
  cbn [List.length] in Hc.
  destruct (Count_split _ _ _ Hc) as (pre & post & -> & Hp & Hq).
  rewrite interpolateLoop_placeholder by exact Hp.
  unfold afterArgument. cbn [forallb].
  destruct a; cbn [supported andb]; try (apply IH; exact Hq);
    try (destruct (appendArg _ _) as [[b|e]| |]; try discriminate;
         destruct (len b + 4 >? 10 * MAXQueryStringLength); try discriminate;
         apply IH; exact Hq).
  cbn [appendArg]. discriminate.
Qed.

End InterpolationMore.

(** Whenever [interpolateParams] returns an error, the string it returns
    with it is empty and the error is one of [ErrInvalidQuery],
    [ErrQueryUnknownType] and [ErrQueryBufferOF]. *)
Theorem interpolateParams_error_shape
  (X : Externals) (query : string) (args : list Value) (s : string) (e : error) :
  interpolateParams query args = Return (s, Some e) ->
  s = "" /\ (e = ErrInvalidQuery \/ e = ErrQueryUnknownType \/ e = ErrQueryBufferOF).
Proof.
  unfold interpolateParams.
  destruct (negb (Count query "?" =? List.length args)%nat).
  - intros [= <- <-]. auto.
  - intros H. destruct (interpolateLoop_errors _ _ _ _ _ H) as [-> [->| ->]]; auto.
Qed.

Lemma interpolateParams_error_shape_witness :
  "" = ""
  /\ (ErrQueryUnknownType = ErrInvalidQuery \/ ErrQueryUnknownType = ErrQueryUnknownType
      \/ ErrQueryUnknownType = ErrQueryBufferOF).
Proof.
  apply (interpolateParams_error_shape Sample.externals "a = ?" [VOther "int32"]).
  reflexivity.
Defined.

(** [interpolateParams] faults only on a timestamp: when every timestamp
    among the arguments is the zero value or has a rounded year of four
    digits, the call returns, with a string or with an error, whatever the
    query and the other arguments are. *)
Theorem interpolateParams_returns
  (X : Externals) (query : string) (args : list Value) :
  More.timesRenderable args ->
  exists r : string * option error, interpolateParams query args = Return r.
Proof.
  intros Ht. unfold interpolateParams.
  destruct (Count query "?" =? List.length args)%nat eqn:E; cbn [negb].
  - apply Nat.eqb_eq in E. now apply interpolateLoop_returns.
  - eexists; reflexivity.
Qed.

Lemma interpolateParams_returns_witness :
  exists r : string * option error,
    interpolateParams (X := Sample.externals) "a = ? and b < ?"
      [VString "x"; VTime Sample.leapDay] = Return r.
Proof.
  apply (interpolateParams_returns Sample.externals).
  intros t [H|[H|[]]]; [discriminate|]. injection H as <-.
  split.
  - unfold GoTime.wf. vm_compute. split; [discriminate | reflexivity].
  - intros _. unfold Spec.fourDigitYear. vm_compute. split; discriminate.
Defined.

(** What [interpolateParams] computes. When the escaping helpers append to
    their buffer, the arguments are as many as the placeholders and all of
    listed types, every timestamp is renderable, and the whole output plus 4
    stays within [10 * MAXQueryStringLength], the result is the query with
    each placeholder replaced, in order, by the literal of its argument. *)
Theorem interpolateParams_substitutes
  (X : Externals) (query : string) (args : list Value) :
  More.escapesAppend ->
  Count query "?" = List.length args ->
  forallb Spec.supported args = true ->
  More.timesRenderable args ->
  len (More.substitute query (map More.literalOf args)) + 4 <= 10 * MAXQueryStringLength ->
  interpolateParams query args
  = Return (More.substitute query (map More.literalOf args), None).
Proof.
  intros He Hc Hs Ht Hlen.
  rewrite interpolateParams_loop by exact Hc.
  now rewrite (interpolateLoop_substitutes args query "" He Hc Hs Ht Hlen).
Qed.

Lemma interpolateParams_substitutes_witness :
  interpolateParams (X := Sample.externals) "select ? from t where a = ? and b = ? or c = ?"
    [VInt64 (-5); VString "it's"; VNil; VBool false]
  = Return ("select -5 from t where a = 'it\'s' and b = NULL or c = 0", None).
Proof.
  apply (interpolateParams_substitutes Sample.externals
           "select ? from t where a = ? and b = ? or c = ?"
           [VInt64 (-5); VString "it's"; VNil; VBool false]).
  - split; intros buf v; reflexivity.
  - reflexivity.
  - reflexivity.
  - intros t [H|[H|[H|[H|[]]]]]; discriminate.
  - vm_compute. discriminate.
Defined.

(** The two operations agree on what they accept: when [interpolateParams]
    succeeds on a query and its arguments, [buildExecutionParams] succeeds
    on the same arguments, with one parameter for each. *)
Theorem interpolateParams_then_buildExecutionParams
  (X : Externals) (query : string) (args : list Value) (s : string) :
  interpolateParams query args = Return (s, None) ->
  exists params : list string,
    buildExecutionParams args = (params, None)
    /\ List.length params = List.length args.
Proof.
  intros H. pose proof (interpolateParams_counted _ _ _ H) as Hc.
  rewrite interpolateParams_loop in H by exact Hc.
  pose proof (interpolateLoop_supported _ _ _ _ Hc H) as Hs.
  unfold buildExecutionParams. destruct args as [|a args]; [now exists []|].
  cbn [List.length Nat.eqb].
  destruct (buildExecutionParamsLoop_supported (a :: args) Hs []) as (frags & E & R).
  exists frags. split; [exact E|].
  symmetry. exact (Forall2_length R).
Qed.

Lemma interpolateParams_then_buildExecutionParams_witness :
  exists params : list string,
    buildExecutionParams (X := Sample.externals) [VInt64 7; VString "x"] = (params, None)
    /\ List.length params = List.length [VInt64 7; VString "x"].
Proof.
  apply (interpolateParams_then_buildExecutionParams Sample.externals
           "a = ? and b = ?" [VInt64 7; VString "x"] "a = 7 and b = 'x'").
  reflexivity.
Defined.

(** For a query that [isQueryValid] accepts, [Prepare] returns a statement
    for that query, not closed, whose [numInput] is the number of arguments
    that [interpolateParams] accepts for the query: with that many arguments
    it never returns [ErrInvalidQuery], with any other number it always
    does. *)
Theorem Prepare_numInput
  (X : Externals) (P : Package) (c : Connection) (query : string) :
  isQueryValid query = true ->
  exists stmt : Statement,
    Prepare c query = (Some stmt, None)
    /\ stQuery stmt = query
    /\ stClosed stmt = false
    /\ forall args : list Value,
         Z.of_nat (List.length args) = stNumInput stmt
         <-> interpolateParams query args <> Return ("", Some ErrInvalidQuery).
Proof.
  intros Hv. unfold Prepare. rewrite Hv. cbn [negb].
  eexists. split; [reflexivity|]. cbn [stQuery stClosed stNumInput].
  repeat split.
  - intros Hn. apply Nat2Z.inj in Hn. symmetry in Hn.
    rewrite interpolateParams_loop by exact Hn. intros H.
    destruct (interpolateLoop_errors _ _ _ _ _ H) as [_ [?|?]]; discriminate.
  - intros H. destruct (Nat.eq_dec (Count query "?") (List.length args)) as [E|E].
    + now rewrite E.
    + exfalso. apply H. unfold interpolateParams.
      apply Nat.eqb_neq in E. now rewrite E.
Qed.

Lemma Prepare_numInput_witness :
  exists stmt : Statement,
    Prepare (P := Sample.package) (Sample.connection false) "a = ? and b = ?"
    = (Some stmt, None)
    /\ stQuery stmt = "a = ? and b = ?"
    /\ stClosed stmt = false
    /\ forall args : list Value,
         Z.of_nat (List.length args) = stNumInput stmt
         <-> interpolateParams (X := Sample.externals) "a = ? and b = ?" args
             <> Return ("", Some ErrInvalidQuery).
Proof.
  apply (Prepare_numInput Sample.externals Sample.package (Sample.connection false)
           "a = ? and b = ?").
  reflexivity.
Defined.

(* ================================================================== *)
(** ** The remote calls of a run *)

Ltac run_cases :=
  repeat
    (cbn in *;
     match goal with
     | |- context [match ?x with _ => _ end] =>
         lazymatch x with
         | context [match _ with _ => _ end] => fail
         | _ => destruct x eqn:?
         end
     end).

Section Quiet.
Import Spec More.
Context {X : Externals} {P : Package}.
Variable p : Call -> bool.

Lemma continuesWith_refl (st : RunState) : continuesWith p st st.
Proof. exists []. split; [now rewrite app_nil_r | reflexivity]. Qed.

Lemma continuesWith_history (st st' : RunState) :
  history st' = history st -> continuesWith p st st'.
Proof. intros H. exists []. split; [now rewrite app_nil_r | reflexivity]. Qed.

Lemma continuesWith_trans (st1 st2 st3 : RunState) :
  continuesWith p st1 st2 -> continuesWith p st2 st3 -> continuesWith p st1 st3.
Proof.
  intros (c1 & H1 & F1) (c2 & H2 & F2). exists (c1 ++ c2)%list.
  rewrite H2, H1, <- app_assoc, forallb_app, F1, F2. now split.
Qed.

Lemma continuesWith_recorded (st : RunState) (ev : Call) :
  p ev = true -> continuesWith p st (recorded st ev).
Proof. intros H. exists [ev]. cbn. now rewrite H. Qed.

Lemma quiet_ret {A} (a : A) : quiet p (ret a).
Proof. intros st o st' [= <- <-]. apply continuesWith_refl. Qed.

Lemma quiet_panic {A} (why : string) : quiet p (panic (A := A) why).
Proof. intros st o st' [= <- <-]. apply continuesWith_refl. Qed.

Lemma quiet_lift {A} (o : Outcome A) : quiet p (lift o).
Proof. intros st o' st' [= <- <-]. apply continuesWith_refl. Qed.

Lemma quiet_deref {A} (x : option A) : quiet p (deref x).
Proof. destruct x; [apply quiet_ret | apply quiet_panic]. Qed.

Lemma quiet_getHistory : quiet p getHistory.
Proof. intros st o st' [= <- <-]. apply continuesWith_refl. Qed.

Lemma quiet_setNumInput (n : Z) : quiet p (setNumInput n).
Proof. intros st o st' [= <- <-]. now apply continuesWith_history. Qed.

Lemma quiet_remote {A} (ev : Call) (answer : list Call -> A) :
  p ev = true -> quiet p (remote ev answer).
Proof. intros H st o st' [= <- <-]. now apply (continuesWith_recorded st ev). Qed.

Lemma quiet_bind {A B} (m : M A) (k : A -> M B) :
  quiet p m -> (forall a, quiet p (k a)) -> quiet p (bind m k).
Proof.
  intros Hm Hk st o st'. unfold bind.
  destruct (m st) as [[a|why|] st1] eqn:E.
  - intros H. exact (continuesWith_trans _ _ _ (Hm _ _ _ E) (Hk a _ _ _ H)).
  - intros [= <- <-]. exact (Hm _ _ _ E).
  - intros [= <- <-]. exact (Hm _ _ _ E).
Qed.

Lemma quiet_getHeaderless (qid : string) : quiet p (getHeaderlessSingleRowResultPage qid).
Proof.
  unfold getHeaderlessSingleRowResultPage, NewNonOpsRows.
  apply quiet_bind; [apply quiet_ret|]. intros [r err].
  apply quiet_bind; [apply quiet_deref|]. intros r'. apply quiet_ret.
Qed.

(** What a run may call, as far as [p] goes. *)
Hypothesis p_get : forall name, p (CallGetWorkGroup name) = true.
Hypothesis p_poll : forall id, p (CallGetQueryExecution id) = true.
Hypothesis p_rows :
  forall client qid cfg, quiet p (NewRows client qid cfg).

Lemma quiet_getWG (client : option AthenaClient) (name : string) :
  quiet p (getWG client name).
Proof.
  intros st o st'.
  unfold getWG, memoizeDo, bind, deref, ret, remote, getHistory, panic, continuesWith.
  run_cases; intros [= <- <-];
    first
      [ exists []; split; [cbn; now rewrite ?app_nil_r | reflexivity]
      | eexists [_]; split; [cbn; reflexivity | cbn; now rewrite p_get] ].
Qed.

Lemma quiet_CreateWGRemotely (w : Workgroup) (client : option AthenaClient) :
  (forall name tags, p (CallCreateWorkGroup name tags) = true) ->
  quiet p (CreateWGRemotely w client).
Proof.
  intros Hc. unfold CreateWGRemotely.
  apply quiet_bind; [apply quiet_deref|]. intros cl.
  destruct (List.length (Tags w) =? 0)%nat; apply quiet_remote; apply Hc.
Qed.

Lemma quiet_resolveWorkgroup (c : Connection) (cfg : Config) :
  (IsWGRemoteCreationAllowed cfg = true ->
   forall name tags, p (CallCreateWorkGroup name tags) = true) ->
  quiet p (resolveWorkgroup c cfg).
Proof.
  intros Hc. unfold resolveWorkgroup.
  destruct (String.eqb (Name (GetWorkgroup cfg)) ""); [apply quiet_ret|].
  destruct (negb (String.eqb (Name (GetWorkgroup cfg)) DefaultWGName)); [|apply quiet_ret].
  apply quiet_bind; [apply quiet_getWG|]. intros [wg [e|]].
  - destruct (IsWGRemoteCreationAllowed cfg) eqn:E; [|apply quiet_ret].
    apply quiet_bind; [apply quiet_CreateWGRemotely; now apply Hc|].
    intros [e'|]; apply quiet_ret.
  - apply quiet_bind; [apply quiet_deref|]. intros w.
    destruct (wgState w); apply quiet_ret.
Qed.

Lemma quiet_queryByQID (c : Connection) (cfg : Config) (pc query : string) :
  (String.eqb pc PCStopQID = true -> forall id, p (CallStopQueryExecution id) = true) ->
  quiet p (queryByQID c cfg pc query).
Proof.
  intros Hs. unfold queryByQID, cachedQuery.
  destruct (String.eqb pc PCGetQIDStatus).
  - apply quiet_bind; [apply quiet_deref|]. intros cl.
    apply quiet_bind; [apply quiet_remote, p_poll|]. intros [resp [e|]]; [apply quiet_ret|].
    apply quiet_bind; [apply quiet_deref|]. intros r.
    apply quiet_bind; [apply quiet_deref|]. intros qe.
    apply quiet_bind; [apply quiet_deref|]. intros status.
    apply quiet_getHeaderless.
  - destruct (String.eqb pc PCStopQID) eqn:E; [|apply p_rows].
    apply quiet_bind; [apply quiet_deref|]. intros cl.
    apply quiet_bind; [apply quiet_remote; now apply Hs|].
    intros [e|]; [apply quiet_ret | apply quiet_getHeaderless].
Qed.

Lemma quiet_bind_panic {A B} (why : string) (k : A -> M B) :
  quiet p (bind (panic why) k).
Proof. intros st o st' [= <- <-]. apply continuesWith_refl. Qed.

Lemma quiet_bind_ret {A B} (a : A) (k : A -> M B) :
  quiet p (k a) -> quiet p (bind (ret a) k).
Proof. intros H st o st' E. exact (H st o st' E). Qed.

Lemma quiet_beforeSubmission
  (c : Connection) (ctx : Context) (query : string) (namedArgs : list NamedValue) :
  (forall cfg, connector c = Some cfg -> IsWGRemoteCreationAllowed cfg = true ->
     forall name tags, p (CallCreateWorkGroup name tags) = true) ->
  (forall q, stripPseudoCommand query = Proceed PCStopQID q ->
     forall id, p (CallStopQueryExecution id) = true) ->
  quiet p (beforeSubmission c ctx query namedArgs).
Proof.
  intros Hc Hs. unfold beforeSubmission.
  destruct (connector c) as [cfg|] eqn:Ec; cbn [deref]; [|apply quiet_bind_panic].
  apply quiet_bind_ret.
  destruct (stripPseudoCommand query) as [pc q| |q] eqn:Es.
  - destruct (IsReadOnly cfg && negb (isReadOnlyStatement q)); [apply quiet_ret|].
    apply quiet_bind.
    { destruct (0 <? List.length namedArgs)%nat; [|apply quiet_ret].
      apply quiet_bind; [apply quiet_setNumInput | intros; apply quiet_lift]. }
    intros [q' [e|]]; [apply quiet_ret|].
    destruct (negb (isQueryValid q')); [apply quiet_ret|].
    apply quiet_bind.
    { apply quiet_resolveWorkgroup. exact (Hc cfg eq_refl). }
    intros [[e|] name]; [apply quiet_ret|].
    apply quiet_bind; [apply quiet_getHistory|]. intros h.
    destruct (IsQID q'); [|apply quiet_ret].
    apply quiet_bind; [|intros; apply quiet_ret].
    apply quiet_queryByQID. intros E id.
    apply String.eqb_eq in E. subst pc. exact (Hs q eq_refl id).
  - apply quiet_bind; [apply quiet_getHeaderless | intros; apply quiet_ret].
  - apply quiet_ret.
Qed.

(** The stop calls of the poll loop follow the caller's cancellation. *)
Lemma quiet_waitingForResult
  (fuel : nat) (c : Connection) (cfg : Config) (ctx : Context) (start : Z) (qid : string) :
  (forall h, Done ctx h = true -> forall id, p (CallStopQueryExecution id) = true) ->
  quiet p (waitingForResult fuel c cfg ctx start qid).
Proof.
  intros Hs. induction fuel as [|fuel IH]; cbn [waitingForResult]; [apply quiet_lift|].
  apply quiet_bind; [apply quiet_deref|]. intros cl.
  apply quiet_bind; [apply quiet_remote, p_poll|]. intros [resp [e|]]; [apply quiet_ret|].
  apply quiet_bind; [apply quiet_deref|]. intros r.
  apply quiet_bind; [apply quiet_deref|]. intros qe.
  apply quiet_bind; [apply quiet_deref|]. intros status.
  assert (quiet p
    (h <- getHistory ;;
     if Done ctx h then
       err <- remote (CallStopQueryExecution qid) (fun h => StopQueryExecution cl h qid) ;;
       match err with
       | Some e => ret (None, Some e)
       | None =>
           _ <- (if IsMoneyWise cfg
                 then _ <- remote (CallGetQueryExecution qid)
                             (fun h => GetQueryExecution cl h qid) ;;
                      ret tt
                 else ret tt) ;;
           ret (None, Some (ctxErr ctx))
       end
     else if isQueryTimeOut start (timeNow h) (qeStatementType qe) (GetServiceLimitOverride cfg)
     then ret (None, Some ErrQueryTimeout)
     else waitingForResult fuel c cfg ctx start qid)) as Hgo.
  { apply quiet_bind; [apply quiet_getHistory|]. intros h.
    destruct (Done ctx h) eqn:Ed.
    - apply quiet_bind; [apply quiet_remote; exact (Hs h Ed qid)|].
      intros [e|]; [apply quiet_ret|].
      apply quiet_bind; [|intros; apply quiet_ret].
      destruct (IsMoneyWise cfg); [|apply quiet_ret].
      apply quiet_bind; [apply quiet_remote, p_poll | intros; apply quiet_ret].
    - destruct (isQueryTimeOut _ _ _ _); [apply quiet_ret | exact IH]. }
  destruct (State status); try exact Hgo.
  - apply p_rows.
  - apply quiet_bind; [apply quiet_deref | intros; apply quiet_ret].
  - apply quiet_ret.
Qed.

(** What [submitAndWait] does with the answer to its submission. *)
Lemma quiet_afterStart
  (fuel : nat) (c : Connection) (ctx : Context) (s : Submission)
  (answer : option StartQueryExecutionOutput * option error) :
  (forall h, Done ctx h = true -> forall id, p (CallStopQueryExecution id) = true) ->
  quiet p
    (let '(resp, err) := answer in
     match err with
     | Some e =>
         if String.eqb (pseudoCommand s) PCGetQID then
           match asResponseError e with
           | Some requestID => getHeaderlessSingleRowResultPage requestID
           | None => ret (None, Some e)
           end
         else ret (None, Some e)
     | None =>
         resp <- deref resp ;;
         queryID <- deref (QueryExecutionId resp) ;;
         if String.eqb (pseudoCommand s) PCGetQID
         then getHeaderlessSingleRowResultPage queryID
         else waitingForResult fuel c (sConfig s) ctx (startOfStartQueryExecution s) queryID
     end).
Proof.
  intros Hs. destruct answer as [resp [e|]].
  - destruct (String.eqb (pseudoCommand s) PCGetQID).
    + destruct (asResponseError e); [apply quiet_getHeaderless | apply quiet_ret].
    + apply quiet_ret.
  - apply quiet_bind; [apply quiet_deref|]. intros r.
    apply quiet_bind; [apply quiet_deref|]. intros qid.
    destruct (String.eqb (pseudoCommand s) PCGetQID);
      [apply quiet_getHeaderless | now apply quiet_waitingForResult].
Qed.

(** After its [StartQueryExecution] call, if it makes one, [submitAndWait]
    only makes calls that satisfy [p]. *)
Lemma submitAndWait_calls
  (fuel : nat) (c : Connection) (ctx : Context) (s : Submission)
  (st : RunState) (o : Outcome Result) (st' : RunState) :
  (forall h, Done ctx h = true -> forall id, p (CallStopQueryExecution id) = true) ->
  submitAndWait fuel c ctx s st = (o, st') ->
  history st' = history st
  \/ continuesWith p (recorded st (CallStartQueryExecution (submitted s))) st'.
Proof.
  intros Hs. unfold submitAndWait, submitted.
  destruct (buildExecutionParams (sArgs s)) as [params [e|]]; cbn [fst].
  { intros [= <- <-]. now left. }
  destruct (athenaClient c) as [cl|]; cbn [deref].
  2:{ intros [= <- <-]. now left. }
  intros H. right. revert H.
  unfold bind at 1. cbn [ret]. unfold bind at 1. cbn [remote].
  exact (quiet_afterStart fuel c ctx s
           (StartQueryExecution cl (history st) (startInput s params)) Hs _ o st').
Qed.

(** The calls of a run of [QueryContext]: calls that satisfy [p], with at
    most one [StartQueryExecution] call among them. *)
Lemma QueryContext_calls
  (fuel : nat) (c : Connection) (ctx : Context) (query : string)
  (namedArgs : list NamedValue) (st : RunState) (o : Outcome Result) (st' : RunState) :
  (forall cfg, connector c = Some cfg -> IsWGRemoteCreationAllowed cfg = true ->
     forall name tags, p (CallCreateWorkGroup name tags) = true) ->
  (forall q, stripPseudoCommand query = Proceed PCStopQID q ->
     forall id, p (CallStopQueryExecution id) = true) ->
  (forall h, Done ctx h = true -> forall id, p (CallStopQueryExecution id) = true) ->
  QueryContext fuel c ctx query namedArgs st = (o, st') ->
  exists (before : list Call) (start : list Call) (after : list Call),
    history st' = (history st ++ before ++ start ++ after)%list
    /\ forallb p before = true /\ forallb p after = true
    /\ (start = [] \/ exists input, start = [CallStartQueryExecution input]).
Proof.
  intros Hc Hs Hd. unfold QueryContext, bind.
  destruct (beforeSubmission c ctx query namedArgs st) as [[[r|s]|why|] st1] eqn:E;
    pose proof (quiet_beforeSubmission c ctx query namedArgs Hc Hs _ _ _ E) as (b & Hb & Fb).
  1,3,4: intros [= <- <-]; exists b, [], []; cbn; rewrite app_nil_r; auto.
  intros H. destruct (submitAndWait_calls _ _ _ _ _ _ _ Hd H) as [Hh|(a & Ha & Fa)].
  - exists b, [], []. cbn. rewrite app_nil_r, Hh. auto.
  - exists b, [CallStartQueryExecution (submitted s)], a.
    rewrite Ha. cbn [recorded history]. rewrite Hb, <- !app_assoc. eauto 6.
Qed.

End Quiet.

Section CallFacts.
Import Spec More.

Lemma forallb_negb_filter (q : Call -> bool) (calls : list Call) :
  forallb (fun ev => negb (q ev)) calls = true -> filter q calls = [].
Proof.
  induction calls as [|ev calls IH]; cbn; [reflexivity|].
  destruct (q ev); cbn; [discriminate | exact IH].
Qed.

(** The [NewRows] of the sample package makes one [GetQueryResults] call. *)
Lemma Sample_NewRows_quiet (p : Call -> bool) :
  (forall id token, p (CallGetQueryResults id token) = true) ->
  forall client qid cfg, quiet p (NewRows (Package := Sample.package) client qid cfg).
Proof.
  intros Hp client qid cfg st o st' [= <- <-].
  exists [CallGetQueryResults qid None]. cbn. now rewrite Hp.
Qed.

End CallFacts.

(** A run of [QueryContext] submits at most once. Whatever the query, the
    arguments, the answers of the service, the outcome and the number of
    turns of the poll loop, the remote calls of the run contain at most one
    [StartQueryExecution] call, provided [NewRows] makes none. *)
Theorem QueryContext_submits_at_most_once (X : Externals) (P : Package)
  (fuel : nat) (c : Connection) (ctx : Context) (query : string)
  (namedArgs : list NamedValue) (st : RunState) (o : Outcome Result) (st' : RunState) :
  (forall client qid cfg,
     More.quiet (fun ev => negb (More.isStart ev)) (NewRows client qid cfg)) ->
  QueryContext fuel c ctx query namedArgs st = (o, st') ->
  exists calls : list Call,
    More.callsOf st st' calls /\ (List.length (filter More.isStart calls) <= 1)%nat.
Proof.
  intros Hrows H.
  destruct (QueryContext_calls (fun ev => negb (More.isStart ev))
              (fun _ => eq_refl) (fun _ => eq_refl) Hrows
              fuel c ctx query namedArgs st o st'
              (fun _ _ _ _ _ => eq_refl) (fun _ _ _ => eq_refl) (fun _ _ _ => eq_refl) H)
    as (b & s & a & Hh & Fb & Fa & Hs).
  exists (b ++ s ++ a)%list. split; [exact Hh|].
  rewrite !filter_app, (forallb_negb_filter _ _ Fb), (forallb_negb_filter _ _ Fa), app_nil_r.
  destruct Hs as [->|[input ->]]; cbn; lia.
Qed.

Lemma QueryContext_submits_at_most_once_witness :
  exists calls : list Call,
    More.callsOf Sample.fresh
      (mkRunState
         [CallStartQueryExecution
            (mkStartInput "SELECTQueryContext_?" ["OK"] "sampledb" "s3://bucket/" "primary");
          CallGetQueryExecution "SELECTQueryContext_OK_QID";
          CallGetQueryResults "SELECTQueryContext_OK_QID" None]
         [] 1)
      calls
    /\ (List.length (filter More.isStart calls) <= 1)%nat.
Proof.
  apply (QueryContext_submits_at_most_once Sample.externals Sample.package 5
           (Sample.connection false) Sample.background
           "SELECTQueryContext_?" [Sample.arg (VString "OK")] Sample.fresh
           (Return (Some (mkRows "SELECTQueryContext_OK_QID" None), None))).
  - apply Sample_NewRows_quiet. reflexivity.
  - vm_compute. reflexivity.
Defined.

(** [QueryContext] stops an execution only when asked to. If the query does
    not carry the pseudo command [pc:stop_query_id] and the caller's context
    is never done, the run makes no [StopQueryExecution] call, whatever its
    outcome: not on a timeout, a failed or cancelled execution, a poll
    error or a fault. *)
Theorem QueryContext_stops_only_when_asked (X : Externals) (P : Package)
  (fuel : nat) (c : Connection) (ctx : Context) (query : string)
  (namedArgs : list NamedValue) (st : RunState) (o : Outcome Result) (st' : RunState) :
  (forall client qid cfg,
     More.quiet (fun ev => negb (Spec.isStop ev)) (NewRows client qid cfg)) ->
  (forall q, stripPseudoCommand query <> Proceed PCStopQID q) ->
  (forall h, Done ctx h = false) ->
  QueryContext fuel c ctx query namedArgs st = (o, st') ->
  exists calls : list Call,
    More.callsOf st st' calls /\ filter Spec.isStop calls = [].
Proof.
  intros Hrows Hpc Hdone H.
  destruct (QueryContext_calls (fun ev => negb (Spec.isStop ev))
              (fun _ => eq_refl) (fun _ => eq_refl) Hrows
              fuel c ctx query namedArgs st o st') as (b & s & a & Hh & Fb & Fa & Hs).
  - reflexivity.
  - intros q Hq. now destruct (Hpc q).
  - intros h Hd. rewrite Hdone in Hd. discriminate.
  - exact H.
  - exists (b ++ s ++ a)%list. split; [exact Hh|].
    rewrite !filter_app, (forallb_negb_filter _ _ Fb), (forallb_negb_filter _ _ Fa).
    destruct Hs as [->|[input ->]]; reflexivity.
Qed.

Lemma QueryContext_stops_only_when_asked_witness :
  exists calls : list Call,
    More.callsOf Sample.fresh
      (mkRunState
         [CallStartQueryExecution
            (mkStartInput "SELECTQueryContext_TIMEOUT" [] "sampledb" "s3://bucket/" "primary");
          CallGetQueryExecution "SELECTQueryContext_TIMEOUT_QID"]
         [] 0)
      calls
    /\ filter Spec.isStop calls = [].
Proof.
  apply (QueryContext_stops_only_when_asked Sample.externals Sample.package 5
           (Sample.connection false) Sample.background
           "SELECTQueryContext_TIMEOUT" [] Sample.fresh
           (Return (None, Some ErrQueryTimeout))).
  - apply Sample_NewRows_quiet. reflexivity.
  - intros q. vm_compute. discriminate.
  - reflexivity.
  - vm_compute. reflexivity.
Defined.

(** [QueryContext] creates a workgroup only where the configuration allows
    it. With remote workgroup creation disabled, the run makes no
    [CreateWorkGroup] call, whatever the answer of the workgroup look-up and
    the outcome. *)
Theorem QueryContext_creates_only_when_allowed (X : Externals) (P : Package)
  (fuel : nat) (c : Connection) (cfg : Config) (ctx : Context) (query : string)
  (namedArgs : list NamedValue) (st : RunState) (o : Outcome Result) (st' : RunState) :
  (forall client qid cfg,
     More.quiet (fun ev => negb (More.isCreate ev)) (NewRows client qid cfg)) ->
  connector c = Some cfg ->
  IsWGRemoteCreationAllowed cfg = false ->
  QueryContext fuel c ctx query namedArgs st = (o, st') ->
  exists calls : list Call,
    More.callsOf st st' calls /\ filter More.isCreate calls = [].
Proof.
  intros Hrows Hc Hno H.
  destruct (QueryContext_calls (fun ev => negb (More.isCreate ev))
              (fun _ => eq_refl) (fun _ => eq_refl) Hrows
              fuel c ctx query namedArgs st o st') as (b & s & a & Hh & Fb & Fa & Hs).
  - intros cfg' Hc' Hyes. rewrite Hc in Hc'. injection Hc' as <-.
    rewrite Hno in Hyes. discriminate.
  - reflexivity.
  - reflexivity.
  - exact H.
  - exists (b ++ s ++ a)%list. split; [exact Hh|].
    rewrite !filter_app, (forallb_negb_filter _ _ Fb), (forallb_negb_filter _ _ Fa).
    destruct Hs as [->|[input ->]]; reflexivity.
Qed.

Lemma QueryContext_creates_only_when_allowed_witness :
  exists calls : list Call,
    More.callsOf Sample.fresh (mkRunState [CallGetWorkGroup "analytics"] [] 0) calls
    /\ filter More.isCreate calls = [].
Proof.
  apply (QueryContext_creates_only_when_allowed Sample.externals Sample.package 5
           (mkConnection (Some (Mock.client Mock.newMockAthenaClient))
              (Some (mkConfig false false false (mkWorkgroup "analytics" [])
                       "sampledb" "s3://bucket/" 5 None)))
           (mkConfig false false false (mkWorkgroup "analytics" [])
              "sampledb" "s3://bucket/" 5 None)
           Sample.background "select 1" [] Sample.fresh
           (Return (None, Some (errorString
              ("workgroup " ++ fmtQ "analytics" ++
               " doesn't exist and workgroup remote creation is disabled"))))).
  - apply Sample_NewRows_quiet. reflexivity.
  - reflexivity.
  - reflexivity.
  - vm_compute. reflexivity.
Defined.

(* ================================================================== *)
(** ** Validation and the request *)

Section BeforeSubmission.
Import Spec More.
Context {X : Externals} {P : Package}.

(** Where the first half of [QueryContext] ends without having passed its
    checks, it has made no remote call and does not hand over. *)
Lemma beforeSubmission_validated c ctx query namedArgs st o st1 :
  beforeSubmission c ctx query namedArgs st = (o, st1) ->
  passesValidation c query namedArgs
  \/ (history st1 = history st /\ forall s, o <> Return (inr s)).
Proof.
  unfold beforeSubmission, bind, deref, ret, lift, setNumInput, panic.
  destruct (connector c) as [cfg|] eqn:Ec;
    [|intros [= <- <-]; right; split; [reflexivity | discriminate]].
  destruct (stripPseudoCommand query) as [pc q| |q] eqn:Es.
  - destruct (IsReadOnly cfg && negb (isReadOnlyStatement q)) eqn:Ero;
      [intros [= <- <-]; right; split; [reflexivity | discriminate]|].
    assert (Hro : IsReadOnly cfg = true -> isReadOnlyStatement q = true).
    { intros Hr. rewrite Hr in Ero. cbn in Ero. now apply negb_false_iff in Ero. }
    destruct (0 <? List.length namedArgs)%nat eqn:En; cbn.
    + destruct (interpolateParams q (namedValueToValue namedArgs)) as [[q' [e|]]|why|] eqn:Ei;
        try (intros [= <- <-]; right; split; [reflexivity | discriminate]).
      destruct (negb (isQueryValid q')) eqn:Ev;
        [intros [= <- <-]; right; split; [reflexivity | discriminate]|].
      intros _. left. exists cfg, pc, q, q'. rewrite En.
      apply negb_false_iff in Ev. auto.
    + destruct (negb (isQueryValid q)) eqn:Ev;
        [intros [= <- <-]; right; split; [reflexivity | discriminate]|].
      intros _. left. exists cfg, pc, q, q. rewrite En.
      apply negb_false_iff in Ev. auto.
  - unfold getHeaderlessSingleRowResultPage, NewNonOpsRows, bind, ret, deref. cbn.
    intros [= <- <-]; right; split; [reflexivity | discriminate].
  - intros [= <- <-]; right; split; [reflexivity | discriminate].
Qed.

(** The name that the workgroup block leaves, where it does not return. *)
Lemma resolveWorkgroup_name c cfg st name st' :
  resolveWorkgroup c cfg st = (Return (None, name), st') ->
  name = if String.eqb (Name (GetWorkgroup cfg)) "" then DefaultWGName
         else Name (GetWorkgroup cfg).
Proof.
  unfold resolveWorkgroup.
  destruct (String.eqb (Name (GetWorkgroup cfg)) "") eqn:E0.
  { now intros [= <- <-]. }
  destruct (negb (String.eqb (Name (GetWorkgroup cfg)) DefaultWGName)) eqn:Ed.
  2:{ now intros [= <- <-]. }
  unfold bind.
  destruct (getWG (athenaClient c) (Name (GetWorkgroup cfg)) st) as [[[wg [e|]]|why|] st1];
    try discriminate.
  - destruct (IsWGRemoteCreationAllowed cfg); [|discriminate].
    destruct (CreateWGRemotely (GetWorkgroup cfg) (athenaClient c) st1) as [[[e'|]|why|] st2];
      try discriminate.
    now intros [= <- <-].
  - destruct wg as [wg|]; cbn; [|discriminate].
    destruct (wgState wg); try discriminate. now intros [= <- <-].
Qed.

(** The request that goes out for the local variables handed over. *)
Lemma beforeSubmission_request c ctx query namedArgs st0 s st1 :
  beforeSubmission c ctx query namedArgs st0 = (Return (inr s), st1) ->
  exists cfg pc q,
    connector c = Some cfg /\ stripPseudoCommand query = Proceed pc q
    /\ submitted s = requestOf cfg q namedArgs.
Proof.
  unfold beforeSubmission, bind, deref, ret, lift, getHistory, setNumInput, panic.
  destruct (connector c) as [cfg|]; [|discriminate].
  destruct (stripPseudoCommand query) as [pc q| |q].
  - destruct (IsReadOnly cfg && negb (isReadOnlyStatement q)); [discriminate|].
    destruct (0 <? List.length namedArgs)%nat; cbn.
    + destruct (interpolateParams q (namedValueToValue namedArgs)) as [[q' [e|]]| |];
        try discriminate.
      destruct (negb (isQueryValid q')); [discriminate|].
      destruct (resolveWorkgroup c cfg _) as [[[[e|] wg]| |] st'] eqn:R; try discriminate.
      apply resolveWorkgroup_name in R. cbn.
      destruct (IsQID q').
      * destruct (queryByQID c cfg pc q' st') as [[r| |] st'']; discriminate.
      * intros [= <- <-]. exists cfg, pc, q. repeat split.
        unfold submitted, startInput, requestOf. cbn. now rewrite R.
    + destruct (negb (isQueryValid q)); [discriminate|].
      destruct (resolveWorkgroup c cfg _) as [[[[e|] wg]| |] st'] eqn:R; try discriminate.
      apply resolveWorkgroup_name in R. cbn.
      destruct (IsQID q).
      * destruct (queryByQID c cfg pc q st') as [[r| |] st'']; discriminate.
      * intros [= <- <-]. exists cfg, pc, q. repeat split.
        unfold submitted, startInput, requestOf. cbn. now rewrite R.
  - unfold getHeaderlessSingleRowResultPage, NewNonOpsRows, bind, ret, deref. cbn. discriminate.
  - discriminate.
Qed.

Lemma forallb_In (q : Call -> bool) (calls : list Call) (ev : Call) :
  forallb q calls = true -> In ev calls -> q ev = true.
Proof. intros H Hin. rewrite forallb_forall in H. now apply H. Qed.

End BeforeSubmission.

(** [QueryContext] contacts the service only for a query that has passed
    its checks. If a run makes any remote call at all, then the connection
    is open, the query carries no pseudo command or one of the three that
    are not answered locally, the read-only gate lets the stripped query
    through, the arguments interpolate, and the resulting text is valid. *)
Theorem QueryContext_validates_before_calling (X : Externals) (P : Package)
  (fuel : nat) (c : Connection) (ctx : Context) (query : string)
  (namedArgs : list NamedValue) (st : RunState) (o : Outcome Result) (st' : RunState) :
  QueryContext fuel c ctx query namedArgs st = (o, st') ->
  history st' <> history st ->
  More.passesValidation c query namedArgs.
Proof.
  unfold QueryContext, bind. intros H Hcalls.
  destruct (beforeSubmission c ctx query namedArgs st) as [o1 st1] eqn:E.
  destruct (beforeSubmission_validated _ _ _ _ _ _ _ E) as [Hv|[Hh Hs]]; [exact Hv|].
  exfalso. apply Hcalls.
  destruct o1 as [[r|s]|why|].
  - injection H as <- <-. exact Hh.
  - now destruct (Hs s).
  - injection H as <- <-. exact Hh.
  - injection H as <- <-. exact Hh.
Qed.

Lemma QueryContext_validates_before_calling_witness :
  More.passesValidation (X := Sample.externals) (P := Sample.package)
    (Sample.connection false) "SELECTQueryContext_?" [Sample.arg (VString "OK")].
Proof.
  apply (QueryContext_validates_before_calling Sample.externals Sample.package 5
           (Sample.connection false) Sample.background
           "SELECTQueryContext_?" [Sample.arg (VString "OK")] Sample.fresh
           (Return (Some (mkRows "SELECTQueryContext_OK_QID" None), None))
           (mkRunState
              [CallStartQueryExecution
                 (mkStartInput "SELECTQueryContext_?" ["OK"] "sampledb" "s3://bucket/"
                    "primary");
               CallGetQueryExecution "SELECTQueryContext_OK_QID";
               CallGetQueryResults "SELECTQueryContext_OK_QID" None]
              [] 1)).
  - vm_compute. reflexivity.
  - discriminate.
Defined.

(** The one [StartQueryExecution] call of a run carries the request built
    from the stripped query and the arguments. *)
Lemma QueryContext_start_call {X : Externals} {P : Package}
  (fuel : nat) (c : Connection) (ctx : Context) (query : string)
  (namedArgs : list NamedValue) (st : RunState) (o : Outcome Result) (st' : RunState)
  (calls : list Call) (input : StartQueryExecutionInput) :
  (forall client qid cfg,
     More.quiet (fun ev => negb (More.isStart ev)) (NewRows client qid cfg)) ->
  QueryContext fuel c ctx query namedArgs st = (o, st') ->
  More.callsOf st st' calls ->
  In (CallStartQueryExecution input) calls ->
  exists (cfg : Config) (pc q : string),
    connector c = Some cfg
    /\ stripPseudoCommand query = Proceed pc q
    /\ input = More.requestOf cfg q namedArgs.
Proof.
  intros Hrows H Hcalls Hin. unfold QueryContext, bind in H.
  destruct (beforeSubmission c ctx query namedArgs st) as [o1 st1] eqn:E.
  pose proof (quiet_beforeSubmission (fun ev => negb (More.isStart ev))
                (fun _ => eq_refl) (fun _ => eq_refl) Hrows c ctx query namedArgs
                (fun _ _ _ _ _ => eq_refl) (fun _ _ _ => eq_refl) _ _ _ E) as (b & Hb & Fb).
  assert (Hnot : forall l, forallb (fun ev => negb (More.isStart ev)) l = true ->
                           ~ In (CallStartQueryExecution input) l).
  { intros l Fl Hl. pose proof (forallb_In _ _ _ Fl Hl) as Hq. discriminate Hq. }
  unfold More.callsOf in Hcalls.
  destruct o1 as [[r|s]|why|].
  1,3,4: injection H as <- <-; rewrite Hb in Hcalls; apply app_inv_head in Hcalls;
    subst calls; now destruct (Hnot b Fb).
  destruct (submitAndWait_calls (fun ev => negb (More.isStart ev)) (fun _ => eq_refl) Hrows
              _ _ _ _ _ _ _ (fun _ _ _ => eq_refl) H) as [Hh|(a & Ha & Fa)].
  - rewrite Hh, Hb in Hcalls. apply app_inv_head in Hcalls.
    subst calls. now destruct (Hnot b Fb).
  - rewrite Ha in Hcalls. cbn [Spec.recorded history] in Hcalls.
    rewrite Hb, <- !app_assoc in Hcalls. apply app_inv_head in Hcalls. subst calls.
    apply in_app_or in Hin. destruct Hin as [Hin|Hin]; [now destruct (Hnot b Fb)|].
    apply in_app_or in Hin. destruct Hin as [Hin|Hin]; [|now destruct (Hnot a Fa)].
    destruct Hin as [Hin|[]]. injection Hin as <-.
    exact (beforeSubmission_request _ _ _ _ _ _ _ E).
Qed.


(** What [QueryContext] submits. Every [StartQueryExecution] call of a run
    carries the stripped query with its placeholders in place (it is not
    the interpolated text), the arguments as execution parameters, the
    database and output location of the configuration, and the configured
    workgroup, or the default one where its name is empty. *)
Theorem QueryContext_request (X : Externals) (P : Package)
  (fuel : nat) (c : Connection) (ctx : Context) (query : string)
  (namedArgs : list NamedValue) (st : RunState) (o : Outcome Result) (st' : RunState)
  (calls : list Call) (input : StartQueryExecutionInput) :
  (forall client qid cfg,
     More.quiet (fun ev => negb (More.isStart ev)) (NewRows client qid cfg)) ->
  QueryContext fuel c ctx query namedArgs st = (o, st') ->
  More.callsOf st st' calls ->
  In (CallStartQueryExecution input) calls ->
  exists (cfg : Config) (pc q : string),
    connector c = Some cfg
    /\ stripPseudoCommand query = Proceed pc q
    /\ input = More.requestOf cfg q namedArgs.
Proof.
  exact (QueryContext_start_call fuel c ctx query namedArgs st o st' calls input).
Qed.

Lemma QueryContext_request_witness :
  exists (cfg : Config) (pc q : string),
    connector (Sample.connection false) = Some cfg
    /\ stripPseudoCommand "SELECTQueryContext_?" = Proceed pc q
    /\ mkStartInput "SELECTQueryContext_?" ["OK"] "sampledb" "s3://bucket/" "primary"
       = More.requestOf (X := Sample.externals) (P := Sample.package)
           cfg q [Sample.arg (VString "OK")].
Proof.
  apply (QueryContext_request Sample.externals Sample.package 5
           (Sample.connection false) Sample.background
           "SELECTQueryContext_?" [Sample.arg (VString "OK")] Sample.fresh
           (Return (Some (mkRows "SELECTQueryContext_OK_QID" None), None))
           (mkRunState
              [CallStartQueryExecution
                 (mkStartInput "SELECTQueryContext_?" ["OK"] "sampledb" "s3://bucket/"
                    "primary");
               CallGetQueryExecution "SELECTQueryContext_OK_QID";
               CallGetQueryResults "SELECTQueryContext_OK_QID" None]
              [] 1)
           [CallStartQueryExecution
              (mkStartInput "SELECTQueryContext_?" ["OK"] "sampledb" "s3://bucket/"
                 "primary");
            CallGetQueryExecution "SELECTQueryContext_OK_QID";
            CallGetQueryResults "SELECTQueryContext_OK_QID" None]).
  - apply Sample_NewRows_quiet. reflexivity.
  - vm_compute. reflexivity.
  - reflexivity.
  - left. reflexivity.
Defined.

(* ================================================================== *)
(** ** More ways out of the poll loop *)

(** An execution that the service reports as Cancelled. Let a call of
    [QueryContext] start polling, let its first [k] turns go round, and let
    the poll of turn [k] observe the state Cancelled. Then, with fuel for
    more than [k] turns, the call returns no rows and [context.Canceled],
    the error of a cancellation by the caller, and its last remote call is
    that poll: it makes no [StopQueryExecution] call. *)
Theorem QueryContext_execution_cancelled
  (X : Externals) (P : Package) (fuel : nat) (c : Connection) (ctx : Context)
  (query : string) (namedArgs : list NamedValue) (st0 st1 : RunState)
  (s : Submission) (cl : AthenaClient) (qid : string) (k : nat)
  (status : QueryExecutionStatus) (ty : StatementType) :
  Spec.startsPolling c ctx query namedArgs st0 s st1 cl qid ->
  Spec.keepsPolling cl ctx s st1 qid k ->
  Spec.observed cl (Spec.pollStart s st1) qid k = Some (status, ty) ->
  State status = QueryExecutionStateCancelled ->
  (k < fuel)%nat ->
  QueryContext fuel c ctx query namedArgs st0
  = (Return (None, Some contextCanceled),
     Spec.polled st1 (Spec.pollStart s st1) qid (S k)).
Proof.
  intros Hsp Hk Ho Hcancelled Hf.
  rewrite (QueryContext_in_turn fuel c ctx query namedArgs st0 s st1 cl qid k Hsp Hk Hf).
  destruct Hsp as ((_ & Hc & _) & _ & _).
  rewrite (waitingForResult_turn _ _ _ _ _ _ _ _ _ _ Hc).
  destruct (observed_inv _ _ _ _ _ _ Ho) as (qe & -> & -> & _).
  now rewrite Hcancelled.
Qed.

Lemma QueryContext_execution_cancelled_witness :
  QueryContext (X := Sample.externals) (P := Sample.package) 5
    (Sample.connection false) Sample.background
    "SELECTQueryContext_AWS_CANCEL" [] Sample.fresh
  = (Return (None, Some contextCanceled),
     mkRunState
       [CallStartQueryExecution
          (mkStartInput "SELECTQueryContext_AWS_CANCEL" [] "sampledb" "s3://bucket/"
             "primary");
        CallGetQueryExecution "SELECTQueryContext_AWS_CANCEL_QID"]
       [] 0).
Proof.
  apply (QueryContext_execution_cancelled Sample.externals Sample.package 5
           (Sample.connection false) Sample.background
           "SELECTQueryContext_AWS_CANCEL" [] Sample.fresh Sample.fresh
           (mkSubmission (Sample.config false) "" "SELECTQueryContext_AWS_CANCEL"
              "SELECTQueryContext_AWS_CANCEL" [] "primary" 0)
           (Mock.client Mock.newMockAthenaClient)
           "SELECTQueryContext_AWS_CANCEL_QID" 0
           (mkStatus QueryExecutionStateCancelled None) (StatementTypeOther "")).
  - repeat split; reflexivity.
  - intros j Hj. lia.
  - reflexivity.
  - reflexivity.
  - lia.
Defined.

(** A poll that fails. Let a call of [QueryContext] start polling, let its
    first [k] turns go round, and let the poll of turn [k] be answered with
    an error. Then, with fuel for more than [k] turns, the call returns no
    rows and that error as it is, whatever response comes with it, and its
    last remote call is that poll: the execution is not stopped. *)
Theorem QueryContext_poll_error
  (X : Externals) (P : Package) (fuel : nat) (c : Connection) (ctx : Context)
  (query : string) (namedArgs : list NamedValue) (st0 st1 : RunState)
  (s : Submission) (cl : AthenaClient) (qid : string) (k : nat)
  (resp : option GetQueryExecutionOutput) (e : error) :
  Spec.startsPolling c ctx query namedArgs st0 s st1 cl qid ->
  Spec.keepsPolling cl ctx s st1 qid k ->
  GetQueryExecution cl (Spec.pollHistory (Spec.pollStart s st1) qid k) qid = (resp, Some e) ->
  (k < fuel)%nat ->
  QueryContext fuel c ctx query namedArgs st0
  = (Return (None, Some e), Spec.polled st1 (Spec.pollStart s st1) qid (S k)).
Proof.
  intros Hsp Hk He Hf.
  rewrite (QueryContext_in_turn fuel c ctx query namedArgs st0 s st1 cl qid k Hsp Hk Hf).
  destruct Hsp as ((_ & Hc & _) & _ & _).
  rewrite (waitingForResult_turn _ _ _ _ _ _ _ _ _ _ Hc), He.
  now destruct resp as [[[qe|]]|].
Qed.

Lemma QueryContext_poll_error_witness :
  QueryContext (X := Sample.externals) (P := Sample.package) 5
    (Sample.connection false) Sample.background
    "StartQueryExecution_OK_GetQueryExecutionWithContext_QueryExecutionStateFailed" []
    Sample.fresh
  = (Return (None, Some ErrTestMockFailedByAthena),
     mkRunState
       [CallStartQueryExecution
          (mkStartInput
             "StartQueryExecution_OK_GetQueryExecutionWithContext_QueryExecutionStateFailed"
             [] "sampledb" "s3://bucket/" "primary");
        CallGetQueryExecution "QueryExecutionStateFailed_QID"]
       [] 0).
Proof.
  apply (QueryContext_poll_error Sample.externals Sample.package 5
           (Sample.connection false) Sample.background
           "StartQueryExecution_OK_GetQueryExecutionWithContext_QueryExecutionStateFailed" []
           Sample.fresh Sample.fresh
           (mkSubmission (Sample.config false) ""
              "StartQueryExecution_OK_GetQueryExecutionWithContext_QueryExecutionStateFailed"
              "StartQueryExecution_OK_GetQueryExecutionWithContext_QueryExecutionStateFailed"
              [] "primary" 0)
           (Mock.client Mock.newMockAthenaClient)
           "QueryExecutionStateFailed_QID" 0 None ErrTestMockFailedByAthena).
  - repeat split; reflexivity.
  - intros j Hj. lia.
  - reflexivity.
  - lia.
Defined.

(** An execution that succeeds. Let a call of [QueryContext] start polling,
    let its first [k] turns go round, and let the poll of turn [k] observe
    the state Succeeded. Then, with fuel for more than [k] turns, the call
    is the call of [NewRows] for the execution's id after the submission
    and [k + 1] polls: what it returns is what [NewRows] returns, rows and
    error alike, and no other remote call lies between. *)
Theorem QueryContext_succeeded
  (X : Externals) (P : Package) (fuel : nat) (c : Connection) (ctx : Context)
  (query : string) (namedArgs : list NamedValue) (st0 st1 : RunState)
  (s : Submission) (cl : AthenaClient) (qid : string) (k : nat)
  (status : QueryExecutionStatus) (ty : StatementType) :
  Spec.startsPolling c ctx query namedArgs st0 s st1 cl qid ->
  Spec.keepsPolling cl ctx s st1 qid k ->
  Spec.observed cl (Spec.pollStart s st1) qid k = Some (status, ty) ->
  State status = QueryExecutionStateSucceeded ->
  (k < fuel)%nat ->
  QueryContext fuel c ctx query namedArgs st0
  = NewRows (athenaClient c) qid (sConfig s)
      (Spec.polled st1 (Spec.pollStart s st1) qid (S k)).
Proof.
  intros Hsp Hk Ho Hsucceeded Hf.
  rewrite (QueryContext_in_turn fuel c ctx query namedArgs st0 s st1 cl qid k Hsp Hk Hf).
  destruct Hsp as ((_ & Hc & _) & _ & _).
  rewrite (waitingForResult_turn _ _ _ _ _ _ _ _ _ _ Hc).
  destruct (observed_inv _ _ _ _ _ _ Ho) as (qe & -> & -> & _).
  now rewrite Hsucceeded.
Qed.

Lemma QueryContext_succeeded_witness :
  QueryContext (X := Sample.externals) (P := Sample.package) 5
    (Sample.connection false) Sample.background "SELECTQueryContext_OK" [] Sample.fresh
  = NewRows (Package := Sample.package)
      (athenaClient (Sample.connection false)) "SELECTQueryContext_OK_QID"
      (Sample.config false)
      (mkRunState
         [CallStartQueryExecution
            (mkStartInput "SELECTQueryContext_OK" [] "sampledb" "s3://bucket/" "primary");
          CallGetQueryExecution "SELECTQueryContext_OK_QID"]
         [] 0).
Proof.
  apply (QueryContext_succeeded Sample.externals Sample.package 5
           (Sample.connection false) Sample.background
           "SELECTQueryContext_OK" [] Sample.fresh Sample.fresh
           (mkSubmission (Sample.config false) "" "SELECTQueryContext_OK"
              "SELECTQueryContext_OK" [] "primary" 0)
           (Mock.client Mock.newMockAthenaClient)
           "SELECTQueryContext_OK_QID" 0
           (mkStatus QueryExecutionStateSucceeded None) StatementTypeDdl).
  - repeat split; reflexivity.
  - intros j Hj. lia.
  - reflexivity.
  - reflexivity.
  - lia.
Defined.

(** The poll loop has no exit of its own. If a call of [QueryContext]
    starts polling and every turn goes round (the polls keep observing
    non-terminal states, the caller's context is not done and the timeout
    policy never says the time is up), then no number of turns ends the
    call: for every fuel the run is out of fuel, having submitted once and
    polled once per turn. *)
Theorem QueryContext_keeps_polling
  (X : Externals) (P : Package) (fuel : nat) (c : Connection) (ctx : Context)
  (query : string) (namedArgs : list NamedValue) (st0 st1 : RunState)
  (s : Submission) (cl : AthenaClient) (qid : string) :
  Spec.startsPolling c ctx query namedArgs st0 s st1 cl qid ->
  (forall k : nat, Spec.keepsPolling cl ctx s st1 qid k) ->
  QueryContext fuel c ctx query namedArgs st0
  = (OutOfFuel, Spec.polled st1 (Spec.pollStart s st1) qid fuel).
Proof.
  intros (Hs & Hpc & Ha) Hk.
  rewrite (QueryContext_answer _ _ _ _ _ _ _ _ _ Hs), Ha, Hpc.
  destruct Hs as (_ & Hc & _).
  replace (Spec.recorded st1 (CallStartQueryExecution (Spec.submitted s)))
    with (Spec.polled st1 (Spec.pollStart s st1) qid 0)
    by (unfold Spec.polled, Spec.recorded; now rewrite pollHistory_0).
  replace fuel with (fuel + 0)%nat at 1 by lia.
  rewrite (waitingForResult_rounds _ _ _ _ _ _ _ _ _ fuel Hc 0%nat).
  - reflexivity.
  - intros i Hi. apply (Hk fuel). lia.
Qed.

Lemma QueryContext_keeps_polling_witness :
  QueryContext (X := Sample.externals) (P := More.patient) 1000
    (Sample.connection false) Sample.background
    "SELECTQueryContext_CANCEL_OK" [] Sample.fresh
  = (OutOfFuel,
     Spec.polled Sample.fresh
       [CallStartQueryExecution
          (mkStartInput "SELECTQueryContext_CANCEL_OK" [] "sampledb" "s3://bucket/"
             "primary")]
       "SELECTQueryContext_CANCEL_OK_QID" 1000).
Proof.
  apply (QueryContext_keeps_polling Sample.externals More.patient 1000
           (Sample.connection false) Sample.background
           "SELECTQueryContext_CANCEL_OK" [] Sample.fresh Sample.fresh
           (mkSubmission (Sample.config false) "" "SELECTQueryContext_CANCEL_OK"
              "SELECTQueryContext_CANCEL_OK" [] "primary" 0)
           (Mock.client Mock.newMockAthenaClient)
           "SELECTQueryContext_CANCEL_OK_QID").
  - repeat split; reflexivity.
  - intros k j Hj. reflexivity.
Defined.

(* ================================================================== *)
(** ** A query that is an execution id *)

Section ById.
Import Spec More.
Context {X : Externals} {P : Package}.

(** Such a call is the code of lines 375-405, run after the workgroup block. *)
Lemma QueryContext_by_id fuel c ctx query st0 cfg pc q st1 :
  asksById c query st0 cfg pc q st1 ->
  QueryContext fuel c ctx query [] st0 = queryByQID c cfg pc q st1.
Proof.
  intros (Hc & Hs & Hro & Hv & (name & Hw) & Hid).
  unfold QueryContext, beforeSubmission, bind. rewrite Hc. cbn [deref ret].
  rewrite Hs, Hro. cbn. rewrite Hv. cbn. rewrite Hw. cbn. rewrite Hid.
  destruct (queryByQID c cfg pc q st1) as [[r|why|] st2]; reflexivity.
Qed.

End ById.

(** [pc:stop_query_id]. A call of [QueryContext] whose query is this pseudo
    command followed by an execution id makes, after the workgroup block,
    the one call [StopQueryExecution] for that id and nothing else: it
    returns the error of that call if there is one, and the single row
    [OK] otherwise. Nothing is submitted and nothing is polled. *)
Theorem QueryContext_stop_query_id (X : Externals) (P : Package)
  (fuel : nat) (c : Connection) (ctx : Context) (query : string) (st0 : RunState)
  (cfg : Config) (cl : AthenaClient) (qid : string) (st1 : RunState) :
  More.asksById c query st0 cfg PCStopQID qid st1 ->
  athenaClient c = Some cl ->
  QueryContext fuel c ctx query [] st0
  = (Return match StopQueryExecution cl (history st1) qid with
            | Some e => (None, Some e)
            | None => (Some (Spec.singleRow "OK"), None)
            end,
     Spec.recorded st1 (CallStopQueryExecution qid)).
Proof.
  intros Hask Hcl. rewrite (QueryContext_by_id fuel c ctx query st0 cfg _ qid st1 Hask).
  unfold queryByQID. cbn. rewrite Hcl.
  unfold bind, deref, ret, remote. cbn.
  destruct (StopQueryExecution cl (history st1) qid); reflexivity.
Qed.

Lemma QueryContext_stop_query_id_witness :
  QueryContext (X := Sample.externals) (P := Sample.package) 5
    (Sample.connection false) Sample.background
    "pc:stop_query_id c89088ab-595d-4ee6-a9ce-73b55aeb8954" [] Sample.fresh
  = (Return (Some (Spec.singleRow "OK"), None),
     mkRunState [CallStopQueryExecution "c89088ab-595d-4ee6-a9ce-73b55aeb8954"] [] 0).
Proof.
  apply (QueryContext_stop_query_id Sample.externals Sample.package 5
           (Sample.connection false) Sample.background
           "pc:stop_query_id c89088ab-595d-4ee6-a9ce-73b55aeb8954" Sample.fresh
           (Sample.config false) (Mock.client Mock.newMockAthenaClient)
           "c89088ab-595d-4ee6-a9ce-73b55aeb8954" Sample.fresh).
  - repeat split; try reflexivity. exists "primary". reflexivity.
  - reflexivity.
Defined.

(** [pc:get_query_id_status]. A call of [QueryContext] whose query is this
    pseudo command followed by an execution id makes, after the workgroup
    block, the one call [GetQueryExecution] for that id: it returns the
    error of that call if there is one, the single row that carries the
    name of the state otherwise, and faults where the answer lacks the
    execution or its status. The poll loop is not entered. *)
Theorem QueryContext_get_query_id_status (X : Externals) (P : Package)
  (fuel : nat) (c : Connection) (ctx : Context) (query : string) (st0 : RunState)
  (cfg : Config) (cl : AthenaClient) (qid : string) (st1 : RunState) :
  More.asksById c query st0 cfg PCGetQIDStatus qid st1 ->
  athenaClient c = Some cl ->
  QueryContext fuel c ctx query [] st0
  = (match GetQueryExecution cl (history st1) qid with
     | (_, Some e) => Return (None, Some e)
     | (Some (mkGetQueryExecutionOutput (Some (mkQueryExecution (Some status) _))), None) =>
         Return (Some (Spec.singleRow (stateString (State status))), None)
     | (_, None) => Panic "nil pointer dereference"
     end,
     Spec.recorded st1 (CallGetQueryExecution qid)).
Proof.
  intros Hask Hcl. rewrite (QueryContext_by_id fuel c ctx query st0 cfg _ qid st1 Hask).
  unfold queryByQID. cbn. rewrite Hcl.
  unfold bind, deref, ret, remote. cbn.
  destruct (GetQueryExecution cl (history st1) qid) as [[[[[[status|] ty]|]]|] [e|]];
    reflexivity.
Qed.

Lemma QueryContext_get_query_id_status_witness :
  QueryContext (X := Sample.externals) (P := Sample.package) 5
    (Sample.connection false) Sample.background
    "pc:get_query_id_status c89088ab-595d-4ee6-a9ce-73b55aeb8900" [] Sample.fresh
  = (Return (Some (Spec.singleRow "QUEUED"), None),
     mkRunState [CallGetQueryExecution "c89088ab-595d-4ee6-a9ce-73b55aeb8900"] [] 0).
Proof.
  apply (QueryContext_get_query_id_status Sample.externals Sample.package 5
           (Sample.connection false) Sample.background
           "pc:get_query_id_status c89088ab-595d-4ee6-a9ce-73b55aeb8900" Sample.fresh
           (Sample.config false) (Mock.client Mock.newMockAthenaClient)
           "c89088ab-595d-4ee6-a9ce-73b55aeb8900" Sample.fresh).
  - repeat split; try reflexivity. exists "primary". reflexivity.
  - reflexivity.
Defined.

(** A bare execution id. A call of [QueryContext] whose query, with no
    pseudo command or with [pc:get_query_id], is an execution id submits
    nothing: after the workgroup block it is the call of [NewRows] for that
    id, which reads the results of the earlier execution. *)
Theorem QueryContext_cached_query (X : Externals) (P : Package)
  (fuel : nat) (c : Connection) (ctx : Context) (query : string) (st0 : RunState)
  (cfg : Config) (pc qid : string) (st1 : RunState) :
  More.asksById c query st0 cfg pc qid st1 ->
  pc = "" \/ pc = PCGetQID ->
  QueryContext fuel c ctx query [] st0 = NewRows (athenaClient c) qid cfg st1.
Proof.
  intros Hask Hpc. rewrite (QueryContext_by_id fuel c ctx query st0 cfg pc qid st1 Hask).
  unfold queryByQID, cachedQuery. destruct Hpc as [-> | ->]; reflexivity.
Qed.

Lemma QueryContext_cached_query_witness :
  QueryContext (X := Sample.externals) (P := Sample.package) 5
    (Sample.connection false) Sample.background
    "c89088ab-595d-4ee6-a9ce-73b55aeb8900" [] Sample.fresh
  = NewRows (Package := Sample.package) (athenaClient (Sample.connection false))
      "c89088ab-595d-4ee6-a9ce-73b55aeb8900" (Sample.config false) Sample.fresh.
Proof.
  apply (QueryContext_cached_query Sample.externals Sample.package 5
           (Sample.connection false) Sample.background
           "c89088ab-595d-4ee6-a9ce-73b55aeb8900" Sample.fresh
           (Sample.config false) "" "c89088ab-595d-4ee6-a9ce-73b55aeb8900" Sample.fresh).
  - repeat split; try reflexivity. exists "primary". reflexivity.
  - left. reflexivity.
Defined.

(* ================================================================== *)
(** ** [getWG] *)

Section GetWG.
Context {P : Package}.

Lemma cacheLookup_head key v m : cacheLookup key ((key, v) :: m) = Some v.
Proof. cbn. now rewrite String.eqb_refl. Qed.

(** What a call of [getWG] that fetches leaves in the cache. *)
Lemma getWG_fetched cl name st w st1 :
  getWG (Some cl) name st = (Return (w, None), st1) ->
  history st1 <> history st ->
  cacheLookup name (getWGGroup st1) = Some (w, timeNow (history st1) + 10 * 60000000000).
Proof.
  unfold getWG, memoizeDo, bind, deref, ret, remote, getHistory, panic.
  destruct (cacheLookup name (getWGGroup st)) as [[v expiresAt]|].
  - destruct (timeNow (history st) <? expiresAt).
    + intros [= <- <-] H. now destruct H.
    + cbn. destruct (GetWorkGroup cl (history st) name) as [[out|] [e|]]; cbn;
        try discriminate.
      intros [= <- <-] _. cbn. now rewrite String.eqb_refl.
  - cbn. destruct (GetWorkGroup cl (history st) name) as [[out|] [e|]]; cbn;
      try discriminate.
    intros [= <- <-] _. cbn. now rewrite String.eqb_refl.
Qed.

(** A call of [getWG] that finds a fresh entry. *)
Lemma getWG_hit cl name st w expiresAt :
  cacheLookup name (getWGGroup st) = Some (w, expiresAt) ->
  timeNow (history st) < expiresAt ->
  getWG (Some cl) name st = (Return (w, None), st).
Proof.
  intros Hl Ht. unfold getWG, memoizeDo, bind. rewrite Hl.
  apply Z.ltb_lt in Ht. now rewrite Ht.
Qed.

End GetWG.

(** [getWG] remembers a workgroup for ten minutes. After a call that
    fetched the workgroup [name] from the service without error, a call for
    the same name that finds the entry still in the memoizer, less than ten
    minutes after the fetch, returns the same workgroup without a remote
    call. The memoizer is the one of the [memoize] package for one caller
    at a time. *)
Theorem getWG_memoized (P : Package)
  (cl cl' : AthenaClient) (name : string) (st st1 st2 : RunState)
  (w : option WorkGroup) :
  getWG (Some cl) name st = (Return (w, None), st1) ->
  history st1 <> history st ->
  cacheLookup name (getWGGroup st2) = cacheLookup name (getWGGroup st1) ->
  timeNow (history st2) < timeNow (history st1) + 10 * 60000000000 ->
  getWG (Some cl') name st2 = (Return (w, None), st2).
Proof.
  intros Hfirst Hfetched Hsame Hfresh.
  apply (getWG_hit cl' name st2 w (timeNow (history st1) + 10 * 60000000000)).
  - rewrite Hsame. exact (getWG_fetched cl name st w st1 Hfirst Hfetched).
  - exact Hfresh.
Qed.

Lemma getWG_memoized_witness :
  getWG (P := Sample.package) (Some (Mock.client (Mock.mkMock false true false))) "analytics"
    (mkRunState
       [CallGetWorkGroup "analytics"; CallGetQueryResults "q" None]
       [("analytics", (Some (mkWorkGroup WorkGroupStateEnabled), 601000000000))] 0)
  = (Return (Some (mkWorkGroup WorkGroupStateEnabled), None),
     mkRunState
       [CallGetWorkGroup "analytics"; CallGetQueryResults "q" None]
       [("analytics", (Some (mkWorkGroup WorkGroupStateEnabled), 601000000000))] 0).
Proof.
  apply (getWG_memoized Sample.package
           (Mock.client (Mock.mkMock false true false))
           (Mock.client (Mock.mkMock false true false))
           "analytics" Sample.fresh
           (mkRunState [CallGetWorkGroup "analytics"]
              [("analytics", (Some (mkWorkGroup WorkGroupStateEnabled), 601000000000))] 0)).
  - reflexivity.
  - discriminate.
  - reflexivity.
  - reflexivity.
Defined.

(* ================================================================== *)
(** ** [ExecContext] and [Close] *)

Section Exec.
Import Spec More.
Context {X : Externals} {P : Package}.
Variable UpdateCount : ResultPage -> option Z.

(** A run of [ExecContext] makes no remote call, or the remote calls of a
    run of [QueryContext] without arguments on the text that it has
    interpolated itself. *)
Lemma ExecContext_runs fuel c ctx query namedArgs st o st' :
  ExecContext UpdateCount fuel c ctx query namedArgs st = (o, st') ->
  history st' = history st
  \/ exists (cfg : Config) (q : string) (st1 : RunState) (o1 : Outcome Result),
       connector c = Some cfg
       /\ (if (0 <? List.length namedArgs)%nat
           then interpolateParams query (namedValueToValue namedArgs) = Return (q, None)
           else q = query)
       /\ history st1 = history st
       /\ QueryContext fuel c ctx q [] st1 = (o1, st').
Proof.
  unfold ExecContext, bind, deref, ret, lift, setNumInput, panic.
  destruct (connector c) as [cfg|] eqn:Ec; [|intros [= <- <-]; now left].
  destruct (0 <? List.length namedArgs)%nat eqn:En; cbn.
  - destruct (interpolateParams query (namedValueToValue namedArgs)) as [[q [e|]]|why|] eqn:Ei;
      try (intros [= <- <-]; now left).
    destruct (negb (isQueryValid q)); [intros [= <- <-]; now left|].
    destruct (QueryContext fuel c ctx q [] _) as [o1 st2] eqn:Eq.
    intros H. right.
    assert (st2 = st') as <- by (destruct o1 as [[rows [e|]]|why|]; now injection H).
    eexists cfg, q, _, o1. split; [reflexivity|]. split; [reflexivity|].
    split; [|exact Eq]. reflexivity.
  - destruct (negb (isQueryValid query)); [intros [= <- <-]; now left|].
    destruct (QueryContext fuel c ctx query [] st) as [o1 st2] eqn:Eq.
    intros H. right.
    assert (st2 = st') as <- by (destruct o1 as [[rows [e|]]|why|]; now injection H).
    exists cfg, query, st, o1. repeat split. exact Eq.
Qed.

End Exec.

(** What [ExecContext] submits. Every [StartQueryExecution] call of a run
    of [ExecContext] carries, as its text, the query with the arguments
    interpolated into it by the driver, stripped of a pseudo command, and
    as its execution parameters those of an empty argument list: unlike
    [QueryContext], [ExecContext] does not hand the arguments to the
    service. *)
Theorem ExecContext_request (X : Externals) (P : Package)
  (UpdateCount : ResultPage -> option Z)
  (fuel : nat) (c : Connection) (ctx : Context) (query : string)
  (namedArgs : list NamedValue) (st : RunState)
  (o : Outcome (option AthenaResult * option error)) (st' : RunState)
  (calls : list Call) (input : StartQueryExecutionInput) :
  (forall client qid cfg,
     More.quiet (fun ev => negb (More.isStart ev)) (NewRows client qid cfg)) ->
  ExecContext UpdateCount fuel c ctx query namedArgs st = (o, st') ->
  More.callsOf st st' calls ->
  In (CallStartQueryExecution input) calls ->
  exists (cfg : Config) (text pc q : string),
    connector c = Some cfg
    /\ (if (0 <? List.length namedArgs)%nat
        then interpolateParams query (namedValueToValue namedArgs) = Return (text, None)
        else text = query)
    /\ stripPseudoCommand text = Proceed pc q
    /\ input = More.requestOf cfg q [].
Proof.
  intros Hrows H Hcalls Hin. unfold More.callsOf in Hcalls.
  destruct (ExecContext_runs UpdateCount _ _ _ _ _ _ _ _ H)
    as [Hh|(cfg & text & st1 & o1 & Hc & Hi & Hh & Hq)].
  - rewrite Hh in Hcalls. rewrite <- (app_nil_r (history st)) in Hcalls at 1.
    apply app_inv_head in Hcalls. subst calls. destruct Hin.
  - rewrite <- Hh in Hcalls.
    destruct (QueryContext_start_call fuel c ctx text [] st1 o1 st' calls input
                Hrows Hq Hcalls Hin) as (cfg' & pc & q & Hc' & Hs & Hin').
    exists cfg', text, pc, q. rewrite Hc in Hc'. injection Hc' as <-. auto.
Qed.

Lemma ExecContext_request_witness :
  exists (cfg : Config) (text pc q : string),
    connector (Sample.connection false) = Some cfg
    /\ interpolateParams (X := Sample.externals) "SELECTQueryContext_?"
         (namedValueToValue (Package := Sample.package) [Sample.arg (VString "OK")])
       = Return (text, None)
    /\ stripPseudoCommand text = Proceed pc q
    /\ mkStartInput "SELECTQueryContext_'OK'" [] "sampledb" "s3://bucket/" "primary"
       = More.requestOf (X := Sample.externals) (P := Sample.package) cfg q [].
Proof.
  apply (ExecContext_request Sample.externals Sample.package (fun _ => None) 5
           (Sample.connection false) Sample.background
           "SELECTQueryContext_?" [Sample.arg (VString "OK")] Sample.fresh
           (Return (Some (mkAthenaResult (-1) 0), None))
           (mkRunState
              [CallStartQueryExecution
                 (mkStartInput "SELECTQueryContext_'OK'" [] "sampledb" "s3://bucket/"
                    "primary");
               CallGetQueryExecution "SELECTQueryContext_OK_QID";
               CallGetQueryResults "SELECTQueryContext_OK_QID" None]
              [] 1)
           [CallStartQueryExecution
              (mkStartInput "SELECTQueryContext_'OK'" [] "sampledb" "s3://bucket/"
                 "primary");
            CallGetQueryExecution "SELECTQueryContext_OK_QID";
            CallGetQueryResults "SELECTQueryContext_OK_QID" None]).
  - apply Sample_NewRows_quiet. reflexivity.
  - vm_compute. reflexivity.
  - reflexivity.
  - left. reflexivity.
Defined.

(** [ExecContext] returns a result or an error, never both and never
    neither; and the result's last inserted id is always -1. *)
Theorem ExecContext_result_or_error (X : Externals) (P : Package)
  (UpdateCount : ResultPage -> option Z)
  (fuel : nat) (c : Connection) (ctx : Context) (query : string)
  (namedArgs : list NamedValue) (st : RunState)
  (r : option AthenaResult) (err : option error) (st' : RunState) :
  ExecContext UpdateCount fuel c ctx query namedArgs st = (Return (r, err), st') ->
  (exists n : Z, r = Some (mkAthenaResult (-1) n) /\ err = None)
  \/ (exists e : error, r = None /\ err = Some e).
Proof.
  unfold ExecContext, bind, deref, ret, lift, setNumInput, panic.
  destruct (connector c) as [cfg|]; [|discriminate].
  destruct (0 <? List.length namedArgs)%nat; cbn.
  - destruct (interpolateParams query (namedValueToValue namedArgs)) as [[q [e|]]|why|];
      try discriminate.
    + intros [= <- <- <-]. right. eauto.
    + destruct (negb (isQueryValid q)); [intros [= <- <- <-]; right; eauto|].
      destruct (QueryContext fuel c ctx q [] _) as [[[rows [e|]]|why|] st2];
        try discriminate; intros [= <- <- <-]; [right | left]; eauto.
  - destruct (negb (isQueryValid query)); [intros [= <- <- <-]; right; eauto|].
    destruct (QueryContext fuel c ctx query [] st) as [[[rows [e|]]|why|] st2];
      try discriminate; intros [= <- <- <-]; [right | left]; eauto.
Qed.

Lemma ExecContext_result_or_error_witness :
  (exists n : Z, Some (mkAthenaResult (-1) 0) = Some (mkAthenaResult (-1) n)
                 /\ @None error = None)
  \/ (exists e : error, Some (mkAthenaResult (-1) 0) = None /\ @None error = Some e).
Proof.
  apply (ExecContext_result_or_error Sample.externals Sample.package (fun _ => None) 5
           (Sample.connection false) Sample.background
           "SELECTExecContext_OK" [] Sample.fresh
           (Some (mkAthenaResult (-1) 0)) None
           (mkRunState
              [CallStartQueryExecution
                 (mkStartInput "SELECTExecContext_OK" [] "sampledb" "s3://bucket/" "primary");
               CallGetQueryExecution "SELECTExecContext_OK_QID";
               CallGetQueryResults "SELECTExecContext_OK_QID" None]
              [] 0)).
  vm_compute. reflexivity.
Defined.

(** After [Close]. [Close] returns no error, sets [numInput] to -1 and
    makes no remote call; and on the connection as it leaves it, every call
    of [QueryContext] and of [ExecContext] faults on the nil connector
    before anything else happens, whatever the query. *)
Theorem Close_then_use (X : Externals) (P : Package)
  (UpdateCount : ResultPage -> option Z)
  (c c' : Connection) (err : option error) (st st1 : RunState) :
  Close c st = (Return (c', err), st1) ->
  err = None /\ numInput st1 = -1 /\ history st1 = history st
  /\ forall (fuel : nat) (ctx : Context) (query : string)
       (namedArgs : list NamedValue) (st2 : RunState),
       QueryContext fuel c' ctx query namedArgs st2 = (Panic "nil pointer dereference", st2)
       /\ ExecContext UpdateCount fuel c' ctx query namedArgs st2
          = (Panic "nil pointer dereference", st2).
Proof.
  unfold Close, bind, setNumInput, ret. intros [= <- <- <-].
  repeat split.
Qed.

Lemma Close_then_use_witness :
  @None error = None /\ numInput (mkRunState [] [] (-1)) = -1
  /\ history (mkRunState [] [] (-1)) = history Sample.fresh
  /\ forall (fuel : nat) (ctx : Context) (query : string)
       (namedArgs : list NamedValue) (st2 : RunState),
       QueryContext (X := Sample.externals) (P := Sample.package)
         fuel (mkConnection None None) ctx query namedArgs st2
       = (Panic "nil pointer dereference", st2)
       /\ ExecContext (X := Sample.externals) (P := Sample.package) (fun _ => None)
            fuel (mkConnection None None) ctx query namedArgs st2
          = (Panic "nil pointer dereference", st2).
Proof.
  apply (Close_then_use Sample.externals Sample.package (fun _ => None)
           (Sample.connection false) (mkConnection None None) None Sample.fresh
           (mkRunState [] [] (-1))).
  reflexivity.
Defined.

(* ================================================================== *)
(** ** Pseudo commands that find no execution id *)

Section NoId.
Context {X : Externals} {P : Package}.

(** [submitAndWait] reads the pseudo command only to compare it with
    [PCGetQID]. *)
Lemma submitAndWait_pseudoCommand fuel c ctx cfg pc q qp args wg start st :
  String.eqb pc PCGetQID = false ->
  submitAndWait fuel c ctx (mkSubmission cfg pc q qp args wg start) st
  = submitAndWait fuel c ctx (mkSubmission cfg "" q qp args wg start) st.
Proof.
  intros Hpc. unfold submitAndWait, startInput. cbn. rewrite Hpc. reflexivity.
Qed.

End NoId.

(** [pc:get_query_id_status] and [pc:stop_query_id] act on an execution id
    only. Where the text after one of them is not an execution id (nor,
    with arguments, the text interpolated from it), the pseudo command is
    dropped without an error and the text is run as a query: the call is
    the call of [QueryContext] for that text. *)
Theorem QueryContext_pseudo_command_without_id (X : Externals) (P : Package)
  (fuel : nat) (c : Connection) (ctx : Context) (query pc q : string)
  (namedArgs : list NamedValue) (st : RunState) :
  stripPseudoCommand query = Proceed pc q ->
  pc = PCGetQIDStatus \/ pc = PCStopQID ->
  stripPseudoCommand q = Proceed "" q ->
  (forall q' : string,
     (if (0 <? List.length namedArgs)%nat
      then interpolateParams q (namedValueToValue namedArgs) = Return (q', None)
      else q' = q) ->
     IsQID q' = false) ->
  QueryContext fuel c ctx query namedArgs st = QueryContext fuel c ctx q namedArgs st.
Proof.
  intros Hs Hpc Hq Hid.
  assert (Hget : String.eqb pc PCGetQID = false) by (destruct Hpc as [-> | ->]; reflexivity).
  unfold QueryContext, beforeSubmission, bind, deref, ret, lift, getHistory, setNumInput, panic.
  rewrite Hs, Hq.
  destruct (connector c) as [cfg|]; [|reflexivity].
  destruct (IsReadOnly cfg && negb (isReadOnlyStatement q)); [reflexivity|].
  destruct (0 <? List.length namedArgs)%nat; cbn.
  - destruct (interpolateParams q (namedValueToValue namedArgs)) as [[q' [e|]]|why|];
      try reflexivity.
    destruct (negb (isQueryValid q')); [reflexivity|].
    destruct (resolveWorkgroup c cfg _) as [[[[e|] wg]|why|] st1]; try reflexivity.
    rewrite (Hid q' eq_refl). cbn. apply submitAndWait_pseudoCommand, Hget.
  - destruct (negb (isQueryValid q)); [reflexivity|].
    destruct (resolveWorkgroup c cfg st) as [[[[e|] wg]|why|] st1]; try reflexivity.
    rewrite (Hid q eq_refl). cbn. apply submitAndWait_pseudoCommand, Hget.
Qed.

Lemma QueryContext_pseudo_command_without_id_witness :
  QueryContext (X := Sample.externals) (P := Sample.package) 5
    (Sample.connection false) Sample.background
    "pc:stop_query_id SELECTQueryContext_OK" [] Sample.fresh
  = QueryContext (X := Sample.externals) (P := Sample.package) 5
      (Sample.connection false) Sample.background "SELECTQueryContext_OK" [] Sample.fresh.
Proof.
  apply (QueryContext_pseudo_command_without_id Sample.externals Sample.package 5
           (Sample.connection false) Sample.background
           "pc:stop_query_id SELECTQueryContext_OK" PCStopQID "SELECTQueryContext_OK"
           [] Sample.fresh).
  - reflexivity.
  - right. reflexivity.
  - reflexivity.
  - intros q' Hq'. cbn in Hq'. rewrite Hq'. reflexivity.
Defined.
